(** * Xtark R20 controller: the serial protocol engine

    A shallow embedding of [xtark_r20_controller.py]: packet encoding
    ([_send_packet]), the receive loop and its packet scanner
    ([_receive_data]), telemetry decoding and dead-reckoning
    ([_process_received_data]) and the session operations ([set_velocity]
    and the other commands, [disconnect], [__exit__]).

    Python values are modelled as follows.
    - [bytes] / [bytearray]: lists of integers, each in [0, 255].
    - [int]: [Z].
    - [float]: IEEE-754 binary64, the kernel's primitive floats.
    - exceptions: the [Raise] case of [result].
    - [math.cos], [math.sin] and the clock [time.time] belong to the
      platform; they are Section variables. *)

From Stdlib Require Import ZArith List Lia Bool.
From Stdlib Require Import Sorting.Permutation.
From Stdlib Require Import Floats.PrimFloat Floats.FloatOps Floats.SpecFloat.
From Stdlib Require Floats.FloatAxioms.
From Stdlib Require Import Uint63.
Import ListNotations.

Set Warnings "-inexact-float".
Local Open Scope Z_scope.

(** ** Exceptions *)

Inductive exn : Set :=
| StructError      (* struct.error *)
| IndexError
| ValueError
| OverflowError
| SerialException.

Inductive result (A : Type) : Type :=
| Ok (a : A)
| Raise (e : exn).

Arguments Ok {A} a.
Arguments Raise {A} e.

Definition bind {A B : Type} (r : result A) (k : A -> result B) : result B :=
  match r with
  | Ok a => k a
  | Raise e => Raise e
  end.

Notation "x <- r ;; k" := (bind r (fun x => k))
  (at level 61, r at next level, right associativity).

(** ** Bytes and [struct] *)

Definition bytes := list Z.

Definition is_byte (b : Z) : Prop := 0 <= b <= 255.

(** [sum(b)] of a byte string. *)
Definition sum (b : bytes) : Z := fold_right Z.add 0 b.

(** [struct.pack('B', v)]. *)
Definition pack_B (v : Z) : result bytes :=
  if (0 <=? v) && (v <=? 255) then Ok [v] else Raise StructError.

(** [struct.pack('<BBBB', a, b, c, d)]. *)
Definition pack_BBBB (a b c d : Z) : result bytes :=
  ba <- pack_B a ;; bb <- pack_B b ;; bc <- pack_B c ;; bd <- pack_B d ;;
  Ok (ba ++ bb ++ bc ++ bd).

(** [struct.pack('<BBBBBB', a, b, c, d, e, f)]. *)
Definition pack_BBBBBB (a b c d e f : Z) : result bytes :=
  ba <- pack_B a ;; bb <- pack_B b ;; bc <- pack_B c ;;
  bd <- pack_B d ;; be <- pack_B e ;; bf <- pack_B f ;;
  Ok (ba ++ bb ++ bc ++ bd ++ be ++ bf).

(** [struct.pack('<h', v)]: two's complement, low byte first. *)
Definition pack_h (v : Z) : result bytes :=
  if (-32768 <=? v) && (v <=? 32767)
  then Ok [v mod 256; (v / 256) mod 256]
  else Raise StructError.

(** [struct.pack('<hhh', a, b, c)]. *)
Definition pack_hhh (a b c : Z) : result bytes :=
  ba <- pack_h a ;; bb <- pack_h b ;; bc <- pack_h c ;;
  Ok (ba ++ bb ++ bc).

(** One [H] field and one [h] field of [struct.unpack], from its low and
    high byte. *)
Definition unpack_H (lo hi : Z) : Z := lo + 256 * hi.

Definition unpack_h (lo hi : Z) : Z :=
  let u := unpack_H lo hi in
  if u <? 32768 then u else u - 65536.

(** [struct.unpack('<hhhhhhhhhH', data)]: [struct.error] unless [data] has
    exactly 20 bytes. *)
Definition unpack_hhhhhhhhhH (data : bytes) : result (list Z) :=
  match data with
  | [a0; a1; b0; b1; c0; c1; d0; d1; e0; e1;
     f0; f1; g0; g1; h0; h1; i0; i1; j0; j1] =>
      Ok [unpack_h a0 a1; unpack_h b0 b1; unpack_h c0 c1;
          unpack_h d0 d1; unpack_h e0 e1; unpack_h f0 f1;
          unpack_h g0 g1; unpack_h h0 h1; unpack_h i0 i1;
          unpack_H j0 j1]
  | _ => Raise StructError
  end.

(** ** Protocol constants *)

Definition HEADER1 : Z := 0xAA.
Definition HEADER2 : Z := 0x55.

Definition CMD_VELOCITY : Z := 0x50.
Definition CMD_IMU_CALIBRATE : Z := 0x51.
Definition CMD_RGB_LIGHT : Z := 0x52.
Definition CMD_LIGHT_SAVE : Z := 0x53.
Definition CMD_BEEPER : Z := 0x54.
Definition CMD_ROBOT_TYPE : Z := 0x5A.

Definition ID_INTEGRATED_DATA : Z := 0x10.

(** The payload width each identifier is used with: the [struct.pack]
    formats of the command methods, and the 20 bytes [_process_received_data]
    accepts for the integrated data. *)
Definition payload_width (cmd_id : Z) : option nat :=
  if cmd_id =? CMD_VELOCITY then Some 6%nat
  else if cmd_id =? CMD_IMU_CALIBRATE then Some 1%nat
  else if cmd_id =? CMD_RGB_LIGHT then Some 6%nat
  else if cmd_id =? CMD_LIGHT_SAVE then Some 1%nat
  else if cmd_id =? CMD_BEEPER then Some 1%nat
  else if cmd_id =? CMD_ROBOT_TYPE then Some 1%nat
  else if cmd_id =? ID_INTEGRATED_DATA then Some 20%nat
  else None.

Inductive RobotType : Set :=
| R20_MEC | R20_FWD | R20_AKM | R20_TWD | R20_TNK | R20_OMT.

(** [robot_type.value]. *)
Definition RobotType_value (robot_type : RobotType) : Z :=
  match robot_type with
  | R20_MEC => 0x01
  | R20_FWD => 0x02
  | R20_AKM => 0x03
  | R20_TWD => 0x04
  | R20_TNK => 0x05
  | R20_OMT => 0x06
  end.

(** ** Packet encoding: the body of [_send_packet] up to the write *)

Definition make_packet (cmd_id : Z) (data : bytes) : result bytes :=
  let data_len := Z.of_nat (length data) in
  let total_len := 5 + data_len in
  header <- pack_BBBB HEADER1 HEADER2 total_len cmd_id ;;
  let packet_without_checksum := header ++ data in
  let checksum := Z.land (sum packet_without_checksum) 0xFF in
  ck <- pack_B checksum ;;
  Ok (packet_without_checksum ++ ck).

(** ** Packet scanning: one iteration of the inner loop of [_receive_data] *)

(** [buffer.find(bytes([HEADER1, HEADER2]))]; [None] is Python's [-1]. *)
Fixpoint find_header (buffer : bytes) : option nat :=
  match buffer with
  | [] => None
  | b0 :: rest =>
      match rest with
      | [] => None
      | b1 :: _ =>
          if (b0 =? HEADER1) && (b1 =? HEADER2) then Some 0%nat
          else option_map S (find_header rest)
      end
  end.

(** [packet[-1]]. *)
Definition last_byte (packet : bytes) : result Z :=
  match packet with
  | [] => Raise IndexError
  | _ :: _ => Ok (last packet 0)
  end.

(** [packet[i]] for a non-negative [i]. *)
Definition index (packet : bytes) (i : nat) : result Z :=
  match nth_error packet i with
  | Some b => Ok b
  | None => Raise IndexError
  end.

(** What one iteration of [while len(buffer) >= 5] does to the buffer.
    [header_index] and [total_len] are the iteration's local variables.
    - [NoHeader]: no marker; [buffer.clear(); break].
    - [NeedMore]: [break] with the buffer cut at the marker.
    - [BadChecksum]: the packet is dropped, the loop goes on.
    - [GoodPacket]: [_process_received_data(cmd_id, data)] is called, the
      packet is dropped, the loop goes on. *)
Inductive scanned : Type :=
| NoHeader
| NeedMore (header_index : nat) (buffer : bytes)
| BadChecksum (header_index : nat) (total_len : Z) (buffer : bytes)
| GoodPacket (header_index : nat) (total_len : Z)
             (cmd_id : Z) (data : bytes) (buffer : bytes).

Definition scan_packet (buffer : bytes) : result scanned :=
  match find_header buffer with
  | None => Ok NoHeader
  | Some header_index =>
      let buffer := skipn header_index buffer in
      if (length buffer <? 4)%nat then Ok (NeedMore header_index buffer)
      else
        let total_len := nth 2 buffer 0 in
        if Z.of_nat (length buffer) <? total_len
        then Ok (NeedMore header_index buffer)
        else
          let packet := firstn (Z.to_nat total_len) buffer in
          let calc_checksum := Z.land (sum (removelast packet)) 0xFF in
          recv_checksum <- last_byte packet ;;
          let rest := skipn (Z.to_nat total_len) buffer in
          if calc_checksum =? recv_checksum
          then
            cmd_id <- index packet 3 ;;
            let data := skipn 4 (removelast packet) in
            Ok (GoodPacket header_index total_len cmd_id data rest)
          else Ok (BadChecksum header_index total_len rest)
  end.

(** ** Floats *)

Local Open Scope float_scope.

Definition GRAVITY : float := 9.80665.

(** [math.pi]. *)
Definition math_pi : float := 3.141592653589793.

(** Conversion of a Python [int] to [float], as the true division
    [raw / 32768.0] does it; exact below [2^53]. *)
Definition float_of_int (z : Z) : float :=
  match z with
  | Z0 => 0
  | Zpos _ => of_uint63 (Uint63.of_Z z)
  | Zneg p => - of_uint63 (Uint63.of_Z (Zpos p))
  end.

(** [int(f)]: truncation toward zero; [ValueError] on a NaN and
    [OverflowError] on an infinity. *)
Definition int_of_float (f : float) : result Z :=
  match Prim2SF f with
  | S754_zero _ => Ok 0%Z
  | S754_infinity _ => Raise OverflowError
  | S754_nan => Raise ValueError
  | S754_finite s m e =>
      let magnitude := Z.shiftl (Zpos m) e in
      Ok (if s then (- magnitude)%Z else magnitude)
  end.

(** ** Data classes *)

Module Velocity.
Record t : Set := mk { vx : float; vy : float; vw : float }.
Definition default : t := mk 0 0 0.
End Velocity.

Module IMUData.
Record t : Set := mk {
  accel_x : float; accel_y : float; accel_z : float;
  gyro_x : float; gyro_y : float; gyro_z : float }.
Definition default : t := mk 0 0 0 0 0 0.
End IMUData.

Module OdometryData.
Record t : Set := mk {
  x : float; y : float; theta : float;
  vx : float; vy : float; vw : float }.
Definition default : t := mk 0 0 0 0 0 0.
End OdometryData.

(** ** The transport

    [serial.Serial] as the controller uses it for output: whether the port is
    open, what has been written, and whether the line is failing (a write on
    a failing or closed port raises [SerialException]). *)
Module Serial.
Record t : Type := mk {
  is_open : bool;
  failing : bool;
  written : list bytes }.

Definition write (s : t) (packet : bytes) : result t :=
  if is_open s && negb (failing s)
  then Ok (mk (is_open s) (failing s) (written s ++ [packet]))
  else Raise SerialException.

Definition close (s : t) : t := mk false (failing s) (written s).
End Serial.

(** ** The controller object *)

Record Controller : Type := mkController {
  serial_conn : option Serial.t;
  is_connected : bool;
  is_running : bool;
  current_velocity : Velocity.t;
  odometry_data : OdometryData.t;
  imu_data : IMUData.t;
  battery_voltage : float;
  last_update_time : float }.

(** [__init__], with [now] the clock reading it takes; the port name, the
    baud rate and the thread handle play no part below and are left out. *)
Definition __init__ (now : float) : Controller :=
  mkController None false false Velocity.default OdometryData.default
               IMUData.default 0 now.

Definition set_serial_conn (c : Controller) (s : option Serial.t) :=
  mkController s (is_connected c) (is_running c) (current_velocity c)
    (odometry_data c) (imu_data c) (battery_voltage c) (last_update_time c).

Definition set_is_connected (c : Controller) (b : bool) :=
  mkController (serial_conn c) b (is_running c) (current_velocity c)
    (odometry_data c) (imu_data c) (battery_voltage c) (last_update_time c).

Definition set_is_running (c : Controller) (b : bool) :=
  mkController (serial_conn c) (is_connected c) b (current_velocity c)
    (odometry_data c) (imu_data c) (battery_voltage c) (last_update_time c).

Definition set_current_velocity (c : Controller) (v : Velocity.t) :=
  mkController (serial_conn c) (is_connected c) (is_running c) v
    (odometry_data c) (imu_data c) (battery_voltage c) (last_update_time c).

Definition set_telemetry (c : Controller) (o : OdometryData.t)
           (i : IMUData.t) (b : float) :=
  mkController (serial_conn c) (is_connected c) (is_running c)
    (current_velocity c) o i b (last_update_time c).

Definition set_last_update_time (c : Controller) (t : float) :=
  mkController (serial_conn c) (is_connected c) (is_running c)
    (current_velocity c) (odometry_data c) (imu_data c) (battery_voltage c) t.

(** A method call either returns or raises; both leave an object state. *)
Inductive outcome : Type :=
| Return (c : Controller)
| Raised (e : exn) (c : Controller).

Definition and_then (o : outcome) (k : Controller -> outcome) : outcome :=
  match o with
  | Return c => k c
  | Raised e c => Raised e c
  end.

(** A pure computation inside a method: its exception leaves the object as
    it is. *)
Definition eval {A : Type} (r : result A) (c : Controller)
           (k : A -> outcome) : outcome :=
  match r with
  | Ok a => k a
  | Raise e => Raised e c
  end.

Definition state_of (o : outcome) : Controller :=
  match o with
  | Return c => c
  | Raised _ c => c
  end.

(** ** Commands *)

(** [_send_packet]: [struct.error] is not caught, [SerialException] is
    caught and logged. *)
Definition _send_packet (c : Controller) (cmd_id : Z) (data : bytes)
  : outcome :=
  match serial_conn c with
  | None => Return c
  | Some conn =>
      if negb (is_connected c) then Return c
      else
        eval (make_packet cmd_id data) c (fun packet =>
          match Serial.write conn packet with
          | Ok conn' => Return (set_serial_conn c (Some conn'))
          | Raise SerialException => Return c
          | Raise e => Raised e c
          end)
  end.

Definition set_velocity (c : Controller) (vx vy vw : float) : outcome :=
  if negb (is_connected c) then Return c
  else
    eval (int_of_float (vx * 1000)) c (fun vx_int =>
    eval (int_of_float (vy * 1000)) c (fun vy_int =>
    eval (int_of_float (vw * 1000)) c (fun vw_int =>
    eval (pack_hhh vx_int vy_int vw_int) c (fun data =>
    and_then (_send_packet c CMD_VELOCITY data) (fun c =>
    Return (set_current_velocity c (Velocity.mk vx vy vw))))))).

Definition _set_robot_type (c : Controller) (robot_type : RobotType)
  : outcome :=
  eval (pack_B (RobotType_value robot_type)) c (fun data =>
  _send_packet c CMD_ROBOT_TYPE data).

Definition set_beeper (c : Controller) (enable : bool) : outcome :=
  if negb (is_connected c) then Return c
  else
    eval (pack_B (if enable then 1 else 0)) c (fun data =>
    _send_packet c CMD_BEEPER data).

Definition set_rgb_light (c : Controller) (r g b mode : Z) : outcome :=
  if negb (is_connected c) then Return c
  else
    let r := Z.max 0 (Z.min 255 r) in
    let g := Z.max 0 (Z.min 255 g) in
    let b := Z.max 0 (Z.min 255 b) in
    eval (pack_BBBBBB mode 0 0 r g b) c (fun data =>
    _send_packet c CMD_RGB_LIGHT data).

Definition save_light_setting (c : Controller) : outcome :=
  if negb (is_connected c) then Return c
  else
    eval (pack_B 0x55) c (fun data =>
    _send_packet c CMD_LIGHT_SAVE data).

Definition calibrate_imu (c : Controller) : outcome :=
  if negb (is_connected c) then Return c
  else
    eval (pack_B 0x55) c (fun data =>
    _send_packet c CMD_IMU_CALIBRATE data).

(** [disconnect]; joining the receive thread has no effect on the object. *)
Definition disconnect (c : Controller) : outcome :=
  if is_connected c then
    and_then (set_velocity c 0 0 0) (fun c =>
    let c := set_is_running c false in
    let c := match serial_conn c with
             | Some conn => set_serial_conn c (Some (Serial.close conn))
             | None => c
             end in
    Return (set_is_connected c false))
  else Return c.

(** [__exit__]: whatever the block did, [disconnect]. *)
Definition __exit__ (c : Controller) : outcome := disconnect c.


(** ** Telemetry and the receive loop *)

Section Platform.

(** [math.cos] and [math.sin], as functions on all floats: the [ValueError]
    they raise on an infinite argument is left out (the heading would have
    to overflow first). *)
Variable cos sin : float -> float.

(** [time.time()]: the [n]-th reading of the clock since the receive
    thread started. *)
Variable time_time : nat -> float.

(** [_process_received_data], with [current_time] the clock reading it
    takes on entry. *)
Definition _process_received_data (c : Controller) (cmd_id : Z)
           (data : bytes) (current_time : float) : Controller :=
  let dt := current_time - last_update_time c in
  let c :=
    if (cmd_id =? ID_INTEGRATED_DATA)%Z && (length data =? 20)%nat then
      match unpack_hhhhhhhhhH data with
      | Ok raw_values =>
          let raw i := float_of_int (nth i raw_values 0%Z) in
          let imu :=
            IMUData.mk
              ((raw 0%nat / 32768.0) * 2.0 * GRAVITY)
              ((raw 1%nat / 32768.0) * 2.0 * GRAVITY)
              ((raw 2%nat / 32768.0) * 2.0 * GRAVITY)
              ((raw 3%nat / 32768.0) * 500.0 * (math_pi / 180.0))
              ((raw 4%nat / 32768.0) * 500.0 * (math_pi / 180.0))
              ((raw 5%nat / 32768.0) * 500.0 * (math_pi / 180.0)) in
          let vx := raw 6%nat / 1000.0 in
          let vy := raw 7%nat / 1000.0 in
          let vw := raw 8%nat / 1000.0 in
          let o := odometry_data c in
          let theta := OdometryData.theta o in
          let odom :=
            if 0 <? dt then
              let delta_x := (vx * cos theta - vy * sin theta) * dt in
              let delta_y := (vx * sin theta + vy * cos theta) * dt in
              let delta_theta := vw * dt in
              OdometryData.mk (OdometryData.x o + delta_x)
                              (OdometryData.y o + delta_y)
                              (theta + delta_theta) vx vy vw
            else
              OdometryData.mk (OdometryData.x o) (OdometryData.y o)
                              theta vx vy vw in
          set_telemetry c odom imu (raw 9%nat / 100.0)
      | Raise _ => c
      end
    else c in
  set_last_update_time c current_time.

(** The inner loop [while len(buffer) >= 5] of [_receive_data]; [n] counts
    the clock readings taken so far. *)
Inductive loop_result : Type :=
| LoopDone (c : Controller) (n : nat) (buffer : bytes)
| LoopRaised (e : exn) (c : Controller) (n : nat).

Fixpoint inner_loop (fuel : nat) (c : Controller) (n : nat)
         (buffer : bytes) : option loop_result :=
  if (length buffer <? 5)%nat then Some (LoopDone c n buffer)
  else
    match fuel with
    | O => None
    | S fuel =>
        match scan_packet buffer with
        | Raise e => Some (LoopRaised e c n)
        | Ok NoHeader => Some (LoopDone c n [])
        | Ok (NeedMore _ buffer) => Some (LoopDone c n buffer)
        | Ok (BadChecksum _ _ buffer) => inner_loop fuel c n buffer
        | Ok (GoodPacket _ _ cmd_id data buffer) =>
            inner_loop fuel
              (_process_received_data c cmd_id data (time_time n))
              (S n) buffer
        end
    end.

(** Every iteration that goes on drops at least one byte, so the length
    of the buffer is fuel enough ([inner_loop_total] below). *)
Definition drain (c : Controller) (n : nat) (buffer : bytes)
  : loop_result :=
  match inner_loop (length buffer) c n buffer with
  | Some r => r
  | None => LoopDone c n buffer
  end.

(** One pass of [while self.is_running] in [_receive_data]. [incoming] is
    what the transport delivers in this pass: the bytes waiting (none when
    [in_waiting] is 0), or the exception [in_waiting] or [read] raises.
    The result is the next state of the loop, or the state it stops in. *)
Inductive pass_result : Type :=
| Continue (c : Controller) (n : nat) (buffer : bytes)
| Stop (c : Controller) (n : nat).

Definition receive_pass (c : Controller) (n : nat) (buffer : bytes)
           (incoming : result bytes) : pass_result :=
  if negb (is_running c) then Stop c n
  else
    match incoming with
    | Raise _ => Stop (set_is_connected c false) n
    | Ok received =>
        match drain c n (buffer ++ received) with
        | LoopDone c n buffer => Continue c n buffer
        | LoopRaised _ c n => Stop (set_is_connected c false) n
        end
    end.

(** The receive thread over the passes [feed] describes, from an empty
    buffer. *)
Fixpoint receive_run (c : Controller) (n : nat) (buffer : bytes)
         (feed : list (result bytes)) : pass_result :=
  match feed with
  | [] => Continue c n buffer
  | incoming :: feed =>
      match receive_pass c n buffer incoming with
      | Continue c n buffer => receive_run c n buffer feed
      | Stop c n => Stop c n
      end
  end.

Definition _receive_data (c : Controller) (feed : list (result bytes))
  : pass_result :=
  receive_run c 0 [] feed.

End Platform.

Local Close Scope float_scope.

(** ** Connecting, reading back, and the callers

    The rest of the session interface, and a caller of it. *)

(** A method call that returns a value. *)
Inductive returned (A : Type) : Type :=
| Returns (a : A) (c : Controller)
| Raises (e : exn) (c : Controller).

Arguments Returns {A} a c.
Arguments Raises {A} e c.

(** [_start_receive_thread]: the flag is set and the thread started; what
    the thread does is [_receive_data]. *)
Definition _start_receive_thread (c : Controller) : Controller :=
  set_is_running c true.

(** [connect]. [robot_type] is [self.robot_type], which [__init__] sets and
    nothing changes; [opened] is what [serial.Serial(...)] does: the port
    object it returns, or the [SerialException] it raises. *)
Definition connect (c : Controller) (robot_type : RobotType)
           (opened : result Serial.t) : returned bool :=
  match opened with
  | Raise SerialException => Returns false c
  | Raise e => Raises e c
  | Ok conn =>
      let c := set_serial_conn c (Some conn) in
      if Serial.is_open conn then
        let c := set_is_connected c true in
        let c := _start_receive_thread c in
        match _set_robot_type c robot_type with
        | Return c => Returns true c
        | Raised SerialException c => Returns false c
        | Raised e c => Raises e c
        end
      else Returns false c
  end.

Definition get_odometry (c : Controller) : OdometryData.t := odometry_data c.
Definition get_imu_data (c : Controller) : IMUData.t := imu_data c.
Definition get_battery_voltage (c : Controller) : float := battery_voltage c.
Definition get_current_velocity (c : Controller) : Velocity.t :=
  current_velocity c.

(** One of the five public command methods, with its arguments. *)
Inductive command : Type :=
| SetVelocity (vx vy vw : float)
| SetBeeper (enable : bool)
| SetRgbLight (r g b mode : Z)
| SaveLightSetting
| CalibrateImu.

Definition call (c : Controller) (cmd : command) : outcome :=
  match cmd with
  | SetVelocity vx vy vw => set_velocity c vx vy vw
  | SetBeeper enable => set_beeper c enable
  | SetRgbLight r g b mode => set_rgb_light c r g b mode
  | SaveLightSetting => save_light_setting c
  | CalibrateImu => calibrate_imu c
  end.

(** A caller that makes the calls one after the other and goes on after an
    exception. *)
Definition calls (c : Controller) (cmds : list command) : Controller :=
  fold_left (fun c cmd => state_of (call c cmd)) cmds c.

(** The packets written to the port of a controller. *)
Definition written_packets (c : Controller) : list bytes :=
  match serial_conn c with
  | Some conn => Serial.written conn
  | None => []
  end.

(** [_process_received_data] over the frames of a list, in order, each with
    the next reading of the clock. *)
Fixpoint process_frames (cos sin : float -> float) (time_time : nat -> float)
         (c : Controller) (n : nat) (frames : list (Z * bytes)) : Controller :=
  match frames with
  | [] => c
  | (cmd_id, data) :: frames =>
      process_frames cos sin time_time
        (_process_received_data cos sin c cmd_id data (time_time n))
        (S n) frames
  end.

(** All byte values, and a test run over every pair of them. *)
Definition byte_values : list Z := map Z.of_nat (seq 0 256).

Definition for_all_pairs (P : Z -> Z -> bool) : bool :=
  forallb (fun lo => forallb (fun hi => P lo hi) byte_values) byte_values.

(** What the command methods own of the object (the port, the flags and
    the commanded velocity) and what the receive thread owns (the decoded
    telemetry, the pose and the time stamp). *)
Definition same_session (c c' : Controller) : Prop :=
  serial_conn c' = serial_conn c /\
  is_running c' = is_running c /\
  current_velocity c' = current_velocity c.

Definition same_telemetry (c c' : Controller) : Prop :=
  odometry_data c' = odometry_data c /\
  imu_data c' = imu_data c /\
  battery_voltage c' = battery_voltage c /\
  last_update_time c' = last_update_time c.

(** Whether a marker followed by a zero length byte occurs in a byte
    string. *)
Fixpoint zero_length_marker (buffer : bytes) : bool :=
  match buffer with
  | [] => false
  | b0 :: rest =>
      match rest with
      | b1 :: b2 :: _ =>
          (b0 =? HEADER1) && (b1 =? HEADER2) && (b2 =? 0)
          || zero_length_marker rest
      | _ => false
      end
  end.

(** Whether the header of a telemetry packet occurs in a byte string: a
    marker, the length byte of a 20-byte payload (25), and the identifier of
    the integrated data. *)
Fixpoint telemetry_header (buffer : bytes) : bool :=
  match buffer with
  | [] => false
  | b0 :: rest =>
      match rest with
      | b1 :: b2 :: b3 :: _ =>
          (b0 =? HEADER1) && (b1 =? HEADER2) && (b2 =? 25)
          && (b3 =? ID_INTEGRATED_DATA)
          || telemetry_header rest
      | _ => false
      end
  end.

(** The reading of a clock that counts in seconds. *)
Definition clock_seconds (n : nat) : float := float_of_int (Z.of_nat n).

(** What a call [cmd] that returned may have done to the object: the
    telemetry and the flags are as before; the commanded velocity is as
    before or, for [set_velocity], the one commanded; the port has taken
    nothing, or one well-formed packet more. *)
Definition port_status (c : Controller) : option (bool * bool) :=
  option_map (fun conn => (Serial.is_open conn, Serial.failing conn))
             (serial_conn c).

Definition command_effect (c : Controller) (cmd : command)
           (c' : Controller) : Prop :=
  same_telemetry c c' /\
  (is_connected c' = is_connected c /\ port_status c' = port_status c) /\
  is_running c' = is_running c /\
  (current_velocity c' = current_velocity c \/
   exists vx vy vw, cmd = SetVelocity vx vy vw /\
                    current_velocity c' = Velocity.mk vx vy vw) /\
  (written_packets c' = written_packets c \/
   exists packet cmd_id data,
     written_packets c' = written_packets c ++ [packet] /\
     make_packet cmd_id data = Ok packet /\
     payload_width cmd_id = Some (length data)).

(** A packet of one of the identifiers of the code, with a payload of the
    width that identifier is used with. *)
Definition well_formed_packet (packet : bytes) : Prop :=
  exists cmd_id data,
    payload_width cmd_id = Some (length data) /\
    make_packet cmd_id data = Ok packet.

(** [max(0, min(255, v))], by cases. *)
Definition clamp_byte (v : Z) : Z :=
  if v <? 0 then 0 else if 255 <? v then 255 else v.

(** The packet [_set_robot_type] sends. *)
Definition robot_type_packet (robot_type : RobotType) : bytes :=
  [0xAA; 0x55; 0x06; 0x5A; RobotType_value robot_type;
   0x5F + RobotType_value robot_type].

(** The packet [set_velocity(0.0, 0.0, 0.0)] sends. *)
Definition stop_packet : bytes :=
  [0xAA; 0x55; 0x0B; 0x50; 0; 0; 0; 0; 0; 0; 0x5A].

(** [lo <= x <= hi] on floats. *)
Definition within (lo hi x : float) : bool :=
  ((lo <=? x) && (x <=? hi))%float.

(** The ranges of the sensors: 2 g, 500 degrees per second, and the
    largest 16-bit values in thousandths and hundredths. The two tests say
    that the values [_process_received_data] computes from one field with
    bytes [lo] and [hi] are inside them. *)
Definition accel_range : float := (2.0 * GRAVITY)%float.
Definition gyro_range : float := (500.0 * (math_pi / 180.0))%float.

Definition signed_field_in_range (lo hi : Z) : bool :=
  let raw := float_of_int (unpack_h lo hi) in
  (within (- accel_range) accel_range ((raw / 32768.0) * 2.0 * GRAVITY)
   && within (- gyro_range) gyro_range
             ((raw / 32768.0) * 500.0 * (math_pi / 180.0))
   && within (-32.768) 32.767 (raw / 1000.0))%float.

Definition unsigned_field_in_range (lo hi : Z) : bool :=
  within 0 655.35 (float_of_int (unpack_H lo hi) / 100.0)%float.

(** ** The caller beside the receive thread

    [connect] starts [_receive_data] on a thread of its own, and the caller
    goes on while it runs. Of the attributes of the object the thread
    assigns the telemetry ([odometry_data], [imu_data], [battery_voltage])
    and [last_update_time] when it processes a packet, and [is_connected] in
    its exception handler; of what the caller assigns it reads [is_running].
    The caller reads [is_connected], at the guard of every command method, at
    the guard of [_send_packet] and at the guard of [disconnect]. So what a
    caller can see of the thread is what the thread has assigned by the time
    of each of these reads, and that is what a [world] schedules. *)

Module Threaded.

(** One thing the receive thread does to the object: a packet processed,
    with the telemetry and the time stamp it leaves, or the exception handler
    [self.is_connected = False; break]. *)
Inductive interference : Type :=
| Publishes (odometry : OdometryData.t) (imu : IMUData.t)
            (battery : float) (time : float)
| Drops.

Definition interfere (c : Controller) (i : interference) : Controller :=
  match i with
  | Publishes odometry imu battery time =>
      set_last_update_time (set_telemetry c odometry imu battery) time
  | Drops => set_is_connected c false
  end.

(** The thread over the events of a stretch of time; the flag says whether
    it is still in its loop afterwards. *)
Fixpoint receive (c : Controller) (events : list interference)
  : Controller * bool :=
  match events with
  | [] => (c, true)
  | Drops :: _ => (interfere c Drops, false)
  | i :: events => receive (interfere c i) events
  end.

(** The object, whether the thread is in its loop, and what the thread
    will do before each of the caller's next reads of [is_connected] (and
    during each [time.sleep]); nothing, once the list is used up. *)
Record world : Type := mkWorld {
  self : Controller;
  receiving : bool;
  schedule : list (list interference) }.

Definition set_self (w : world) (c : Controller) : world :=
  mkWorld c (receiving w) (schedule w).

(** The caller lets the thread run: the next stretch of the schedule
    happens, if the thread is in its loop and [while self.is_running]
    holds. *)
Definition yield (w : world) : world :=
  match schedule w with
  | [] => w
  | events :: later =>
      if receiving w && is_running (self w) then
        let (c, looping) := receive (self w) events in
        mkWorld c looping later
      else mkWorld (self w) (receiving w) later
  end.

(** Whether the thread never reaches its exception handler. *)
Definition undisturbed (w : world) : bool :=
  forallb (forallb (fun i => match i with Drops => false | _ => true end))
          (schedule w).

(** A call returns a value or raises. *)
Inductive ended (A : Type) : Type :=
| Returned (a : A) (w : world)
| Threw (e : exn) (w : world).

Arguments Returned {A} a w.
Arguments Threw {A} e w.

Definition world_of {A : Type} (r : ended A) : world :=
  match r with
  | Returned _ w => w
  | Threw _ w => w
  end.

Definition next {A B : Type} (r : ended A) (k : A -> world -> ended B)
  : ended B :=
  match r with
  | Returned a w => k a w
  | Threw e w => Threw e w
  end.

Definition evaluate {A B : Type} (r : result A) (w : world)
           (k : A -> ended B) : ended B :=
  match r with
  | Ok a => k a
  | Raise e => Threw e w
  end.

(** A method that reads [is_connected] once ([_send_packet]), on the object
    as the thread has left it by then. *)
Definition at_once (w : world) (method : Controller -> outcome)
  : ended unit :=
  let w := yield w in
  match method (self w) with
  | Return c => Returned tt (set_self w c)
  | Raised e c => Threw e (set_self w c)
  end.

(** [time.sleep]. *)
Definition sleep (w : world) : ended unit := Returned tt (yield w).

(** The five command methods: the guard, the payload, [_send_packet]. *)
Definition set_velocity (w : world) (vx vy vw : float) : ended unit :=
  let w := yield w in
  if negb (is_connected (self w)) then Returned tt w
  else
    evaluate (int_of_float (vx * 1000)%float) w (fun vx_int =>
    evaluate (int_of_float (vy * 1000)%float) w (fun vy_int =>
    evaluate (int_of_float (vw * 1000)%float) w (fun vw_int =>
    evaluate (pack_hhh vx_int vy_int vw_int) w (fun data =>
    next (at_once w (fun c => _send_packet c CMD_VELOCITY data)) (fun _ w =>
    Returned tt
      (set_self w (set_current_velocity (self w) (Velocity.mk vx vy vw)))))))).

Definition set_beeper (w : world) (enable : bool) : ended unit :=
  let w := yield w in
  if negb (is_connected (self w)) then Returned tt w
  else
    evaluate (pack_B (if enable then 1 else 0)) w (fun data =>
    at_once w (fun c => _send_packet c CMD_BEEPER data)).

Definition set_rgb_light (w : world) (r g b mode : Z) : ended unit :=
  let w := yield w in
  if negb (is_connected (self w)) then Returned tt w
  else
    let r := Z.max 0 (Z.min 255 r) in
    let g := Z.max 0 (Z.min 255 g) in
    let b := Z.max 0 (Z.min 255 b) in
    evaluate (pack_BBBBBB mode 0 0 r g b) w (fun data =>
    at_once w (fun c => _send_packet c CMD_RGB_LIGHT data)).

Definition save_light_setting (w : world) : ended unit :=
  let w := yield w in
  if negb (is_connected (self w)) then Returned tt w
  else
    evaluate (pack_B 0x55) w (fun data =>
    at_once w (fun c => _send_packet c CMD_LIGHT_SAVE data)).

Definition calibrate_imu (w : world) : ended unit :=
  let w := yield w in
  if negb (is_connected (self w)) then Returned tt w
  else
    evaluate (pack_B 0x55) w (fun data =>
    at_once w (fun c => _send_packet c CMD_IMU_CALIBRATE data)).

Definition call (w : world) (cmd : command) : ended unit :=
  match cmd with
  | SetVelocity vx vy vw => set_velocity w vx vy vw
  | SetBeeper enable => set_beeper w enable
  | SetRgbLight r g b mode => set_rgb_light w r g b mode
  | SaveLightSetting => save_light_setting w
  | CalibrateImu => calibrate_imu w
  end.

(** A caller that makes the calls one after the other and goes on after an
    exception. *)
Definition calls (w : world) (cmds : list command) : world :=
  fold_left (fun w cmd => world_of (call w cmd)) cmds w.

(** [connect]: the thread is started, the caller sleeps for a tenth of a
    second, and [_set_robot_type] goes through [_send_packet]. *)
Definition connect (w : world) (robot_type : RobotType)
           (opened : result Serial.t) : ended bool :=
  match opened with
  | Raise SerialException => Returned false w
  | Raise e => Threw e w
  | Ok conn =>
      let c := set_serial_conn (self w) (Some conn) in
      if Serial.is_open conn then
        let c := set_is_connected c true in
        let c := _start_receive_thread c in
        let w := mkWorld c true (schedule w) in
        let w := yield w in
        match at_once w (fun c => _set_robot_type c robot_type) with
        | Returned _ w => Returned true w
        | Threw SerialException w => Returned false w
        | Threw e w => Threw e w
        end
      else Returned false (set_self w c)
  end.

(** [disconnect]. The guard, [set_velocity(0.0, 0.0, 0.0)] with its own
    guards, the sleep (and the pass the thread is in when [is_running]
    falls), then the flag, the join, which leaves the thread out of its
    loop, and the port. *)
Definition disconnect (w : world) : ended unit :=
  let w := yield w in
  if is_connected (self w) then
    next (set_velocity w 0 0 0) (fun _ w =>
    let w := yield w in
    let c := set_is_running (self w) false in
    let c := match serial_conn c with
             | Some conn => set_serial_conn c (Some (Serial.close conn))
             | None => c
             end in
    Returned tt (mkWorld (set_is_connected c false) false (schedule w)))
  else Returned tt w.

(** [__enter__]: the controller, or [ConnectionError]. *)
Inductive entered : Type :=
| Entered (w : world)
| ConnectionError (w : world)
| EnterRaised (e : exn) (w : world).

Definition __enter__ (w : world) (robot_type : RobotType)
           (opened : result Serial.t) : entered :=
  match connect w robot_type opened with
  | Returned true w => Entered w
  | Returned false w => ConnectionError w
  | Threw e w => EnterRaised e w
  end.

Definition __exit__ (w : world) : ended unit := disconnect w.

(** [with XtarkR20Controller(...) as robot: body]: [__exit__] runs on what
    the block leaves, whether it returned or raised, and an exception of the
    block then goes on; when [__enter__] raises, neither the body nor
    [__exit__] runs. *)
Inductive session : Type :=
| Exited (r : ended unit)
| NotEntered (w : world).

Definition with_controller (w : world) (robot_type : RobotType)
           (opened : result Serial.t) (body : world -> ended unit)
  : session :=
  match __enter__ w robot_type opened with
  | Entered w =>
      Exited
        match body w with
        | Returned _ w => __exit__ w
        | Threw e w =>
            match __exit__ w with
            | Returned _ w => Threw e w
            | Threw e' w => Threw e' w
            end
        end
  | ConnectionError w => NotEntered w
  | EnterRaised _ w => NotEntered w
  end.

(** [try: body finally: final]. *)
Definition try_finally (body : ended unit) (final : world -> ended unit)
  : ended unit :=
  match body with
  | Returned _ w => final w
  | Threw e w =>
      match final w with
      | Returned _ w => Threw e w
      | Threw e' w => Threw e' w
      end
  end.

(** [run_test_sequence] of [examples/fwd_test.py], on the controller it is
    given; the printing is left out, and so is a [KeyboardInterrupt], which
    comes from outside. *)
Definition run_test_sequence (w : world) (speed : float) : ended unit :=
  try_finally
    (next (set_velocity w speed 0 0) (fun _ w =>
     next (sleep w) (fun _ w =>
     next (set_velocity w 0 0 0) (fun _ w =>
     next (sleep w) (fun _ w =>
     next (set_velocity w (- speed) 0 0) (fun _ w =>
     next (sleep w) (fun _ w =>
     next (set_velocity w 0 0 0) (fun _ w =>
     next (sleep w) (fun _ w =>
     next (set_velocity w 0 0 (speed * 1.5)) (fun _ w =>
     next (sleep w) (fun _ w =>
     next (set_velocity w 0 0 0) (fun _ w =>
     next (sleep w) (fun _ w =>
     next (set_velocity w 0 0 (- speed * 1.5)) (fun _ w =>
     next (sleep w) (fun _ w =>
     set_velocity w 0 0 0)))))))))))))))%float
    (fun w => set_velocity w 0 0 0).

End Threaded.

(** What a stretch of the caller's run may have done to the session, with
    the thread beside it: the port is as open as before and has taken at most
    [k] packets more, all of them well formed; the running flag is as before;
    the connection flag is as before or has been cleared. *)
Definition session_step (k : nat) (c c' : Controller) : Prop :=
  port_status c' = port_status c /\
  is_running c' = is_running c /\
  (is_connected c' = is_connected c \/ is_connected c' = false) /\
  exists new,
    written_packets c' = written_packets c ++ new /\
    (length new <= k)%nat /\
    Forall well_formed_packet new.

(** A session the caller's commands no longer reach: disconnected, with
    the port and the commanded velocity as they were. *)
Definition left_alone (c c' : Controller) : Prop :=
  is_connected c' = false /\
  serial_conn c' = serial_conn c /\
  current_velocity c' = current_velocity c.

(** What a stretch of the caller's run leaves of a schedule on which the
    thread never reaches its handler: such a schedule again, and the
    connection flag as it was. *)
Definition calm (w w' : Threaded.world) : Prop :=
  Threaded.undisturbed w = true ->
  Threaded.undisturbed w' = true /\
  is_connected (Threaded.self w') = is_connected (Threaded.self w).

Definition beside (k : nat) (w w' : Threaded.world) : Prop :=
  session_step k (Threaded.self w) (Threaded.self w') /\ calm w w'.

(** ** Notions the properties are stated with *)

(** The checksum byte of a packet with the given length byte, identifier and
    payload: the low 8 bits of the sum of all bytes before it. *)
Definition checksum_of (total_len cmd_id : Z) (data : bytes) : Z :=
  Z.land (HEADER1 + HEADER2 + total_len + cmd_id + sum data) 0xFF.

(** The byte string [frame] with bit [k] of the byte at offset [i]
    inverted. *)
Fixpoint flip_bit (i : nat) (k : Z) (frame : bytes) : bytes :=
  match frame with
  | [] => []
  | b :: tl =>
      match i with
      | O => Z.lxor b (2 ^ k) :: tl
      | S i => b :: flip_bit i k tl
      end
  end.

(** What the receive buffer looks like when a pass of the receive loop is
    over: fewer than the 5 bytes the inner loop waits for, or a marker
    followed by a length byte that promises more than is there. *)
Definition settled (buffer : bytes) : Prop :=
  (length buffer < 5)%nat \/
  ((exists tl, buffer = HEADER1 :: HEADER2 :: tl) /\
   Z.of_nat (length buffer) < nth 2 buffer 0).

(** The [i]-th 16-bit little-endian field of a payload, read as signed and
    as unsigned. *)
Definition field_h (data : bytes) (i : nat) : Z :=
  unpack_h (nth (2 * i) data 0) (nth (2 * i + 1) data 0).

Definition field_H (data : bytes) (i : nat) : Z :=
  unpack_H (nth (2 * i) data 0) (nth (2 * i + 1) data 0).

(** The two bytes of a 16-bit value, low byte first; a negative value is
    taken modulo [2^16] (two's complement). *)
Definition le16 (v : Z) : bytes := [v mod 256; (v / 256) mod 256].

(** The payload that carries the given raw field values. *)
Definition telemetry_payload (raw : list Z) : bytes := flat_map le16 raw.

Definition is_int16 (v : Z) : Prop := -32768 <= v <= 32767.
Definition is_uint16 (v : Z) : Prop := 0 <= v <= 65535.

(** The pose of an odometry record, and the dead-reckoning step of the
    specification: with heading [theta] taken before the update,
    [dx = (vx*cos(theta) - vy*sin(theta))*dt],
    [dy = (vx*sin(theta) + vy*cos(theta))*dt], [dtheta = vw*dt]. *)
Definition pose (o : OdometryData.t) : float * float * float :=
  (OdometryData.x o, OdometryData.y o, OdometryData.theta o).

Definition spec_integrate (cos sin : float -> float)
           (p : float * float * float) (vx vy vw dt : float)
  : float * float * float :=
  let '(x, y, theta) := p in
  (x + (vx * cos theta - vy * sin theta) * dt,
   y + (vx * sin theta + vy * cos theta) * dt,
   theta + vw * dt)%float.

(** Truncated Maclaurin series, exact at 0: an instance of the platform
    functions for the places where one is needed. *)
Definition cos_series (x : float) : float :=
  (1 - x * x / 2 + x * x * x * x / 24)%float.

Definition sin_series (x : float) : float :=
  (x - x * x * x / 6)%float.

(** A connected session on an open port, commanded to 0.5 m/s. *)
Definition moving_session : Controller :=
  mkController (Some (Serial.mk true false [])) true true
    (Velocity.mk 0.5 0 0) OdometryData.default IMUData.default 0 0.

(** ** Encoding and scanning: basic facts *)

Lemma sum_app (a b : bytes) : sum (a ++ b) = sum a + sum b.
Proof.
  unfold sum. induction a as [|x a IH]; simpl; [reflexivity|].
  rewrite IH. lia.
Qed.

Lemma land_255_range (z : Z) : 0 <= Z.land z 0xFF <= 255.
Proof.
  change (Z.land z 0xFF) with (Z.land z (Z.ones 8)).
  rewrite Z.land_ones by lia. change (2 ^ 8) with 256.
  pose proof (Z.mod_pos_bound z 256). lia.
Qed.

Lemma pack_B_ok (v : Z) : 0 <= v <= 255 -> pack_B v = Ok [v].
Proof.
  intros H. unfold pack_B.
  destruct (Z.leb_spec 0 v), (Z.leb_spec v 255); simpl; try lia; reflexivity.
Qed.

(** The shape of an encoded packet. *)
Lemma make_packet_ok (cmd_id : Z) (data : bytes) :
  0 <= cmd_id <= 255 -> (length data <= 250)%nat ->
  make_packet cmd_id data =
  Ok (HEADER1 :: HEADER2 :: 5 + Z.of_nat (length data) :: cmd_id :: data ++
      [Z.land (HEADER1 + HEADER2 + (5 + Z.of_nat (length data)) + cmd_id
               + sum data) 0xFF]).
Proof.
  intros Hc Hl. unfold make_packet, pack_BBBB.
  rewrite (pack_B_ok HEADER1) by (unfold HEADER1; lia).
  rewrite (pack_B_ok HEADER2) by (unfold HEADER2; lia).
  rewrite (pack_B_ok (5 + Z.of_nat (length data))) by lia.
  rewrite (pack_B_ok cmd_id) by lia.
  cbn [bind app].
  rewrite pack_B_ok by apply land_255_range.
  cbn [bind app]. do 6 f_equal.
  cbn [sum fold_right]. fold (sum data). do 2 f_equal. lia.
Qed.

Lemma find_header_here (tl : bytes) :
  find_header (HEADER1 :: HEADER2 :: tl) = Some 0%nat.
Proof. reflexivity. Qed.

Lemma find_header_cons (b0 b1 : Z) (tl : bytes) :
  find_header (b0 :: b1 :: tl) =
  if (b0 =? HEADER1) && (b1 =? HEADER2) then Some 0%nat
  else option_map S (find_header (b1 :: tl)).
Proof. reflexivity. Qed.

(** The first marker of [g ++ marker ++ tl] is the one after [g] when [g]
    holds none: a marker cannot straddle the boundary, since the byte after
    [g] is [HEADER1], not [HEADER2]. *)
Lemma find_header_skip (g tl : bytes) :
  find_header g = None ->
  find_header (g ++ HEADER1 :: HEADER2 :: tl) = Some (length g).
Proof.
  induction g as [|b0 g IH]; intros Hg; [reflexivity|].
  destruct g as [|b1 g].
  - cbn [app]. rewrite find_header_cons.
    replace ((b0 =? HEADER1) && (HEADER1 =? HEADER2)) with false
      by (rewrite andb_comm; reflexivity).
    rewrite find_header_here. reflexivity.
  - rewrite find_header_cons in Hg.
    change ((b0 :: b1 :: g) ++ HEADER1 :: HEADER2 :: tl)
      with (b0 :: b1 :: (g ++ HEADER1 :: HEADER2 :: tl)).
    rewrite find_header_cons.
    destruct ((b0 =? HEADER1) && (b1 =? HEADER2)); [discriminate|].
    destruct (find_header (b1 :: g)) eqn:E; [discriminate|].
    change (b1 :: g ++ HEADER1 :: HEADER2 :: tl)
      with ((b1 :: g) ++ HEADER1 :: HEADER2 :: tl).
    rewrite IH by reflexivity. reflexivity.
Qed.

Lemma skipn_length_app (g l : bytes) : skipn (length g) (g ++ l) = l.
Proof. induction g; simpl; auto. Qed.

Lemma firstn_length_app (g l : bytes) : firstn (length g) (g ++ l) = g.
Proof. induction g; simpl; congruence. Qed.

(** Scanning a buffer that holds, after marker-free bytes [g], a packet-shaped
    run of [total_len] bytes and then [rest]: the run is accepted or dropped
    on its checksum byte alone. *)
Lemma scan_packet_shape (g : bytes) (total_len cmd_id : Z)
      (data : bytes) (ck : Z) (rest : bytes) :
  find_header g = None ->
  total_len = 5 + Z.of_nat (length data) ->
  scan_packet
    (g ++ HEADER1 :: HEADER2 :: total_len :: cmd_id :: data ++ ck :: rest) =
  Ok (if checksum_of total_len cmd_id data =? ck
      then GoodPacket (length g) total_len cmd_id data rest
      else BadChecksum (length g) total_len rest).
Proof.
  intros Hg HL. unfold scan_packet.
  rewrite find_header_skip by exact Hg.
  rewrite skipn_length_app.
  set (pk := [HEADER1; HEADER2; total_len; cmd_id] ++ data ++ [ck]).
  change (HEADER1 :: HEADER2 :: total_len :: cmd_id :: data ++ ck :: rest)
    with ([HEADER1; HEADER2; total_len; cmd_id] ++ data ++ [ck] ++ rest).
  replace ([HEADER1; HEADER2; total_len; cmd_id] ++ data ++ [ck] ++ rest)
    with (pk ++ rest) by (unfold pk; now rewrite <- !app_assoc).
  assert (Hlen : length pk = Z.to_nat total_len).
  { unfold pk. rewrite !length_app. cbn [length]. lia. }
  assert (H4 : (length (pk ++ rest) <? 4)%nat = false).
  { apply Nat.ltb_ge. rewrite length_app. lia. }
  rewrite H4.
  assert (Hn : nth 2 (pk ++ rest) 0 = total_len) by reflexivity.
  rewrite Hn.
  assert (Hlt : (Z.of_nat (length (pk ++ rest)) <? total_len) = false).
  { apply Z.ltb_ge. rewrite length_app. lia. }
  rewrite Hlt, <- Hlen, firstn_length_app, skipn_length_app.
  assert (Hpk : pk = ([HEADER1; HEADER2; total_len; cmd_id] ++ data) ++ [ck])
    by (unfold pk; now rewrite <- app_assoc).
  assert (Hlast : last_byte pk = Ok ck).
  { rewrite Hpk. unfold last_byte.
    destruct (([HEADER1; HEADER2; total_len; cmd_id] ++ data) ++ [ck]) eqn:E.
    - apply (f_equal (@length Z)) in E. rewrite length_app in E.
      cbn in E. lia.
    - rewrite <- E, last_last. reflexivity. }
  rewrite Hlast. cbn [bind].
  assert (Hrm : removelast pk = [HEADER1; HEADER2; total_len; cmd_id] ++ data)
    by (rewrite Hpk; apply removelast_last).
  rewrite Hrm.
  assert (Hsum : Z.land (sum ([HEADER1; HEADER2; total_len; cmd_id] ++ data))
                        0xFF = checksum_of total_len cmd_id data).
  { unfold checksum_of. rewrite sum_app. cbn [sum fold_right].
    f_equal. lia. }
  rewrite Hsum.
  destruct (checksum_of total_len cmd_id data =? ck); reflexivity.
Qed.

Lemma make_packet_checksum (cmd_id : Z) (data : bytes) :
  0 <= cmd_id <= 255 -> (length data <= 250)%nat ->
  make_packet cmd_id data =
  Ok (HEADER1 :: HEADER2 :: 5 + Z.of_nat (length data) :: cmd_id :: data ++
      [checksum_of (5 + Z.of_nat (length data)) cmd_id data]).
Proof. intros; now apply make_packet_ok. Qed.

Lemma make_packet_inv (cmd_id : Z) (data packet : bytes) :
  make_packet cmd_id data = Ok packet ->
  0 <= cmd_id <= 255 /\ (length data <= 250)%nat /\
  packet =
  HEADER1 :: HEADER2 :: 5 + Z.of_nat (length data) :: cmd_id :: data ++
  [checksum_of (5 + Z.of_nat (length data)) cmd_id data].
Proof.
  intros H.
  assert (R : 0 <= cmd_id <= 255 /\ (length data <= 250)%nat).
  { unfold make_packet, pack_BBBB, pack_B in H. cbn [bind] in H.
    change ((0 <=? HEADER1) && (HEADER1 <=? 255)) with true in H.
    change ((0 <=? HEADER2) && (HEADER2 <=? 255)) with true in H.
    cbn [bind] in H.
    destruct ((0 <=? 5 + Z.of_nat (length data))
              && (5 + Z.of_nat (length data) <=? 255)) eqn:EL;
      cbn [bind] in H; [|discriminate].
    destruct ((0 <=? cmd_id) && (cmd_id <=? 255)) eqn:EC;
      cbn [bind] in H; [|discriminate].
    apply andb_prop in EL, EC. destruct EL as [_ EL], EC as [EC1 EC2].
    apply Z.leb_le in EL, EC1, EC2. lia. }
  destruct R as [Hc Hl]. rewrite make_packet_checksum in H by assumption.
  injection H as <-. auto.
Qed.

(** Every identifier of the table fits a byte, and its payload a packet. *)
Lemma payload_width_bounds (cmd_id : Z) (w : nat) :
  payload_width cmd_id = Some w -> 0 <= cmd_id <= 255 /\ (w <= 250)%nat.
Proof.
  unfold payload_width, CMD_VELOCITY, CMD_IMU_CALIBRATE, CMD_RGB_LIGHT,
    CMD_LIGHT_SAVE, CMD_BEEPER, CMD_ROBOT_TYPE, ID_INTEGRATED_DATA.
  repeat match goal with
         | |- context [?a =? ?b] =>
             destruct (Z.eqb_spec a b); [intros [= <-]; lia|]
         end.
  discriminate.
Qed.

(** Encoding then scanning gives the packet back, for any identifier that
    fits a byte and any payload that fits the length byte. *)
Lemma scan_make_packet (cmd_id : Z) (data packet : bytes) :
  make_packet cmd_id data = Ok packet ->
  (5 <= length packet)%nat /\
  scan_packet packet =
  Ok (GoodPacket 0 (5 + Z.of_nat (length data)) cmd_id data []).
Proof.
  intros H. apply make_packet_inv in H. destruct H as (_ & _ & ->).
  split; [cbn [length]; rewrite length_app; cbn [length]; lia|].
  pose proof (scan_packet_shape [] (5 + Z.of_nat (length data)) cmd_id data
                (checksum_of (5 + Z.of_nat (length data)) cmd_id data) []
                eq_refl eq_refl) as S.
  rewrite Z.eqb_refl in S. exact S.
Qed.

(** ** C1: round trip *)

(** C1. For every supported identifier and payload of the width that
    identifier is used with, the packet [_send_packet] builds has at least
    the 5 bytes the receive loop waits for, and one iteration of that loop on
    exactly this packet finds the marker at offset 0 (nothing is discarded
    first), accepts the checksum, hands [(cmd_id, payload)] to
    [_process_received_data] and consumes [5 + len(payload)] bytes, leaving
    the buffer empty. *)
Theorem C1_roundtrip (cmd_id : Z) (payload : bytes) :
  payload_width cmd_id = Some (length payload) ->
  exists packet,
    make_packet cmd_id payload = Ok packet /\
    (5 <= length packet)%nat /\
    scan_packet packet =
    Ok (GoodPacket 0 (5 + Z.of_nat (length payload)) cmd_id payload []).
Proof.
  intros W. apply payload_width_bounds in W. destruct W as [Hc Hl].
  eexists. split; [apply make_packet_checksum; assumption|].
  apply scan_make_packet. apply make_packet_checksum; assumption.
Qed.

Lemma C1_roundtrip_witness :
  exists packet,
    make_packet CMD_VELOCITY [220; 5; 212; 254; 0; 0] = Ok packet /\
    (5 <= length packet)%nat /\
    scan_packet packet =
    Ok (GoodPacket 0 11 CMD_VELOCITY [220; 5; 212; 254; 0; 0] []).
Proof.
  exact (C1_roundtrip CMD_VELOCITY [220; 5; 212; 254; 0; 0] eq_refl).
Defined.

(** ** C2: single-bit flips *)

Lemma land_pow2_clear (b k : Z) :
  0 <= k -> Z.testbit b k = false -> Z.land b (2 ^ k) = 0.
Proof.
  intros Hk Hb. apply Z.bits_inj'. intros n Hn.
  rewrite Z.land_spec, Z.pow2_bits_eqb, Z.bits_0 by assumption.
  destruct (Z.eqb_spec k n) as [<-|_].
  - rewrite Hb. reflexivity.
  - apply andb_false_r.
Qed.

(** Inverting bit [k] adds or subtracts [2^k]. *)
Lemma lxor_pow2 (b k : Z) :
  0 <= k -> Z.lxor b (2 ^ k) = b + 2 ^ k \/ Z.lxor b (2 ^ k) = b - 2 ^ k.
Proof.
  intros Hk. destruct (Z.testbit b k) eqn:Hb.
  - right.
    assert (Hc : Z.testbit (Z.lxor b (2 ^ k)) k = false).
    { rewrite Z.lxor_spec, Hb, Z.pow2_bits_true by assumption. reflexivity. }
    pose proof (Z.add_nocarry_lxor _ _ (land_pow2_clear _ _ Hk Hc)) as E.
    rewrite Z.lxor_assoc, Z.lxor_nilpotent, Z.lxor_0_r in E. lia.
  - left. symmetry. apply Z.add_nocarry_lxor, land_pow2_clear; assumption.
Qed.

(** Within a byte, the change is not a multiple of 256. *)
Lemma flip_delta (b k : Z) :
  0 <= k < 8 ->
  exists d, Z.lxor b (2 ^ k) = b + d /\ d mod 256 <> 0.
Proof.
  intros Hk.
  assert (P : 2 ^ k mod 256 <> 0 /\ (- 2 ^ k) mod 256 <> 0).
  { assert (K : k = 0 \/ k = 1 \/ k = 2 \/ k = 3 \/
                k = 4 \/ k = 5 \/ k = 6 \/ k = 7) by lia.
    repeat (destruct K as [->|K]); try subst k; split; discriminate. }
  destruct (lxor_pow2 b k ltac:(lia)) as [E|E]; rewrite E.
  - exists (2 ^ k). tauto.
  - exists (- 2 ^ k). split; [lia|tauto].
Qed.

Lemma flip_bit_length (i : nat) (k : Z) (l : bytes) :
  length (flip_bit i k l) = length l.
Proof.
  revert i. induction l as [|b l IH]; intros [|i]; cbn; auto.
Qed.

Lemma flip_bit_app_l (i : nat) (k : Z) (a b : bytes) :
  (i < length a)%nat -> flip_bit i k (a ++ b) = flip_bit i k a ++ b.
Proof.
  revert i. induction a as [|x a IH]; intros i Hi; cbn in Hi; [lia|].
  destruct i as [|i]; cbn; [reflexivity|].
  rewrite IH by lia. reflexivity.
Qed.

Lemma flip_bit_app_r (i : nat) (k : Z) (a b : bytes) :
  flip_bit (length a + i) k (a ++ b) = a ++ flip_bit i k b.
Proof.
  induction a as [|x a IH]; cbn; [reflexivity|].
  rewrite IH. reflexivity.
Qed.

Lemma flip_bit_sum (i : nat) (k : Z) (l : bytes) :
  0 <= k < 8 -> (i < length l)%nat ->
  exists d, sum (flip_bit i k l) = sum l + d /\ d mod 256 <> 0.
Proof.
  intros Hk. revert i. induction l as [|b l IH]; intros i Hi; cbn in Hi; [lia|].
  destruct i as [|i]; cbn [flip_bit sum fold_right].
  - destruct (flip_delta b k Hk) as (d & -> & Hd). exists d. split; [|assumption].
    fold (sum l). lia.
  - destruct (IH i ltac:(lia)) as (d & E & Hd). exists d. split; [|assumption].
    fold (sum (flip_bit i k l)) (sum l). lia.
Qed.

Lemma land_255_shift (s d : Z) :
  d mod 256 <> 0 -> Z.land (s + d) 0xFF <> Z.land s 0xFF.
Proof.
  intros Hd.
  change 0xFF with (Z.ones 8). rewrite !Z.land_ones by lia.
  change (2 ^ 8) with 256. Z.to_euclidean_division_equations. lia.
Qed.

(** C2, as the code has it. For every packet [_send_packet] builds and every
    single-bit flip of a byte at offset 3 or more (the identifier, a payload
    byte or the checksum byte), one iteration of the receive loop on the
    mutated packet finds the marker at offset 0, rejects the checksum and
    drops exactly the declared [total_len] bytes: the packet is never handed
    to [_process_received_data]. Flips of the marker bytes and of the length
    byte are left out: they change what is summed. *)
Theorem C2_flip_detected (cmd_id : Z) (payload packet : bytes)
        (i : nat) (k : Z) :
  make_packet cmd_id payload = Ok packet ->
  (3 <= i < length packet)%nat ->
  0 <= k < 8 ->
  scan_packet (flip_bit i k packet) =
  Ok (BadChecksum 0 (5 + Z.of_nat (length payload)) []).
Proof.
  intros H Hi Hk. apply make_packet_inv in H. destruct H as (_ & _ & ->).
  set (L := 5 + Z.of_nat (length payload)) in *.
  cbn [length] in Hi. rewrite length_app in Hi. cbn [length] in Hi.
  destruct i as [|[|[|j]]]; try lia. cbn [flip_bit].
  change (cmd_id :: payload ++ [checksum_of L cmd_id payload])
    with ((cmd_id :: payload) ++ [checksum_of L cmd_id payload]).
  destruct (Nat.lt_ge_cases j (length (cmd_id :: payload))) as [Hj|Hj].
  - (* the identifier or a payload byte *)
    rewrite flip_bit_app_l by exact Hj.
    destruct (flip_bit_sum j k (cmd_id :: payload) Hk Hj) as (d & Es & Hd).
    pose proof (flip_bit_length j k (cmd_id :: payload)) as El.
    destruct (flip_bit j k (cmd_id :: payload)) as [|c' data'];
      [discriminate El|].
    cbn [length] in El. injection El as El.
    pose proof (scan_packet_shape [] L c' data'
                  (checksum_of L cmd_id payload) [] eq_refl) as S.
    cbn [app length] in S |- *. rewrite S by (unfold L; lia).
    replace (checksum_of L c' data' =? checksum_of L cmd_id payload)
      with false; [reflexivity|].
    symmetry. apply Z.eqb_neq. unfold checksum_of.
    cbn [sum fold_right] in Es. fold (sum data') (sum payload) in Es.
    replace (HEADER1 + HEADER2 + L + c' + sum data')
      with (HEADER1 + HEADER2 + L + cmd_id + sum payload + d) by lia.
    apply land_255_shift, Hd.
  - (* the checksum byte *)
    assert (j = length (cmd_id :: payload) + 0)%nat as -> by (cbn [length] in *; lia).
    rewrite flip_bit_app_r. cbn [flip_bit].
    destruct (flip_delta (checksum_of L cmd_id payload) k Hk) as (d & -> & Hd).
    pose proof (scan_packet_shape [] L cmd_id payload
                  (checksum_of L cmd_id payload + d) [] eq_refl eq_refl) as S.
    cbn [app length] in S |- *. rewrite S.
    replace (checksum_of L cmd_id payload =? checksum_of L cmd_id payload + d)
      with false; [reflexivity|].
    symmetry. apply Z.eqb_neq. intros E.
    assert (d = 0) as -> by lia. apply Hd. reflexivity.
Qed.

Lemma C2_flip_detected_witness :
  scan_packet
    (flip_bit 9 6 [0xAA; 0x55; 0x0B; 0x50; 0; 0; 0; 0; 0; 0x59; 0xB3]) =
  Ok (BadChecksum 0 11 []).
Proof.
  apply (C2_flip_detected CMD_VELOCITY [0; 0; 0; 0; 0; 0x59]
           [0xAA; 0x55; 0x0B; 0x50; 0; 0; 0; 0; 0; 0x59; 0xB3] 9 6).
  - reflexivity.
  - simpl. lia.
  - lia.
Defined.

(** C2 as stated fails on the marker and length bytes. The velocity packet
    for [vw_int = 0x5900] with bit 0 of its length byte flipped (11 becomes
    10) is accepted as a 10-byte packet with a 5-byte payload; with bit 7
    flipped (11 becomes 139) the loop waits for more bytes and discards
    nothing. A packet whose payload holds a complete 5-byte packet, with bit
    0 of its first marker byte flipped, is cut at the inner marker and the
    inner packet is accepted. *)
Lemma C2_counterexample :
  make_packet CMD_VELOCITY [0; 0; 0; 0; 0; 0x59] =
    Ok [0xAA; 0x55; 0x0B; 0x50; 0; 0; 0; 0; 0; 0x59; 0xB3] /\
  scan_packet
    (flip_bit 2 0 [0xAA; 0x55; 0x0B; 0x50; 0; 0; 0; 0; 0; 0x59; 0xB3]) =
    Ok (GoodPacket 0 10 CMD_VELOCITY [0; 0; 0; 0; 0] [0xB3]) /\
  scan_packet
    (flip_bit 2 7 [0xAA; 0x55; 0x0B; 0x50; 0; 0; 0; 0; 0; 0x59; 0xB3]) =
    Ok (NeedMore 0 [0xAA; 0x55; 0x8B; 0x50; 0; 0; 0; 0; 0; 0x59; 0xB3]) /\
  make_packet CMD_VELOCITY [0xAA; 0x55; 0x05; 0; 0x04; 0] =
    Ok [0xAA; 0x55; 0x0B; 0x50; 0xAA; 0x55; 0x05; 0; 0x04; 0; 0x62] /\
  scan_packet
    (flip_bit 0 0 [0xAA; 0x55; 0x0B; 0x50; 0xAA; 0x55; 0x05; 0; 0x04; 0; 0x62]) =
    Ok (GoodPacket 4 5 0 [] [0; 0x62]).
Proof. repeat split; reflexivity. Qed.

(** ** C8: resynchronisation *)

(** C8, as the code has it. For every byte string [garbage] that holds no
    marker ([find] returns -1 on it) and every packet [_send_packet] builds,
    one iteration of the receive loop on [garbage + packet] cuts the buffer
    at offset [len(garbage)] and then accepts the same identifier, the same
    payload and the same [total_len] as on the packet alone, where nothing is
    cut; both leave the buffer empty. *)
Theorem C8_resynchronisation (garbage : bytes) (cmd_id : Z)
        (payload packet : bytes) :
  find_header garbage = None ->
  make_packet cmd_id payload = Ok packet ->
  scan_packet (garbage ++ packet) =
    Ok (GoodPacket (length garbage) (5 + Z.of_nat (length payload))
                   cmd_id payload []) /\
  scan_packet packet =
    Ok (GoodPacket 0 (5 + Z.of_nat (length payload)) cmd_id payload []).
Proof.
  intros Hg H. split; [|apply (scan_make_packet _ _ _ H)].
  apply make_packet_inv in H. destruct H as (_ & _ & ->).
  pose proof (scan_packet_shape garbage (5 + Z.of_nat (length payload))
                cmd_id payload
                (checksum_of (5 + Z.of_nat (length payload)) cmd_id payload)
                [] Hg eq_refl) as S.
  rewrite Z.eqb_refl in S. exact S.
Qed.

Lemma C8_resynchronisation_witness :
  scan_packet ([0x00; 0xAA; 0x13; 0x55; 0xAA] ++
               [0xAA; 0x55; 0x06; 0x54; 0x01; 0x5A]) =
    Ok (GoodPacket 5 6 CMD_BEEPER [1] []) /\
  scan_packet [0xAA; 0x55; 0x06; 0x54; 0x01; 0x5A] =
    Ok (GoodPacket 0 6 CMD_BEEPER [1] []).
Proof.
  apply (C8_resynchronisation [0x00; 0xAA; 0x13; 0x55; 0xAA] CMD_BEEPER [1]
           [0xAA; 0x55; 0x06; 0x54; 0x01; 0x5A]); reflexivity.
Defined.

(** C8 as stated fails when the garbage itself holds the marker. The three
    bytes [AA 55 06] in front of the beeper packet [AA 55 06 54 01 5A] are
    read as the start of a 6-byte packet: its checksum fails, 6 bytes are
    dropped, and what is left of the real packet, [54 01 5A], holds no
    marker; alone, the packet is accepted. *)
Lemma C8_counterexample :
  find_header [0xAA; 0x55; 0x06] = Some 0%nat /\
  make_packet CMD_BEEPER [1] = Ok [0xAA; 0x55; 0x06; 0x54; 0x01; 0x5A] /\
  scan_packet ([0xAA; 0x55; 0x06] ++ [0xAA; 0x55; 0x06; 0x54; 0x01; 0x5A]) =
    Ok (BadChecksum 0 6 [0x54; 0x01; 0x5A]) /\
  find_header [0x54; 0x01; 0x5A] = None /\
  scan_packet [0xAA; 0x55; 0x06; 0x54; 0x01; 0x5A] =
    Ok (GoodPacket 0 6 CMD_BEEPER [1] []).
Proof. repeat split; reflexivity. Qed.

(** ** The inner loop: what one iteration leaves *)

Lemma find_header_Some (buffer : bytes) (h : nat) :
  find_header buffer = Some h ->
  exists tl, skipn h buffer = HEADER1 :: HEADER2 :: tl.
Proof.
  revert h. induction buffer as [|b0 rest IH]; intros h H; [discriminate|].
  destruct rest as [|b1 tl]; [discriminate|].
  rewrite find_header_cons in H.
  destruct ((b0 =? HEADER1) && (b1 =? HEADER2)) eqn:E.
  - injection H as <-. apply andb_prop in E. destruct E as [E0 E1].
    apply Z.eqb_eq in E0, E1. subst. exists tl. reflexivity.
  - destruct (find_header (b1 :: tl)) as [h'|]; [|discriminate].
    injection H as <-. apply (IH h' eq_refl).
Qed.

Lemma last_byte_Ok (packet : bytes) (b : Z) :
  last_byte packet = Ok b -> packet <> [].
Proof. destruct packet; [discriminate|congruence]. Qed.

(** An iteration that goes on has dropped at least one byte. *)
Lemma scan_packet_shrinks (buffer : bytes) (r : scanned) :
  scan_packet buffer = Ok r ->
  match r with
  | BadChecksum _ _ rest | GoodPacket _ _ _ _ rest =>
      (length rest < length buffer)%nat
  | _ => True
  end.
Proof.
  unfold scan_packet. destruct (find_header buffer) as [h|]; [|intros [= <-]; exact I].
  pose proof (length_skipn h buffer) as Hs.
  set (buf := skipn h buffer) in *.
  destruct (length buf <? 4)%nat eqn:E4; [intros [= <-]; exact I|].
  apply Nat.ltb_ge in E4.
  destruct (Z.of_nat (length buf) <? nth 2 buf 0); [intros [= <-]; exact I|].
  set (L := nth 2 buf 0).
  destruct (last_byte (firstn (Z.to_nat L) buf)) as [ck|e] eqn:El;
    [|discriminate].
  apply last_byte_Ok in El.
  assert (HL : (1 <= Z.to_nat L)%nat).
  { destruct (Z.to_nat L); [exfalso; apply El; reflexivity|lia]. }
  assert (Hr : (length (skipn (Z.to_nat L) buf) < length buffer)%nat)
    by (rewrite length_skipn; lia).
  cbn [bind].
  destruct (_ =? ck).
  - destruct (index (firstn (Z.to_nat L) buf) 3); cbn [bind];
      [intros [= <-]; exact Hr|discriminate].
  - intros [= <-]. exact Hr.
Qed.

(** An iteration that breaks with bytes kept leaves a settled buffer. *)
Lemma scan_packet_need_more (buffer : bytes) (h : nat) (rest : bytes) :
  scan_packet buffer = Ok (NeedMore h rest) -> settled rest.
Proof.
  unfold scan_packet. destruct (find_header buffer) as [h'|] eqn:Ef; [|discriminate].
  destruct (find_header_Some _ _ Ef) as [tl Etl].
  set (buf := skipn h' buffer) in *.
  destruct (length buf <? 4)%nat eqn:E4.
  - intros [= _ <-]. left. apply Nat.ltb_lt in E4. lia.
  - destruct (Z.of_nat (length buf) <? nth 2 buf 0) eqn:EL.
    + intros [= _ <-]. right. split; [exists tl; exact Etl|].
      apply Z.ltb_lt. exact EL.
    + destruct (last_byte _); cbn [bind]; [|discriminate].
      destruct (_ =? _); [|discriminate].
      destruct (index _ _); cbn [bind]; discriminate.
Qed.

(** The only exception an iteration raises is the [IndexError] of
    [packet[-1]] on an empty packet, that is on a declared [total_len] of 0
    (the one value of a length byte that [Z.to_nat] sends to 0): with a
    declared length of 1, 2 or 3 the checksum never matches, so [packet[3]]
    is not evaluated. *)
Lemma scan_packet_raises (buffer : bytes) (e : exn) :
  scan_packet buffer = Raise e ->
  e = IndexError /\
  exists h tl, skipn h buffer = HEADER1 :: HEADER2 :: tl /\
               find_header buffer = Some h /\ nth 0 tl 0 <= 0.
Proof.
  unfold scan_packet. destruct (find_header buffer) as [h|] eqn:Ef; [|discriminate].
  destruct (find_header_Some _ _ Ef) as [tl Etl]. rewrite Etl.
  destruct tl as [|L [|x tl]]; try discriminate.
  change (length (HEADER1 :: HEADER2 :: L :: x :: tl) <? 4)%nat with false.
  change (nth 2 (HEADER1 :: HEADER2 :: L :: x :: tl) 0) with L.
  cbv iota.
  destruct (_ <? L); [discriminate|].
  destruct (Z.to_nat L) as [|[|[|[|m]]]] eqn:EL.
  - cbn. intros [= <-]. split; [reflexivity|].
    exists h, (L :: x :: tl). cbn [nth]. repeat split; [assumption|lia].
  - assert (L = 1) as -> by lia. cbn. discriminate.
  - assert (L = 2) as -> by lia. cbn. discriminate.
  - assert (L = 3) as -> by lia. cbn. discriminate.
  - cbn [firstn]. unfold last_byte, index. cbn [nth_error bind].
    destruct (_ =? _); discriminate.
Qed.

(** ** The inner loop and a pass of the receive loop *)

Section ReceiveLoop.

Variable cos sin : float -> float.
Variable time_time : nat -> float.

Lemma inner_loop_short (fuel : nat) (c : Controller) (n : nat)
      (buffer : bytes) :
  (length buffer <? 5)%nat = true ->
  inner_loop cos sin time_time fuel c n buffer = Some (LoopDone c n buffer).
Proof. intros H. destruct fuel; cbn [inner_loop]; rewrite H; reflexivity. Qed.

Lemma inner_loop_step (fuel : nat) (c : Controller) (n : nat)
      (buffer : bytes) :
  (length buffer <? 5)%nat = false ->
  inner_loop cos sin time_time (S fuel) c n buffer =
  match scan_packet buffer with
  | Raise e => Some (LoopRaised e c n)
  | Ok NoHeader => Some (LoopDone c n [])
  | Ok (NeedMore _ buffer) => Some (LoopDone c n buffer)
  | Ok (BadChecksum _ _ buffer) =>
      inner_loop cos sin time_time fuel c n buffer
  | Ok (GoodPacket _ _ cmd_id data buffer) =>
      inner_loop cos sin time_time fuel
        (_process_received_data cos sin c cmd_id data (time_time n))
        (S n) buffer
  end.
Proof. intros H. cbn [inner_loop]. rewrite H. reflexivity. Qed.

(** The inner loop ends: the length of the buffer is fuel enough. *)
Lemma inner_loop_total (fuel : nat) (c : Controller) (n : nat)
      (buffer : bytes) :
  (length buffer <= fuel)%nat ->
  exists r, inner_loop cos sin time_time fuel c n buffer = Some r.
Proof.
  revert c n buffer.
  induction fuel as [|fuel IH]; intros c n buffer Hf.
  - destruct buffer; [|cbn in Hf; lia]. eexists. reflexivity.
  - destruct (length buffer <? 5)%nat eqn:E5.
    + rewrite inner_loop_short by exact E5. eexists. reflexivity.
    + rewrite inner_loop_step by exact E5.
      destruct (scan_packet buffer) as [r|e] eqn:Es; [|eexists; reflexivity].
      pose proof (scan_packet_shrinks _ _ Es) as Hs.
      destruct r; try (eexists; reflexivity); apply IH; lia.
Qed.

Lemma drain_inner_loop (c : Controller) (n : nat) (buffer : bytes) :
  inner_loop cos sin time_time (length buffer) c n buffer =
  Some (drain cos sin time_time c n buffer).
Proof.
  unfold drain.
  destruct (inner_loop_total (length buffer) c n buffer (le_n _)) as [r ->].
  reflexivity.
Qed.

(** When the inner loop ends without an exception the buffer is settled. *)
Lemma inner_loop_settled (fuel : nat) (c : Controller) (n : nat)
      (buffer : bytes) (c' : Controller) (n' : nat) (buffer' : bytes) :
  inner_loop cos sin time_time fuel c n buffer =
    Some (LoopDone c' n' buffer') ->
  settled buffer'.
Proof.
  revert c n buffer.
  induction fuel as [|fuel IH]; intros c n buffer;
    destruct (length buffer <? 5)%nat eqn:E5;
    try (rewrite inner_loop_short by exact E5;
         intros [= _ _ <-]; left; apply Nat.ltb_lt; exact E5).
  - cbn [inner_loop]. rewrite E5. discriminate.
  - rewrite inner_loop_step by exact E5.
    destruct (scan_packet buffer) as [r|e] eqn:Es; [|discriminate].
    destruct r as [|h rest|h L rest|h L cmd data rest].
    + intros [= _ _ <-]. left. cbn. lia.
    + intros [= _ _ <-]. exact (scan_packet_need_more _ _ _ Es).
    + apply IH.
    + apply IH.
Qed.

(** The inner loop raises exactly what an iteration raises. *)
Lemma inner_loop_raises (fuel : nat) (c : Controller) (n : nat)
      (buffer : bytes) (e : exn) (c' : Controller) (n' : nat) :
  inner_loop cos sin time_time fuel c n buffer =
    Some (LoopRaised e c' n') ->
  e = IndexError.
Proof.
  revert c n buffer.
  induction fuel as [|fuel IH]; intros c n buffer;
    destruct (length buffer <? 5)%nat eqn:E5;
    try (rewrite inner_loop_short by exact E5; discriminate).
  - cbn [inner_loop]. rewrite E5. discriminate.
  - rewrite inner_loop_step by exact E5.
    destruct (scan_packet buffer) as [r|e0] eqn:Es.
    + destruct r; try discriminate; apply IH.
    + intros [= <- _ _]. apply (scan_packet_raises _ _ Es).
Qed.

(** ** C4: the buffer between passes *)

(** C4, as the code has it. After every pass of the receive loop that goes
    on to the next one, the buffer holds fewer than 5 bytes (of any content:
    the inner loop does not look at a shorter buffer), or it starts with the
    marker [AA 55] and is shorter than the [total_len] its third byte
    declares. *)
Theorem C4_buffer_settled (c : Controller) (n : nat) (buffer : bytes)
        (incoming : result bytes) :
  match receive_pass cos sin time_time c n buffer incoming with
  | Continue _ _ buffer' => settled buffer'
  | Stop _ _ => True
  end.
Proof.
  unfold receive_pass.
  destruct (negb (is_running c)); [exact I|].
  destruct incoming as [received|e]; [|exact I].
  pose proof (drain_inner_loop c n (buffer ++ received)) as Hd.
  destruct (drain cos sin time_time c n (buffer ++ received))
    as [c' n' buffer'|e c' n']; [|exact I].
  exact (inner_loop_settled _ _ _ _ _ _ _ Hd).
Qed.

(** ** C3: a declared length of zero *)

(** C3 fails on the code. With the receive loop running, the five bytes
    [AA 55 00 00 00] arriving on an empty buffer make [packet] empty, so
    [packet[-1]] raises [IndexError]; the handler of the loop takes it for a
    transport failure: [is_connected] becomes false and the thread ends,
    whatever the transport would deliver next. *)
Theorem C3_zero_length_disconnects (c : Controller)
        (feed : list (result bytes)) :
  _receive_data cos sin time_time
    (set_is_connected (set_is_running c true) true)
    (Ok [0xAA; 0x55; 0x00; 0x00; 0x00] :: feed) =
  Stop (set_is_connected (set_is_running c true) false) 0.
Proof. reflexivity. Qed.

(** Short of that, the loop contains every malformed input: a pass stops the
    loop only on an exception of the transport or on the [IndexError] of a
    zero length byte after a marker. *)
Lemma receive_pass_stops (c : Controller) (n : nat) (buffer received : bytes)
      (c' : Controller) (n' : nat) :
  is_running c = true ->
  receive_pass cos sin time_time c n buffer (Ok received) = Stop c' n' ->
  exists c1,
    drain cos sin time_time c n (buffer ++ received) =
      LoopRaised IndexError c1 n' /\
    c' = set_is_connected c1 false.
Proof.
  intros Hr. unfold receive_pass. rewrite Hr. cbn [negb].
  pose proof (drain_inner_loop c n (buffer ++ received)) as Hd.
  destruct (drain cos sin time_time c n (buffer ++ received))
    as [c1 n1 b1|e c1 n1]; [discriminate|].
  intros [= <- <-]. rewrite (inner_loop_raises _ _ _ _ _ _ _ Hd).
  exists c1. split; reflexivity.
Qed.

End ReceiveLoop.

(** C4 as stated fails: bytes that are neither a marker nor enough for the
    inner loop to look at stay in the buffer across passes. Three stray bytes
    arriving on an empty buffer are kept as they are; so are three stray
    bytes that arrive behind a complete beeper packet, after the packet has
    been processed. *)
Lemma C4_counterexample :
  (forall cos sin time_time c n,
      receive_pass cos sin time_time (set_is_running c true) n []
                   (Ok [0x01; 0x02; 0x03]) =
      Continue (set_is_running c true) n [0x01; 0x02; 0x03]) /\
  (forall cos sin time_time c n,
      receive_pass cos sin time_time (set_is_running c true) n []
                   (Ok [0xAA; 0x55; 0x06; 0x54; 0x01; 0x5A;
                        0x01; 0x02; 0x03]) =
      Continue (_process_received_data cos sin (set_is_running c true)
                  CMD_BEEPER [1] (time_time n))
               (S n) [0x01; 0x02; 0x03]) /\
  [0x01; 0x02; 0x03] <> [] /\
  (forall tl, [0x01; 0x02; 0x03] <> HEADER1 :: HEADER2 :: tl).
Proof.
  split; [reflexivity|]. split; [reflexivity|]. split; discriminate.
Qed.

(** ** Telemetry decoding and dead reckoning *)

Lemma unpack_h_le16 (v : Z) :
  is_int16 v -> unpack_h (v mod 256) ((v / 256) mod 256) = v.
Proof.
  unfold is_int16, unpack_h, unpack_H. intros H.
  destruct (Z.ltb_spec (v mod 256 + 256 * ((v / 256) mod 256)) 32768);
    Z.to_euclidean_division_equations; lia.
Qed.

Lemma unpack_H_le16 (v : Z) :
  is_uint16 v -> unpack_H (v mod 256) ((v / 256) mod 256) = v.
Proof.
  unfold is_uint16, unpack_H. intros H.
  Z.to_euclidean_division_equations; lia.
Qed.

Lemma unpack_h_range (lo hi : Z) :
  is_byte lo -> is_byte hi ->
  is_int16 (unpack_h lo hi) /\ le16 (unpack_h lo hi) = [lo; hi].
Proof.
  unfold is_byte, is_int16, le16, unpack_h, unpack_H. intros Hl Hh.
  destruct (Z.ltb_spec (lo + 256 * hi) 32768).
  - split; [lia|]. f_equal; [|f_equal];
      Z.to_euclidean_division_equations; lia.
  - split; [lia|]. f_equal; [|f_equal];
      Z.to_euclidean_division_equations; lia.
Qed.

Lemma unpack_H_range (lo hi : Z) :
  is_byte lo -> is_byte hi ->
  is_uint16 (unpack_H lo hi) /\ le16 (unpack_H lo hi) = [lo; hi].
Proof.
  unfold is_byte, is_uint16, le16, unpack_H. intros Hl Hh.
  split; [lia|]. f_equal; [|f_equal];
    Z.to_euclidean_division_equations; lia.
Qed.

Lemma le16_unpack_h (lo hi : Z) :
  is_byte lo -> is_byte hi -> le16 (unpack_h lo hi) = [lo; hi].
Proof. intros; now apply unpack_h_range. Qed.

Lemma le16_unpack_H (lo hi : Z) :
  is_byte lo -> is_byte hi -> le16 (unpack_H lo hi) = [lo; hi].
Proof. intros; now apply unpack_H_range. Qed.

Local Open Scope float_scope.

(** A comparison [dt <= 0] that holds makes [dt > 0] fail. *)
Lemma leb_zero_not_gt (dt : float) : (dt <=? 0) = true -> (0 <? dt) = false.
Proof.
  rewrite FloatAxioms.leb_spec, FloatAxioms.ltb_spec.
  change (Prim2SF 0) with (S754_zero false).
  destruct (Prim2SF dt) as [s| [|] | |[|] m e]; cbn; congruence.
Qed.

Section Telemetry.

Variable cos sin : float -> float.

(** [_process_received_data] on the integrated-data identifier and a
    20-byte payload. *)
Lemma process_integrated (c : Controller) (data : bytes) (t : float) :
  length data = 20%nat ->
  _process_received_data cos sin c ID_INTEGRATED_DATA data t =
  let dt := t - last_update_time c in
  let raw i := float_of_int (field_h data i) in
  let vx := raw 6%nat / 1000.0 in
  let vy := raw 7%nat / 1000.0 in
  let vw := raw 8%nat / 1000.0 in
  let o := odometry_data c in
  let '(x, y, theta) :=
    if 0 <? dt then spec_integrate cos sin (pose o) vx vy vw dt
    else pose o in
  set_last_update_time
    (set_telemetry c
       (OdometryData.mk x y theta vx vy vw)
       (IMUData.mk
          ((raw 0%nat / 32768.0) * 2.0 * GRAVITY)
          ((raw 1%nat / 32768.0) * 2.0 * GRAVITY)
          ((raw 2%nat / 32768.0) * 2.0 * GRAVITY)
          ((raw 3%nat / 32768.0) * 500.0 * (math_pi / 180.0))
          ((raw 4%nat / 32768.0) * 500.0 * (math_pi / 180.0))
          ((raw 5%nat / 32768.0) * 500.0 * (math_pi / 180.0)))
       (float_of_int (field_H data 9) / 100.0))
    t.
Proof.
  intros H.
  do 20 (destruct data as [|? data]; [discriminate H|]).
  destruct data; [|discriminate H].
  unfold _process_received_data.
  cbn [length Nat.eqb andb unpack_hhhhhhhhhH nth].
  change (ID_INTEGRATED_DATA =? ID_INTEGRATED_DATA)%Z with true.
  cbv iota zeta. unfold field_h, field_H, pose, spec_integrate.
  cbn [Nat.mul Nat.add nth].
  destruct (0 <? t - last_update_time c); reflexivity.
Qed.

(** Any other identifier, or another payload length: only the time stamp
    moves. *)
Lemma process_other (c : Controller) (cmd_id : Z) (data : bytes) (t : float) :
  (cmd_id =? ID_INTEGRATED_DATA)%Z && (length data =? 20)%nat = false ->
  _process_received_data cos sin c cmd_id data t = set_last_update_time c t.
Proof. intros H. unfold _process_received_data. rewrite H. reflexivity. Qed.

End Telemetry.

Local Close Scope float_scope.

Local Open Scope float_scope.

(** ** C7: scaling *)

(** C7. Every 20-byte payload is the little-endian encoding of nine signed
    16-bit values and one unsigned 16-bit value, and on the integrated-data
    identifier [_process_received_data] stores
    [accel = (raw/32768.0)*2.0*9.80665],
    [gyro = (raw/32768.0)*500.0*(pi/180.0)], [velocity = raw/1000.0] and
    [battery = raw/100.0] of exactly these values. In particular a raw
    acceleration of 16384 is stored as [(16384/32768)*2*9.80665], which is
    9.80665, and a raw velocity of 300 as 0.3. *)
Theorem C7_telemetry_scaling (cos sin : float -> float) (c : Controller)
        (t : float) :
  (forall data : bytes,
      length data = 20%nat -> Forall is_byte data ->
      exists ax ay az gx gy gz vx vy vw bat : Z,
        Forall is_int16 [ax; ay; az; gx; gy; gz; vx; vy; vw] /\
        is_uint16 bat /\
        data = telemetry_payload [ax; ay; az; gx; gy; gz; vx; vy; vw; bat] /\
        let c' := _process_received_data cos sin c ID_INTEGRATED_DATA data t in
        imu_data c' =
          IMUData.mk ((float_of_int ax / 32768.0) * 2.0 * 9.80665)
                     ((float_of_int ay / 32768.0) * 2.0 * 9.80665)
                     ((float_of_int az / 32768.0) * 2.0 * 9.80665)
                     ((float_of_int gx / 32768.0) * 500.0 * (math_pi / 180.0))
                     ((float_of_int gy / 32768.0) * 500.0 * (math_pi / 180.0))
                     ((float_of_int gz / 32768.0) * 500.0 * (math_pi / 180.0)) /\
        OdometryData.vx (odometry_data c') = float_of_int vx / 1000.0 /\
        OdometryData.vy (odometry_data c') = float_of_int vy / 1000.0 /\
        OdometryData.vw (odometry_data c') = float_of_int vw / 1000.0 /\
        battery_voltage c' = float_of_int bat / 100.0) /\
  (let c' := _process_received_data cos sin c ID_INTEGRATED_DATA
               (telemetry_payload [16384; 0; 0; 0; 0; 0; 300; 0; 0; 0]%Z) t in
   IMUData.accel_x (imu_data c') = (16384 / 32768) * 2 * 9.80665 /\
   IMUData.accel_x (imu_data c') = 9.80665 /\
   OdometryData.vx (odometry_data c') = 0.3).
Proof.
  split.
  - intros data Hlen Hb.
    destruct data as
      [|a0 [|a1 [|b0 [|b1 [|c0 [|c1 [|d0 [|d1 [|e0 [|e1
       [|f0 [|f1 [|g0 [|g1 [|h0 [|h1 [|i0 [|i1 [|j0 [|j1 [|? ?]
       ]]]]]]]]]]]]]]]]]]]]; try discriminate Hlen.
    repeat match goal with
           | H : Forall _ (_ :: _) |- _ =>
               apply Forall_cons_iff in H; destruct H as [? H]
           end.
    exists (unpack_h a0 a1), (unpack_h b0 b1), (unpack_h c0 c1),
      (unpack_h d0 d1), (unpack_h e0 e1), (unpack_h f0 f1),
      (unpack_h g0 g1), (unpack_h h0 h1), (unpack_h i0 i1),
      (unpack_H j0 j1).
    split; [repeat constructor; apply unpack_h_range; assumption|].
    split; [apply unpack_H_range; assumption|].
    split.
    { unfold telemetry_payload. cbn [flat_map].
      rewrite !le16_unpack_h, le16_unpack_H by assumption.
      reflexivity. }
    cbv zeta. rewrite process_integrated by reflexivity.
    cbv zeta. destruct (if _ <? _ then _ else _) as [[x y] theta].
    repeat split; reflexivity.
  - cbv zeta. rewrite process_integrated by reflexivity.
    cbv zeta. destruct (if _ <? _ then _ else _) as [[x y] theta].
    repeat split; reflexivity.
Qed.

Lemma C7_telemetry_scaling_witness :
  exists ax ay az gx gy gz vx vy vw bat : Z,
    Forall is_int16 [ax; ay; az; gx; gy; gz; vx; vy; vw] /\
    is_uint16 bat /\
    [0x00; 0xC0; 0; 0; 0; 0x40; 0; 0; 0; 0; 0; 0;
     0x2C; 0x01; 0; 0; 0x18; 0xFC; 0xEC; 0x04]%Z =
      telemetry_payload [ax; ay; az; gx; gy; gz; vx; vy; vw; bat] /\
    let c' := _process_received_data cos_series sin_series (__init__ 0)
                ID_INTEGRATED_DATA
                [0x00; 0xC0; 0; 0; 0; 0x40; 0; 0; 0; 0; 0; 0;
                 0x2C; 0x01; 0; 0; 0x18; 0xFC; 0xEC; 0x04]%Z 1 in
    imu_data c' =
      IMUData.mk ((float_of_int ax / 32768.0) * 2.0 * 9.80665)
                 ((float_of_int ay / 32768.0) * 2.0 * 9.80665)
                 ((float_of_int az / 32768.0) * 2.0 * 9.80665)
                 ((float_of_int gx / 32768.0) * 500.0 * (math_pi / 180.0))
                 ((float_of_int gy / 32768.0) * 500.0 * (math_pi / 180.0))
                 ((float_of_int gz / 32768.0) * 500.0 * (math_pi / 180.0)) /\
    OdometryData.vx (odometry_data c') = float_of_int vx / 1000.0 /\
    OdometryData.vy (odometry_data c') = float_of_int vy / 1000.0 /\
    OdometryData.vw (odometry_data c') = float_of_int vw / 1000.0 /\
    battery_voltage c' = float_of_int bat / 100.0.
Proof.
  apply (proj1 (C7_telemetry_scaling cos_series sin_series (__init__ 0) 1)).
  - reflexivity.
  - repeat constructor; unfold is_byte; lia.
Defined.

(** ** C5: the integration step *)

(** C5. On every integrated-data packet with a 20-byte payload, the stored
    body velocity is the one just decoded, [raw/1000.0] of fields 6 to 8;
    when [dt > 0] the pose becomes
    [x + (vx*cos(theta) - vy*sin(theta))*dt],
    [y + (vx*sin(theta) + vy*cos(theta))*dt], [theta + vw*dt], with [theta]
    the heading before the update and [(vx, vy, vw)] that velocity; when
    [dt <= 0] the pose is unchanged. With [cos(0) = 1] and [sin(0) = 0],
    three packets with raw velocity [(1000, 0, 0)] arriving one second apart
    on a fresh controller leave the pose at [(3.0, 0.0, 0.0)]. *)
Theorem C5_odometry_integration (cos sin : float -> float) :
  (forall (c : Controller) (data : bytes) (t : float),
      length data = 20%nat ->
      let c' := _process_received_data cos sin c ID_INTEGRATED_DATA data t in
      let o := odometry_data c in
      let o' := odometry_data c' in
      let dt := t - last_update_time c in
      (OdometryData.vx o' = float_of_int (field_h data 6) / 1000.0 /\
       OdometryData.vy o' = float_of_int (field_h data 7) / 1000.0 /\
       OdometryData.vw o' = float_of_int (field_h data 8) / 1000.0) /\
      ((0 <? dt) = true ->
       pose o' = spec_integrate cos sin (pose o) (OdometryData.vx o')
                   (OdometryData.vy o') (OdometryData.vw o') dt) /\
      ((dt <=? 0) = true -> pose o' = pose o)) /\
  (cos 0 = 1 -> sin 0 = 0 ->
   let data := telemetry_payload [0; 0; 0; 0; 0; 0; 1000; 0; 0; 0]%Z in
   let c1 := _process_received_data cos sin (__init__ 0) ID_INTEGRATED_DATA data 1 in
   let c2 := _process_received_data cos sin c1 ID_INTEGRATED_DATA data 2 in
   let c3 := _process_received_data cos sin c2 ID_INTEGRATED_DATA data 3 in
   (OdometryData.vx (odometry_data c3) = 1 /\
    OdometryData.vy (odometry_data c3) = 0 /\
    OdometryData.vw (odometry_data c3) = 0) /\
   pose (odometry_data c3) = (3, 0, 0)).
Proof.
  split.
  - intros c data t Hlen. cbv zeta.
    rewrite process_integrated by exact Hlen. cbv zeta.
    split; [|split].
    + destruct (if _ <? _ then _ else _) as [[x y] theta].
      repeat split; reflexivity.
    + intros Hdt. rewrite Hdt.
      destruct (spec_integrate _ _ _ _ _ _ _) as [[x y] theta] eqn:E.
      cbn [odometry_data set_last_update_time set_telemetry pose
           OdometryData.x OdometryData.y OdometryData.theta
           OdometryData.vx OdometryData.vy OdometryData.vw].
      reflexivity.
    + intros Hdt. rewrite (leb_zero_not_gt _ Hdt).
      destruct (pose (odometry_data c)) as [[x y] theta] eqn:E.
      reflexivity.
  - intros Hcos Hsin. cbv zeta.
    rewrite !process_integrated by reflexivity.
    vm_compute. rewrite !Hcos, !Hsin.
    repeat split; reflexivity.
Qed.

Lemma C5_odometry_integration_witness :
  (let data := telemetry_payload [0; 0; 0; 0; 0; 0; 1000; 0; 0; 0]%Z in
   let c1 := _process_received_data cos_series sin_series (__init__ 0)
               ID_INTEGRATED_DATA data 1 in
   let c2 := _process_received_data cos_series sin_series c1
               ID_INTEGRATED_DATA data 2 in
   let c3 := _process_received_data cos_series sin_series c2
               ID_INTEGRATED_DATA data 3 in
   (OdometryData.vx (odometry_data c3) = 1 /\
    OdometryData.vy (odometry_data c3) = 0 /\
    OdometryData.vw (odometry_data c3) = 0) /\
   pose (odometry_data c3) = (3, 0, 0)) /\
  (let data := telemetry_payload [0; 0; 0; 0; 0; 0; 1000; 500; 250; 0]%Z in
   let o' := odometry_data
               (_process_received_data cos_series sin_series (__init__ 0)
                  ID_INTEGRATED_DATA data 2) in
   pose o' = spec_integrate cos_series sin_series
               (pose (odometry_data (__init__ 0))) (OdometryData.vx o')
               (OdometryData.vy o') (OdometryData.vw o')
               (2 - last_update_time (__init__ 0))) /\
  (let data := telemetry_payload [0; 0; 0; 0; 0; 0; 1000; 500; 250; 0]%Z in
   pose (odometry_data
           (_process_received_data cos_series sin_series (__init__ 5)
              ID_INTEGRATED_DATA data 4)) =
   pose (odometry_data (__init__ 5))).
Proof.
  pose proof (C5_odometry_integration cos_series sin_series) as [H1 H2].
  split; [apply H2; reflexivity|]. split.
  - apply (H1 (__init__ 0)
              (telemetry_payload [0; 0; 0; 0; 0; 0; 1000; 500; 250; 0]%Z) 2
              eq_refl).
    reflexivity.
  - apply (H1 (__init__ 5)
              (telemetry_payload [0; 0; 0; 0; 0; 0; 1000; 500; 250; 0]%Z) 4
              eq_refl).
    reflexivity.
Defined.

(** ** C6: which interval [dt] measures *)

Lemma process_last_update_time (cos sin : float -> float) (c : Controller)
      (cmd_id : Z) (data : bytes) (t : float) :
  last_update_time (_process_received_data cos sin c cmd_id data t) = t.
Proof. reflexivity. Qed.

(** C6, as the code has it. [_process_received_data] sets [last_update_time]
    to its clock reading on every checksum-valid packet, whatever the
    identifier and the payload length. A packet with another identifier, or
    an integrated-data packet whose payload is not 20 bytes long, changes
    nothing else. So the [dt] of an accepted telemetry sample is the time
    since the previous valid packet of any kind: after any packet at [t0], a
    20-byte integrated-data packet at [t] moves the pose by the integration
    step over [t - t0] when that is positive, and leaves it otherwise. *)
Theorem C6_dt_since_last_packet (cos sin : float -> float) :
  (forall (c : Controller) (cmd_id : Z) (data : bytes) (t : float),
      last_update_time (_process_received_data cos sin c cmd_id data t) = t) /\
  (forall (c : Controller) (cmd_id : Z) (data : bytes) (t : float),
      (cmd_id =? ID_INTEGRATED_DATA)%Z && (length data =? 20)%nat = false ->
      _process_received_data cos sin c cmd_id data t =
      set_last_update_time c t) /\
  (forall (c : Controller) (cmd0 : Z) (data0 : bytes) (t0 : float)
          (data : bytes) (t : float),
      length data = 20%nat ->
      let c1 := _process_received_data cos sin c cmd0 data0 t0 in
      let c2 := _process_received_data cos sin c1 ID_INTEGRATED_DATA data t in
      let o2 := odometry_data c2 in
      pose o2 =
      if 0 <? t - t0
      then spec_integrate cos sin (pose (odometry_data c1))
             (OdometryData.vx o2) (OdometryData.vy o2) (OdometryData.vw o2)
             (t - t0)
      else pose (odometry_data c1)).
Proof.
  split; [|split].
  - intros. apply process_last_update_time.
  - intros c cmd_id data t H. apply process_other, H.
  - intros c cmd0 data0 t0 data t Hlen. cbv zeta.
    rewrite (process_integrated cos sin _ data t Hlen). cbv zeta.
    rewrite process_last_update_time.
    destruct (0 <? t - t0).
    + destruct (spec_integrate _ _ _ _ _ _ _) as [[x y] theta] eqn:E.
      cbn [odometry_data set_last_update_time set_telemetry pose
           OdometryData.x OdometryData.y OdometryData.theta
           OdometryData.vx OdometryData.vy OdometryData.vw].
      reflexivity.
    + destruct (pose _) as [[x y] theta] eqn:E. reflexivity.
Qed.

Lemma C6_dt_since_last_packet_witness :
  _process_received_data cos_series sin_series (__init__ 0) CMD_BEEPER [1%Z] 2 =
    set_last_update_time (__init__ 0) 2 /\
  _process_received_data cos_series sin_series (__init__ 0) ID_INTEGRATED_DATA
                         [1%Z; 2%Z; 3%Z] 2 =
    set_last_update_time (__init__ 0) 2 /\
  pose (odometry_data
          (_process_received_data cos_series sin_series
             (_process_received_data cos_series sin_series (__init__ 0)
                CMD_BEEPER [1%Z] 2)
             ID_INTEGRATED_DATA
             (telemetry_payload [0; 0; 0; 0; 0; 0; 0; 0; 1000; 0]%Z) 3)) =
    (0, 0, 1).
Proof.
  pose proof (C6_dt_since_last_packet cos_series sin_series) as (_ & H2 & H3).
  split; [apply H2; reflexivity|].
  split; [apply H2; reflexivity|].
  rewrite (H3 (__init__ 0) CMD_BEEPER [1%Z] 2
              (telemetry_payload [0; 0; 0; 0; 0; 0; 0; 0; 1000; 0]%Z) 3
              eq_refl).
  reflexivity.
Defined.

(** C6 as stated fails. On a fresh controller (time stamp 0), an
    integrated-data packet with raw [vw = 1000] at time 1, a beeper packet at
    time 2 and the same integrated-data packet at time 3: the beeper packet
    moves the time stamp from 1 to 2, so the second sample is integrated over
    1 second, not over the 2 seconds since the previous sample, and the
    heading ends at 2 where [1 + 1.0 * (3 - 1)] is 3. An integrated-data
    packet with a 19-byte payload moves the time stamp just the same. *)
Lemma C6_counterexample :
  (forall cos sin : float -> float,
      let data := telemetry_payload [0; 0; 0; 0; 0; 0; 0; 0; 1000; 0]%Z in
      let c1 := _process_received_data cos sin (__init__ 0)
                  ID_INTEGRATED_DATA data 1 in
      let c2 := _process_received_data cos sin c1 CMD_BEEPER [1%Z] 2 in
      let c3 := _process_received_data cos sin c2 ID_INTEGRATED_DATA data 3 in
      OdometryData.theta (odometry_data c1) = 1 /\
      last_update_time c1 = 1 /\
      last_update_time c2 = 2 /\
      OdometryData.vw (odometry_data c3) = 1 /\
      OdometryData.theta (odometry_data c3) = 2 /\
      last_update_time
        (_process_received_data cos sin c1 ID_INTEGRATED_DATA
           (repeat 0%Z 19) 2) = 2) /\
  1 + 1 * (3 - 1) = 3 /\
  (2 =? 3) = false.
Proof.
  split; [|split; reflexivity].
  intros cos sin. vm_compute. repeat split; reflexivity.
Qed.

(** ** Commands: what [_send_packet] and [set_velocity] do *)

(** [_send_packet] on a packet that can be built: it is written when the
    session is connected and the port takes it, and the call returns in any
    case. *)
Lemma send_packet_returns (c : Controller) (cmd_id : Z) (data packet : bytes) :
  make_packet cmd_id data = Ok packet ->
  _send_packet c cmd_id data =
  Return
    match serial_conn c with
    | Some conn =>
        if is_connected c && (Serial.is_open conn && negb (Serial.failing conn))
        then set_serial_conn c
               (Some (Serial.mk (Serial.is_open conn) (Serial.failing conn)
                                (Serial.written conn ++ [packet])))
        else c
    | None => c
    end.
Proof.
  intros H. unfold _send_packet. destruct (serial_conn c) as [conn|];
    [|reflexivity].
  destruct (is_connected c); [|reflexivity].
  rewrite H. unfold Serial.write. cbn [negb eval andb].
  destruct (Serial.is_open conn && negb (Serial.failing conn)); reflexivity.
Qed.

Lemma pack_h_le16 (v : Z) : is_int16 v -> pack_h v = Ok (le16 v).
Proof.
  unfold is_int16, pack_h. intros H.
  destruct (Z.leb_spec (-32768) v), (Z.leb_spec v 32767); try lia.
  reflexivity.
Qed.

Lemma pack_h_error (v : Z) : ~ is_int16 v -> pack_h v = Raise StructError.
Proof.
  unfold is_int16, pack_h. intros H.
  destruct (Z.leb_spec (-32768) v), (Z.leb_spec v 32767); try lia;
    reflexivity.
Qed.

Lemma is_int16_dec (v : Z) : {is_int16 v} + {~ is_int16 v}.
Proof.
  unfold is_int16.
  destruct (Z_le_dec (-32768) v), (Z_le_dec v 32767);
    [left|right|right|right]; lia.
Defined.

Lemma pack_hhh_ok (a b d : Z) :
  is_int16 a /\ is_int16 b /\ is_int16 d ->
  pack_hhh a b d = Ok (le16 a ++ le16 b ++ le16 d).
Proof.
  intros (Ha & Hb & Hd). unfold pack_hhh.
  rewrite !pack_h_le16 by assumption. reflexivity.
Qed.

Lemma pack_hhh_error (a b d : Z) :
  ~ (is_int16 a /\ is_int16 b /\ is_int16 d) ->
  pack_hhh a b d = Raise StructError.
Proof.
  intros H. unfold pack_hhh.
  destruct (is_int16_dec a) as [Ha|Ha];
    [rewrite (pack_h_le16 a Ha)|rewrite (pack_h_error a Ha); reflexivity].
  destruct (is_int16_dec b) as [Hb|Hb];
    [rewrite (pack_h_le16 b Hb)|rewrite (pack_h_error b Hb); reflexivity].
  destruct (is_int16_dec d) as [Hd|Hd];
    [tauto|rewrite (pack_h_error d Hd); reflexivity].
Qed.

(** A component that is not a number stops [set_velocity] in [int()], before
    [struct.pack] is reached, whatever the other components are. *)
Lemma set_velocity_not_a_number :
  set_velocity moving_session 40.0 nan 0 = Raised ValueError moving_session /\
  set_velocity moving_session infinity 0 0 =
    Raised OverflowError moving_session.
Proof. split; reflexivity. Qed.

(** ** C10: [set_velocity] out of range *)

(** [int()] fails with [ValueError] or with [OverflowError], nothing else. *)
Lemma int_of_float_raises (f : float) (e : exn) :
  int_of_float f = Raise e -> e = ValueError \/ e = OverflowError.
Proof.
  unfold int_of_float. destruct (Prim2SF f); try discriminate;
    intros [= <-]; auto.
Qed.

(** C10. On a connected session [set_velocity] does one of three things,
    decided by [int(v * 1000)] of the components in the order [vx], [vy],
    [vw]. If the three integers exist and one of them is outside
    [-32768, 32767], it raises [struct.error] and leaves the whole object as
    it was, with nothing written to the transport and the commanded velocity
    unchanged. If they exist and all three are inside, the call returns, with
    the commanded velocity set to the arguments. If [int()] itself fails on a
    component (a NaN: [ValueError]; an infinity: [OverflowError]), that
    exception of the first such component is the one raised, whatever the
    other components are, again with the whole object as it was. *)
Theorem C10_set_velocity_range (c : Controller) (vx vy vw : float) :
  is_connected c = true ->
  (forall a b d : Z,
      int_of_float (vx * 1000) = Ok a ->
      int_of_float (vy * 1000) = Ok b ->
      int_of_float (vw * 1000) = Ok d ->
      (~ (is_int16 a /\ is_int16 b /\ is_int16 d) ->
       set_velocity c vx vy vw = Raised StructError c) /\
      (is_int16 a /\ is_int16 b /\ is_int16 d ->
       exists c', set_velocity c vx vy vw = Return c' /\
                  current_velocity c' = Velocity.mk vx vy vw)) /\
  (forall e : exn,
      int_of_float (vx * 1000) = Raise e \/
      (exists a, int_of_float (vx * 1000) = Ok a /\
                 int_of_float (vy * 1000) = Raise e) \/
      (exists a b, int_of_float (vx * 1000) = Ok a /\
                   int_of_float (vy * 1000) = Ok b /\
                   int_of_float (vw * 1000) = Raise e) ->
      set_velocity c vx vy vw = Raised e c /\
      (e = ValueError \/ e = OverflowError)).
Proof.
  intros Hc. split.
  - intros a b d Ha Hb Hd. unfold set_velocity.
    rewrite Hc, Ha, Hb, Hd. cbn [negb eval]. split; intros H.
    + rewrite (pack_hhh_error _ _ _ H). reflexivity.
    + rewrite (pack_hhh_ok _ _ _ H). cbn [eval].
      destruct (make_packet CMD_VELOCITY (le16 a ++ le16 b ++ le16 d))
        as [packet|e] eqn:E.
      * rewrite (send_packet_returns _ _ _ _ E). cbn [and_then].
        eexists. split; reflexivity.
      * rewrite make_packet_checksum in E; [discriminate| |].
        -- unfold CMD_VELOCITY. lia.
        -- cbn. lia.
  - intros e H. unfold set_velocity. rewrite Hc. cbn [negb].
    destruct H as [Hx|[(a & Hx & Hy)|(a & b & Hx & Hy & Hw)]].
    + rewrite Hx. split; [reflexivity|exact (int_of_float_raises _ _ Hx)].
    + rewrite Hx, Hy. split; [reflexivity|exact (int_of_float_raises _ _ Hy)].
    + rewrite Hx, Hy, Hw.
      split; [reflexivity|exact (int_of_float_raises _ _ Hw)].
Qed.

Lemma C10_set_velocity_range_witness :
  let c := mkController (Some (Serial.mk true false [])) true true
             Velocity.default OdometryData.default IMUData.default 0 0 in
  set_velocity c 40.0 0.0 (-0.5) = Raised StructError c /\
  (exists c', set_velocity c 1.5 0.0 (-0.5) = Return c' /\
              current_velocity c' = Velocity.mk 1.5 0.0 (-0.5)) /\
  set_velocity c 40.0 nan 0.0 = Raised ValueError c /\
  set_velocity c 1e306 0.0 0.0 = Raised OverflowError c.
Proof.
  cbv zeta.
  set (c := mkController (Some (Serial.mk true false [])) true true
              Velocity.default OdometryData.default IMUData.default 0 0).
  split; [|split; [|split]].
  - apply (proj1 (C10_set_velocity_range c 40.0 0.0 (-0.5) eq_refl)
             40000%Z 0%Z (-500)%Z eq_refl eq_refl eq_refl).
    unfold is_int16. lia.
  - apply (proj1 (C10_set_velocity_range c 1.5 0.0 (-0.5) eq_refl)
             1500%Z 0%Z (-500)%Z eq_refl eq_refl eq_refl).
    unfold is_int16. lia.
  - apply (proj2 (C10_set_velocity_range c 40.0 nan 0.0 eq_refl) ValueError).
    right. left. exists 40000%Z. split; reflexivity.
  - apply (proj2 (C10_set_velocity_range c 1e306 0.0 0.0 eq_refl)
             OverflowError).
    left. reflexivity.
Defined.

(** A call with an out-of-range component that does not raise
    [struct.error]: [vx = 40.0] scales to 40000, outside the signed 16-bit
    range, and [vy] is a NaN. [int(vx * 1000)] succeeds, [int(vy * 1000)]
    raises [ValueError] before [struct.pack] is reached. A component so large
    that the scaling overflows ([1e306 * 1000] is an infinity) raises
    [OverflowError] in the same way. *)
Lemma C10_counterexample :
  is_connected moving_session = true /\
  int_of_float (40.0 * 1000) = Ok 40000%Z /\
  ~ is_int16 40000 /\
  set_velocity moving_session 40.0 nan 0 = Raised ValueError moving_session /\
  set_velocity moving_session 1e306 0 0 =
    Raised OverflowError moving_session.
Proof.
  split; [reflexivity|]. split; [reflexivity|].
  split; [unfold is_int16; lia|]. split; reflexivity.
Qed.

(** ** C9: leaving a session *)

(** The packet [set_velocity(0.0, 0.0, 0.0)] sends. *)
Lemma zero_velocity_packet :
  make_packet CMD_VELOCITY [0; 0; 0; 0; 0; 0]%Z =
  Ok [0xAA; 0x55; 0x0B; 0x50; 0; 0; 0; 0; 0; 0; 0x5A]%Z.
Proof. reflexivity. Qed.






Local Close Scope float_scope.

(** ** The payload widths of the commands *)

Lemma pack_B_length (v : Z) (data : bytes) :
  pack_B v = Ok data -> length data = 1%nat.
Proof.
  unfold pack_B. destruct (_ && _); [intros [= <-]; reflexivity|discriminate].
Qed.

Lemma pack_h_length (v : Z) (data : bytes) :
  pack_h v = Ok data -> length data = 2%nat.
Proof.
  unfold pack_h. destruct (_ && _); [intros [= <-]; reflexivity|discriminate].
Qed.

(** The table [payload_width] is the one the command methods follow: every
    payload they pass to [_send_packet] has the width of its identifier. *)
Lemma payload_width_sound :
  (forall a b d data,
      pack_hhh a b d = Ok data ->
      payload_width CMD_VELOCITY = Some (length data)) /\
  (forall mode r g b data,
      pack_BBBBBB mode 0 0 r g b = Ok data ->
      payload_width CMD_RGB_LIGHT = Some (length data)) /\
  (forall v data,
      pack_B v = Ok data ->
      payload_width CMD_IMU_CALIBRATE = Some (length data) /\
      payload_width CMD_LIGHT_SAVE = Some (length data) /\
      payload_width CMD_BEEPER = Some (length data) /\
      payload_width CMD_ROBOT_TYPE = Some (length data)).
Proof.
  split; [|split].
  - intros a b d data. unfold pack_hhh.
    destruct (pack_h a) as [xa|] eqn:Ea; [|discriminate].
    destruct (pack_h b) as [xb|] eqn:Eb; [|discriminate].
    destruct (pack_h d) as [xd|] eqn:Ed; [|discriminate].
    cbn [bind]. intros [= <-]. rewrite !length_app.
    rewrite (pack_h_length _ _ Ea), (pack_h_length _ _ Eb),
      (pack_h_length _ _ Ed).
    reflexivity.
  - intros mode r g b data. unfold pack_BBBBBB.
    destruct (pack_B mode) as [x1|] eqn:E1; [|discriminate].
    change (pack_B 0) with (@Ok bytes [0]).
    destruct (pack_B r) as [x4|] eqn:E4; [|discriminate].
    destruct (pack_B g) as [x5|] eqn:E5; [|discriminate].
    destruct (pack_B b) as [x6|] eqn:E6; [|discriminate].
    cbn [bind]. intros [= <-]. cbn [app length]. rewrite !length_app.
    cbn [length]. rewrite !length_app.
    rewrite (pack_B_length _ _ E1), (pack_B_length _ _ E4),
      (pack_B_length _ _ E5), (pack_B_length _ _ E6).
    reflexivity.
  - intros v data H. rewrite (pack_B_length _ _ H). repeat split.
Qed.

(** * Further properties *)

(** ** The inner loop, without fuel *)

Section Drain.

Variable cos sin : float -> float.
Variable time_time : nat -> float.

Lemma inner_loop_fuel (fuel1 fuel2 : nat) (c : Controller) (n : nat)
      (buffer : bytes) :
  (length buffer <= fuel1)%nat -> (length buffer <= fuel2)%nat ->
  inner_loop cos sin time_time fuel1 c n buffer =
  inner_loop cos sin time_time fuel2 c n buffer.
Proof.
  revert fuel2 c n buffer.
  induction fuel1 as [|fuel1 IH]; intros fuel2 c n buffer H1 H2;
    destruct (length buffer <? 5)%nat eqn:E5;
    try (rewrite !inner_loop_short by exact E5; reflexivity).
  - apply Nat.ltb_ge in E5. lia.
  - destruct fuel2 as [|fuel2]; [apply Nat.ltb_ge in E5; lia|].
    rewrite !inner_loop_step by exact E5.
    destruct (scan_packet buffer) as [r|e] eqn:Es; [|reflexivity].
    pose proof (scan_packet_shrinks _ _ Es) as Hs.
    destruct r; try reflexivity; apply IH; lia.
Qed.

Lemma drain_short (c : Controller) (n : nat) (buffer : bytes) :
  (length buffer <? 5)%nat = true ->
  drain cos sin time_time c n buffer = LoopDone c n buffer.
Proof.
  intros H. unfold drain. rewrite inner_loop_short by exact H. reflexivity.
Qed.

(** The loop as the source reads: one iteration, then the loop again on what
    is left. *)
Lemma drain_step (c : Controller) (n : nat) (buffer : bytes) :
  (length buffer <? 5)%nat = false ->
  drain cos sin time_time c n buffer =
  match scan_packet buffer with
  | Raise e => LoopRaised e c n
  | Ok NoHeader => LoopDone c n []
  | Ok (NeedMore _ buffer) => LoopDone c n buffer
  | Ok (BadChecksum _ _ buffer) => drain cos sin time_time c n buffer
  | Ok (GoodPacket _ _ cmd_id data buffer) =>
      drain cos sin time_time
        (_process_received_data cos sin c cmd_id data (time_time n))
        (S n) buffer
  end.
Proof.
  intros E5.
  pose proof (drain_inner_loop cos sin time_time c n buffer) as Hd.
  assert (El : exists fuel, length buffer = S fuel).
  { pose proof (proj1 (Nat.ltb_ge _ _) E5). exists (Nat.pred (length buffer)).
    lia. }
  destruct El as [fuel El]. rewrite El in Hd.
  rewrite inner_loop_step in Hd by exact E5.
  destruct (scan_packet buffer) as [r|e] eqn:Es; [|congruence].
  pose proof (scan_packet_shrinks _ _ Es) as Hs.
  destruct r as [|h rest|h L rest|h L cmd data rest]; try congruence.
  - rewrite (inner_loop_fuel fuel (length rest)) in Hd by lia.
    rewrite drain_inner_loop in Hd. congruence.
  - rewrite (inner_loop_fuel fuel (length rest)) in Hd by lia.
    rewrite drain_inner_loop in Hd. congruence.
Qed.

(** A packet at the head of the buffer is scanned as itself, whatever
    follows it. *)
Lemma scan_packet_head (cmd_id : Z) (data packet rest : bytes) :
  make_packet cmd_id data = Ok packet ->
  scan_packet (packet ++ rest) =
  Ok (GoodPacket 0 (5 + Z.of_nat (length data)) cmd_id data rest).
Proof.
  intros H. apply make_packet_inv in H. destruct H as (_ & _ & ->).
  pose proof (scan_packet_shape [] (5 + Z.of_nat (length data)) cmd_id data
                (checksum_of (5 + Z.of_nat (length data)) cmd_id data) rest
                eq_refl eq_refl) as S.
  rewrite Z.eqb_refl in S. cbn [app length] in S |- *.
  rewrite <- app_assoc. exact S.
Qed.

Lemma make_packet_length (cmd_id : Z) (data packet : bytes) :
  make_packet cmd_id data = Ok packet ->
  length packet = (5 + length data)%nat.
Proof.
  intros H. apply make_packet_inv in H. destruct H as (_ & _ & ->).
  cbn [length]. rewrite length_app. cbn [length]. lia.
Qed.

Lemma drain_packet (c : Controller) (n : nat) (cmd_id : Z)
      (data packet rest : bytes) :
  make_packet cmd_id data = Ok packet ->
  drain cos sin time_time c n (packet ++ rest) =
  drain cos sin time_time
    (_process_received_data cos sin c cmd_id data (time_time n)) (S n) rest.
Proof.
  intros H. rewrite drain_step.
  - rewrite (scan_packet_head _ _ _ _ H). reflexivity.
  - apply Nat.ltb_ge. rewrite length_app, (make_packet_length _ _ _ H). lia.
Qed.

End Drain.

(** ** The receive loop on whole packets, on pieces of one, and on a split
    marker *)

Section Delivery.

Variable cos sin : float -> float.
Variable time_time : nat -> float.

Lemma process_is_running (c : Controller) (cmd_id : Z) (data : bytes)
      (t : float) :
  is_running (_process_received_data cos sin c cmd_id data t) = is_running c.
Proof.
  unfold _process_received_data.
  destruct (_ && _); [destruct (unpack_hhhhhhhhhH data)|]; reflexivity.
Qed.

Lemma drain_packets (c : Controller) (n : nat) (frames : list (Z * bytes))
      (packets : list bytes) (rest : bytes) :
  Forall2 (fun f p => make_packet (fst f) (snd f) = Ok p) frames packets ->
  drain cos sin time_time c n (concat packets ++ rest) =
  drain cos sin time_time (process_frames cos sin time_time c n frames)
        (n + length frames) rest.
Proof.
  intros H. revert c n.
  induction H as [|[cmd_id data] packet frames packets Hp _ IH]; intros c n.
  - cbn. rewrite Nat.add_0_r. reflexivity.
  - cbn [concat process_frames length fst snd] in *.
    rewrite <- app_assoc, (drain_packet _ _ _ _ _ _ _ _ _ Hp), IH.
    f_equal. lia.
Qed.

(** X1. Packets that arrive together are processed in the order they
    arrived, each with its own reading of the clock, and fewer than 5 bytes
    behind them stay in the buffer for the next pass. *)
Theorem receive_pass_in_order (c : Controller) (n : nat)
        (frames : list (Z * bytes)) (packets : list bytes) (rest : bytes) :
  is_running c = true ->
  Forall2 (fun f p => make_packet (fst f) (snd f) = Ok p) frames packets ->
  (length rest < 5)%nat ->
  receive_pass cos sin time_time c n [] (Ok (concat packets ++ rest)) =
  Continue (process_frames cos sin time_time c n frames)
           (n + length frames) rest.
Proof.
  intros Hr H Hrest. unfold receive_pass. rewrite Hr. cbn [negb app].
  rewrite (drain_packets _ _ _ _ _ H), drain_short; [reflexivity|].
  apply Nat.ltb_lt. exact Hrest.
Qed.

(** A marker whose length byte promises more than the buffer holds. *)
Lemma scan_packet_short (L x : Z) (tl : bytes) :
  Z.of_nat (length (HEADER1 :: HEADER2 :: L :: x :: tl)) < L ->
  scan_packet (HEADER1 :: HEADER2 :: L :: x :: tl) =
  Ok (NeedMore 0 (HEADER1 :: HEADER2 :: L :: x :: tl)).
Proof.
  intros H. unfold scan_packet. rewrite find_header_here.
  change (skipn 0 (HEADER1 :: HEADER2 :: L :: x :: tl))
    with (HEADER1 :: HEADER2 :: L :: x :: tl).
  change (length (HEADER1 :: HEADER2 :: L :: x :: tl) <? 4)%nat with false.
  change (nth 2 (HEADER1 :: HEADER2 :: L :: x :: tl) 0) with L.
  cbv iota. apply Z.ltb_lt in H. rewrite H. reflexivity.
Qed.

(** A proper prefix of a packet is left in the buffer as it is. *)
Lemma drain_prefix (c : Controller) (n : nat) (cmd_id : Z)
      (data packet pre more : bytes) :
  make_packet cmd_id data = Ok packet ->
  packet = pre ++ more -> more <> [] ->
  drain cos sin time_time c n pre = LoopDone c n pre.
Proof.
  intros H E Hm.
  destruct (length pre <? 5)%nat eqn:E5; [apply drain_short, E5|].
  rewrite drain_step by exact E5.
  pose proof (make_packet_length _ _ _ H) as Hlen.
  apply make_packet_inv in H. destruct H as (_ & _ & Hp).
  assert (Hl : (length pre < length packet)%nat).
  { rewrite E, length_app. destruct more; [congruence|cbn; lia]. }
  apply Nat.ltb_ge in E5.
  destruct pre as [|p0 [|p1 [|p2 [|p3 pre]]]]; try (cbn in E5; lia).
  remember (5 + Z.of_nat (length data)) as L eqn:EL.
  rewrite Hp in E. cbn [app] in E.
  injection E as E0 E1 E2 E3 E. subst p0 p1 p2 p3.
  rewrite scan_packet_short; [reflexivity|lia].
Qed.

Lemma receive_run_idle (c : Controller) (n : nat) (chunks : list bytes) :
  is_running c = true ->
  concat chunks = [] ->
  receive_run cos sin time_time c n [] (map Ok chunks) = Continue c n [].
Proof.
  intros Hr. induction chunks as [|ch chunks IH]; intros E; [reflexivity|].
  cbn [concat] in E. apply app_eq_nil in E. destruct E as [-> E].
  cbn [map receive_run]. unfold receive_pass. rewrite Hr. cbn [negb app].
  rewrite drain_short by reflexivity. apply IH, E.
Qed.

Lemma receive_run_pieces (c : Controller) (n : nat) (cmd_id : Z)
      (data packet : bytes) (chunks : list bytes) (pre : bytes) :
  is_running c = true ->
  make_packet cmd_id data = Ok packet ->
  pre ++ concat chunks = packet ->
  (length pre < length packet)%nat ->
  receive_run cos sin time_time c n pre (map Ok chunks) =
  Continue (_process_received_data cos sin c cmd_id data (time_time n))
           (S n) [].
Proof.
  intros Hr H. revert pre.
  induction chunks as [|ch chunks IH]; intros pre E Hl.
  - cbn [concat] in E. rewrite app_nil_r in E. subst pre. lia.
  - cbn [concat] in E. rewrite app_assoc in E.
    cbn [map receive_run]. unfold receive_pass. rewrite Hr. cbn [negb].
    destruct (Nat.lt_ge_cases (length (pre ++ ch)) (length packet))
      as [Hlt|Hge].
    + rewrite (drain_prefix c n cmd_id data packet (pre ++ ch)
                 (concat chunks) H (eq_sym E)).
      * apply IH; assumption.
      * intros Hn. rewrite Hn, app_nil_r in E. subst packet. lia.
    + assert (Hc : concat chunks = []).
      { apply (f_equal (@length Z)) in E. rewrite length_app in E.
        destruct (concat chunks); [reflexivity|cbn in E; lia]. }
      rewrite Hc, app_nil_r in E. rewrite E.
      rewrite <- (app_nil_r packet), (drain_packet _ _ _ _ _ _ _ _ _ H).
      rewrite drain_short by reflexivity.
      apply receive_run_idle; [|exact Hc].
      rewrite process_is_running. exact Hr.
Qed.

(** X2. A packet that arrives in pieces, however it is cut and over however
    many passes, is processed exactly once, when its last byte is in: on an
    empty buffer the thread ends the feed with the packet handed to
    [_process_received_data] and the buffer empty again. *)
Theorem receive_in_pieces (c : Controller) (cmd_id : Z)
        (data packet : bytes) (chunks : list bytes) :
  is_running c = true ->
  make_packet cmd_id data = Ok packet ->
  concat chunks = packet ->
  _receive_data cos sin time_time c (map Ok chunks) =
  Continue (_process_received_data cos sin c cmd_id data (time_time 0%nat))
           1 [].
Proof.
  intros Hr H E. unfold _receive_data.
  apply (receive_run_pieces c 0 cmd_id data packet chunks []); try assumption.
  rewrite (make_packet_length _ _ _ H). cbn. lia.
Qed.

Lemma find_header_snoc (g : bytes) :
  find_header g = None -> find_header (g ++ [HEADER1]) = None.
Proof.
  induction g as [|b0 g IH]; intros Hg; [reflexivity|].
  destruct g as [|b1 g].
  - cbn [app]. rewrite find_header_cons.
    replace ((b0 =? HEADER1) && (HEADER1 =? HEADER2)) with false
      by (rewrite andb_comm; reflexivity).
    reflexivity.
  - rewrite find_header_cons in Hg.
    change ((b0 :: b1 :: g) ++ [HEADER1])
      with (b0 :: b1 :: (g ++ [HEADER1])).
    rewrite find_header_cons.
    destruct ((b0 =? HEADER1) && (b1 =? HEADER2)); [discriminate|].
    destruct (find_header (b1 :: g)) eqn:E; [discriminate|].
    change (b1 :: g ++ [HEADER1]) with ((b1 :: g) ++ [HEADER1]).
    rewrite IH by reflexivity. reflexivity.
Qed.

(** Five or more bytes without a marker: the buffer is cleared. *)
Lemma receive_pass_clear (c : Controller) (n : nat) (buffer received : bytes) :
  is_running c = true ->
  (5 <= length (buffer ++ received))%nat ->
  find_header (buffer ++ received) = None ->
  receive_pass cos sin time_time c n buffer (Ok received) = Continue c n [].
Proof.
  intros Hr Hl Hf. unfold receive_pass. rewrite Hr. cbn [negb].
  rewrite drain_step by (apply Nat.ltb_ge; exact Hl).
  unfold scan_packet. rewrite Hf. reflexivity.
Qed.

(** X3. A marker cut in two by the end of a read is not put together again.
    When at least 4 marker-free bytes and the first marker byte of a packet
    are in the buffer, the whole buffer is cleared; the rest of the packet,
    if it holds no marker of its own, is cleared on the next pass: the packet
    is never processed. The same bytes in one read are processed. *)
Theorem split_marker_loses_packet (c : Controller) (n : nat)
        (garbage : bytes) (cmd_id : Z) (data packet : bytes) :
  is_running c = true ->
  find_header garbage = None ->
  (4 <= length garbage)%nat ->
  make_packet cmd_id data = Ok packet ->
  (1 <= length data)%nat ->
  find_header (tl packet) = None ->
  receive_run cos sin time_time c n []
              [Ok (garbage ++ [HEADER1]); Ok (tl packet)] =
    Continue c n [] /\
  receive_run cos sin time_time c n [] [Ok (garbage ++ packet)] =
    Continue (_process_received_data cos sin c cmd_id data (time_time n))
             (S n) [].
Proof.
  intros Hr Hg Hl H Hd Ht.
  pose proof (make_packet_length _ _ _ H) as Hlen. split.
  - cbn [receive_run].
    rewrite receive_pass_clear;
      [|exact Hr|cbn [app]; rewrite length_app; cbn [length]; lia
       |apply find_header_snoc, Hg].
    rewrite receive_pass_clear; [reflexivity|exact Hr| |exact Ht].
    destruct packet; cbn [app tl length] in *; lia.
  - cbn [receive_run]. unfold receive_pass. rewrite Hr. cbn [negb app].
    rewrite drain_step
      by (apply Nat.ltb_ge; rewrite length_app; lia).
    pose proof (make_packet_inv _ _ _ H) as (_ & _ & Hp).
    rewrite Hp at 1.
    rewrite (scan_packet_shape garbage _ cmd_id data _ [] Hg eq_refl).
    rewrite Z.eqb_refl. rewrite drain_short by reflexivity. reflexivity.
Qed.

End Delivery.

(** ** Who writes what *)

Section Footprint.

Variable cos sin : float -> float.
Variable time_time : nat -> float.

Lemma process_same_session (c : Controller) (cmd_id : Z) (data : bytes)
      (t : float) :
  same_session c (_process_received_data cos sin c cmd_id data t) /\
  is_connected (_process_received_data cos sin c cmd_id data t) =
  is_connected c.
Proof.
  unfold same_session, _process_received_data.
  destruct (_ && _); [destruct (unpack_hhhhhhhhhH data)|];
    repeat split; reflexivity.
Qed.

Lemma same_session_trans (c1 c2 c3 : Controller) :
  same_session c1 c2 -> same_session c2 c3 -> same_session c1 c3.
Proof.
  unfold same_session. intros (A1 & A2 & A3) (B1 & B2 & B3).
  repeat split; congruence.
Qed.

Lemma inner_loop_same_session (fuel : nat) (c : Controller) (n : nat)
      (buffer : bytes) (r : loop_result) :
  inner_loop cos sin time_time fuel c n buffer = Some r ->
  match r with
  | LoopDone c' _ _ | LoopRaised _ c' _ =>
      same_session c c' /\ is_connected c' = is_connected c
  end.
Proof.
  revert c n buffer.
  induction fuel as [|fuel IH]; intros c n buffer;
    destruct (length buffer <? 5)%nat eqn:E5;
    try (rewrite inner_loop_short by exact E5; intros [= <-];
         repeat split; reflexivity).
  - cbn [inner_loop]. rewrite E5. discriminate.
  - rewrite inner_loop_step by exact E5.
    destruct (scan_packet buffer) as [s|e].
    + destruct s as [|h rest|h L rest|h L cmd data rest];
        try (intros [= <-]; repeat split; reflexivity).
      * apply IH.
      * intros H. apply IH in H.
        pose proof (process_same_session c cmd data (time_time n))
          as [P1 P2].
        destruct r; destruct H as [H1 H2];
          (split; [exact (same_session_trans _ _ _ P1 H1)|congruence]).
    + intros [= <-]. repeat split; reflexivity.
Qed.

(** X4. The receive thread never touches what the command methods own:
    whatever arrives, a pass leaves the port object, the running flag and the
    commanded velocity as they were, and it leaves the connection flag as it
    was unless the pass stops the loop. *)
Theorem receive_pass_footprint (c : Controller) (n : nat) (buffer : bytes)
        (incoming : result bytes) :
  match receive_pass cos sin time_time c n buffer incoming with
  | Continue c' _ _ => same_session c c' /\ is_connected c' = is_connected c
  | Stop c' _ => same_session c c'
  end.
Proof.
  unfold receive_pass.
  destruct (negb (is_running c)); [repeat split; reflexivity|].
  destruct incoming as [received|e]; [|repeat split; reflexivity].
  pose proof (drain_inner_loop cos sin time_time c n (buffer ++ received))
    as Hd.
  apply inner_loop_same_session in Hd.
  destruct (drain cos sin time_time c n (buffer ++ received));
    destruct Hd as [(H1 & H2 & H3) H4]; repeat split; assumption.
Qed.

End Footprint.

(** [_send_packet] returns, with at most one packet appended to what the
    port has taken and nothing else changed. *)
Lemma send_packet_footprint (c : Controller) (cmd_id : Z)
      (data packet : bytes) :
  make_packet cmd_id data = Ok packet ->
  exists c',
    _send_packet c cmd_id data = Return c' /\
    same_telemetry c c' /\
    (is_connected c' = is_connected c /\ port_status c' = port_status c) /\
    is_running c' = is_running c /\
    current_velocity c' = current_velocity c /\
    (written_packets c' = written_packets c \/
     written_packets c' = written_packets c ++ [packet]).
Proof.
  intros H. rewrite (send_packet_returns _ _ _ _ H). eexists.
  split; [reflexivity|]. unfold same_telemetry, written_packets, port_status.
  destruct (serial_conn c) as [conn|] eqn:Es.
  - destruct (is_connected c && _); cbn; rewrite ?Es;
      repeat split; auto.
  - rewrite Es. repeat split; auto.
Qed.

Lemma command_effect_refl (c : Controller) (cmd : command) :
  command_effect c cmd c.
Proof.
  unfold command_effect, same_telemetry.
  split; [repeat split|]. split; [split; reflexivity|].
  split; [reflexivity|]. split; left; reflexivity.
Qed.

Lemma send_packet_effect (c : Controller) (cmd : command) (cmd_id : Z)
      (data : bytes) :
  0 <= cmd_id <= 255 ->
  payload_width cmd_id = Some (length data) ->
  exists c',
    _send_packet c cmd_id data = Return c' /\ command_effect c cmd c'.
Proof.
  intros Hc Hw.
  destruct (payload_width_bounds _ _ Hw) as [_ Hl].
  pose proof (make_packet_checksum cmd_id data Hc Hl) as Hm.
  destruct (send_packet_footprint c _ _ _ Hm)
    as (c' & E & T & I & R & V & W).
  exists c'. split; [exact E|]. unfold command_effect.
  split; [exact T|]. split; [exact I|]. split; [exact R|].
  split; [left; exact V|].
  destruct W as [W|W]; [left; exact W|].
  right. eexists _, cmd_id, data.
  split; [exact W|]. split; [exact Hm|exact Hw].
Qed.

(** What a call of a command method can do to the object: nothing at all
    when it raises; otherwise at most one packet more on the port, and
    nothing else but, for [set_velocity], the commanded velocity. *)
Lemma call_footprint (c : Controller) (cmd : command) :
  (exists e, call c cmd = Raised e c) \/
  (exists c', call c cmd = Return c' /\ command_effect c cmd c').
Proof.
  assert (Same : exists c', Return c = Return c' /\ command_effect c cmd c')
    by (exists c; split; [reflexivity|apply command_effect_refl]).
  destruct cmd as [vx vy vw|enable|r g b mode| |]; cbn [call].
  - unfold set_velocity.
    destruct (is_connected c) eqn:Hc; cbn [negb]; [|right; exact Same].
    destruct (int_of_float (vx * 1000)) as [a|e]; cbn [eval];
      [|left; eexists; reflexivity].
    destruct (int_of_float (vy * 1000)) as [b|e]; cbn [eval];
      [|left; eexists; reflexivity].
    destruct (int_of_float (vw * 1000)) as [d|e]; cbn [eval];
      [|left; eexists; reflexivity].
    destruct (pack_hhh a b d) as [data|e] eqn:Ep; cbn [eval];
      [|left; eexists; reflexivity].
    pose proof (proj1 payload_width_sound _ _ _ _ Ep) as Hw.
    destruct (send_packet_effect c (SetVelocity vx vy vw) CMD_VELOCITY data
                ltac:(unfold CMD_VELOCITY; lia) Hw)
      as (c' & E & (T1 & T2 & T3 & T4) & I & R & V & W).
    right. rewrite E. cbn [and_then]. eexists. split; [reflexivity|].
    unfold command_effect, same_telemetry, written_packets, port_status
      in *. cbn.
    split; [repeat split; assumption|]. split; [exact I|]. split; [exact R|].
    split; [|exact W].
    right. exists vx, vy, vw. split; reflexivity.
  - unfold set_beeper.
    destruct (is_connected c); cbn [negb]; [|right; exact Same].
    destruct (pack_B (if enable then 1 else 0)) as [data|e] eqn:Ep;
      cbn [eval]; [|left; eexists; reflexivity].
    right. apply send_packet_effect; [unfold CMD_BEEPER; lia|].
    apply (proj2 (proj2 payload_width_sound) _ _ Ep).
  - unfold set_rgb_light.
    destruct (is_connected c); cbn [negb]; [|right; exact Same].
    cbv zeta.
    destruct (pack_BBBBBB mode 0 0 _ _ _) as [data|e] eqn:Ep;
      cbn [eval]; [|left; eexists; reflexivity].
    right. apply send_packet_effect; [unfold CMD_RGB_LIGHT; lia|].
    apply (proj1 (proj2 payload_width_sound) _ _ _ _ _ Ep).
  - unfold save_light_setting.
    destruct (is_connected c); cbn [negb]; [|right; exact Same].
    change (pack_B 85) with (@Ok bytes [85]). cbn [eval].
    right. apply send_packet_effect; [unfold CMD_LIGHT_SAVE; lia|].
    reflexivity.
  - unfold calibrate_imu.
    destruct (is_connected c); cbn [negb]; [|right; exact Same].
    change (pack_B 85) with (@Ok bytes [85]). cbn [eval].
    right. apply send_packet_effect; [unfold CMD_IMU_CALIBRATE; lia|].
    reflexivity.
Qed.

(** ** Sequences of commands *)

Lemma calls_effect (cmds : list command) (c : Controller) :
  same_telemetry c (calls c cmds) /\
  (is_connected (calls c cmds) = is_connected c /\
   port_status (calls c cmds) = port_status c) /\
  is_running (calls c cmds) = is_running c /\
  exists new,
    written_packets (calls c cmds) = written_packets c ++ new /\
    (length new <= length cmds)%nat /\
    Forall well_formed_packet new.
Proof.
  revert c. induction cmds as [|cmd cmds IH]; intros c.
  - cbn. unfold same_telemetry. repeat split.
    exists []. rewrite app_nil_r.
    split; [reflexivity|]. split; [cbn; lia|constructor].
  - change (calls c (cmd :: cmds))
      with (calls (state_of (call c cmd)) cmds).
    destruct (IH (state_of (call c cmd)))
      as ((T1 & T2 & T3 & T4) & (I & P) & R & new & W & L & F).
    destruct (call_footprint c cmd) as [[e E]|(c' & E & Eff)];
      rewrite E in *; cbn [state_of] in *.
    + unfold same_telemetry. repeat split; try assumption.
      exists new. split; [assumption|]. split; [cbn; lia|assumption].
    + destruct Eff as ((U1 & U2 & U3 & U4) & (I' & P') & R' & _ & W').
      unfold same_telemetry. repeat split; try congruence.
      destruct W' as [W'|(packet & cmd_id & data & W' & Hm & Hw)].
      * exists new. rewrite W, W'.
        split; [reflexivity|]. split; [cbn; lia|assumption].
      * exists (packet :: new). rewrite W, W', <- app_assoc.
        split; [reflexivity|]. split; [cbn; lia|].
        constructor; [exists cmd_id, data; split; assumption|assumption].
Qed.

(** X5. The command methods never touch what the receive thread owns:
    after any sequence of calls, whatever their arguments and whether or not
    some of them raise, the pose, the measured velocity, the inertial data,
    the battery voltage and the time stamp are as before, and so are the
    connection flag, the running flag and the state of the port. *)
Theorem calls_leave_telemetry (c : Controller) (cmds : list command) :
  get_odometry (calls c cmds) = get_odometry c /\
  get_imu_data (calls c cmds) = get_imu_data c /\
  get_battery_voltage (calls c cmds) = get_battery_voltage c /\
  last_update_time (calls c cmds) = last_update_time c /\
  is_connected (calls c cmds) = is_connected c /\
  is_running (calls c cmds) = is_running c /\
  port_status (calls c cmds) = port_status c.
Proof.
  destruct (calls_effect cmds c) as ((T1 & T2 & T3 & T4) & (I & P) & R & _).
  unfold get_odometry, get_imu_data, get_battery_voltage.
  repeat split; assumption.
Qed.

(** X6. The port only ever takes whole, well-formed packets: after any
    sequence of calls, what has been written is what was written before
    followed by at most one packet per call, and the receive loop's scanner
    accepts each of them as a packet of a known identifier with a payload of
    that identifier's width, consuming all of it. *)
Theorem calls_write_whole_packets (c : Controller) (cmds : list command) :
  exists new,
    written_packets (calls c cmds) = written_packets c ++ new /\
    (length new <= length cmds)%nat /\
    Forall (fun packet =>
              exists cmd_id data,
                payload_width cmd_id = Some (length data) /\
                scan_packet packet =
                Ok (GoodPacket 0 (5 + Z.of_nat (length data)) cmd_id data []))
           new.
Proof.
  destruct (calls_effect cmds c) as (_ & _ & _ & new & W & L & F).
  exists new. split; [exact W|]. split; [exact L|].
  apply (Forall_impl _ (P := well_formed_packet)); [|exact F].
  intros packet (cmd_id & data & Hw & Hm). exists cmd_id, data.
  split; [exact Hw|]. apply (scan_make_packet _ _ _ Hm).
Qed.

(** ** [set_velocity] and [set_rgb_light] on the wire *)

Lemma field_h_le16 (a b d : Z) :
  is_int16 a -> is_int16 b -> is_int16 d ->
  field_h (le16 a ++ le16 b ++ le16 d) 0 = a /\
  field_h (le16 a ++ le16 b ++ le16 d) 1 = b /\
  field_h (le16 a ++ le16 b ++ le16 d) 2 = d.
Proof.
  intros Ha Hb Hd. unfold field_h, le16. cbn [app nth Nat.mul Nat.add].
  rewrite !unpack_h_le16 by assumption. repeat split.
Qed.

(** X7. What the board is sent is what was commanded, in thousandths and
    truncated: on a connected session whose port takes the write, for
    components whose integers [a], [b], [d] are in range, [set_velocity]
    appends exactly one packet, which scans as a velocity packet whose three
    signed little-endian fields are [a], [b] and [d]. *)
Theorem set_velocity_on_the_wire (c : Controller) (conn : Serial.t)
        (vx vy vw : float) (a b d : Z) :
  is_connected c = true ->
  serial_conn c = Some conn ->
  Serial.is_open conn = true -> Serial.failing conn = false ->
  int_of_float (vx * 1000) = Ok a ->
  int_of_float (vy * 1000) = Ok b ->
  int_of_float (vw * 1000) = Ok d ->
  is_int16 a -> is_int16 b -> is_int16 d ->
  exists c' packet data,
    set_velocity c vx vy vw = Return c' /\
    written_packets c' = written_packets c ++ [packet] /\
    scan_packet packet = Ok (GoodPacket 0 11 CMD_VELOCITY data []) /\
    field_h data 0 = a /\ field_h data 1 = b /\ field_h data 2 = d.
Proof.
  intros Hc Es Ho Hf Ea Eb Ed Ha Hb Hd.
  unfold set_velocity. rewrite Hc, Ea, Eb, Ed. cbn [negb eval].
  rewrite (pack_hhh_ok _ _ _ (conj Ha (conj Hb Hd))). cbn [eval].
  assert (Hm : make_packet CMD_VELOCITY (le16 a ++ le16 b ++ le16 d) =
               Ok (HEADER1 :: HEADER2 :: 11 :: CMD_VELOCITY ::
                   (le16 a ++ le16 b ++ le16 d) ++
                   [checksum_of 11 CMD_VELOCITY
                      (le16 a ++ le16 b ++ le16 d)])).
  { rewrite make_packet_checksum; [reflexivity|unfold CMD_VELOCITY; lia|].
    cbn. lia. }
  rewrite (send_packet_returns _ _ _ _ Hm), Es, Hc, Ho, Hf.
  cbn [andb negb and_then].
  eexists _, _, (le16 a ++ le16 b ++ le16 d).
  split; [reflexivity|]. split.
  - unfold written_packets. cbn. rewrite Es. reflexivity.
  - split; [apply (proj2 (scan_make_packet _ _ _ Hm))|].
    apply field_h_le16; assumption.
Qed.

(** X8. When the write fails, [set_velocity] says nothing and records the
    command all the same: on a connected session whose port is closed or
    failing, for components in range, the call returns, the port is as
    before, and the commanded velocity reads as the arguments although
    nothing was sent. *)
Theorem set_velocity_write_failure (c : Controller) (conn : Serial.t)
        (vx vy vw : float) (a b d : Z) :
  is_connected c = true ->
  serial_conn c = Some conn ->
  Serial.is_open conn && negb (Serial.failing conn) = false ->
  int_of_float (vx * 1000) = Ok a ->
  int_of_float (vy * 1000) = Ok b ->
  int_of_float (vw * 1000) = Ok d ->
  is_int16 a -> is_int16 b -> is_int16 d ->
  set_velocity c vx vy vw =
    Return (set_current_velocity c (Velocity.mk vx vy vw)) /\
  get_current_velocity (state_of (set_velocity c vx vy vw)) =
    Velocity.mk vx vy vw /\
  written_packets (state_of (set_velocity c vx vy vw)) = written_packets c.
Proof.
  intros Hc Es Hw Ea Eb Ed Ha Hb Hd.
  assert (E : set_velocity c vx vy vw =
              Return (set_current_velocity c (Velocity.mk vx vy vw))).
  { unfold set_velocity. rewrite Hc, Ea, Eb, Ed. cbn [negb eval].
    rewrite (pack_hhh_ok _ _ _ (conj Ha (conj Hb Hd))). cbn [eval].
    destruct (make_packet CMD_VELOCITY (le16 a ++ le16 b ++ le16 d))
      as [packet|e] eqn:Hm.
    - rewrite (send_packet_returns _ _ _ _ Hm), Es, Hc, Hw. reflexivity.
    - rewrite make_packet_checksum in Hm;
        [discriminate|unfold CMD_VELOCITY; lia|cbn; lia]. }
  rewrite E. repeat split.
Qed.

Lemma clamp_byte_max_min (v : Z) : Z.max 0 (Z.min 255 v) = clamp_byte v.
Proof.
  unfold clamp_byte.
  destruct (Z.ltb_spec v 0), (Z.ltb_spec 255 v); lia.
Qed.

Lemma clamp_byte_is_byte (v : Z) : is_byte (clamp_byte v).
Proof.
  unfold clamp_byte, is_byte.
  destruct (Z.ltb_spec v 0), (Z.ltb_spec 255 v); lia.
Qed.

(** X9. [set_rgb_light] never fails on a colour and always fails on a mode
    that is not a byte: on a connected session whose port takes the write,
    with [mode] in 0..255 it appends one packet of payload
    [mode, 0, 0, r', g', b'], where each colour is cut to 0 below 0 and to
    255 above 255; with any other [mode] it raises [struct.error] and
    changes nothing, whatever the colours. *)
Theorem set_rgb_light_clamps (c : Controller) (conn : Serial.t)
        (r g b mode : Z) :
  is_connected c = true ->
  serial_conn c = Some conn ->
  Serial.is_open conn = true -> Serial.failing conn = false ->
  (0 <= mode <= 255 ->
   exists c' packet,
     set_rgb_light c r g b mode = Return c' /\
     written_packets c' = written_packets c ++ [packet] /\
     scan_packet packet =
       Ok (GoodPacket 0 11 CMD_RGB_LIGHT
             [mode; 0; 0; clamp_byte r; clamp_byte g; clamp_byte b] [])) /\
  (~ 0 <= mode <= 255 ->
   set_rgb_light c r g b mode = Raised StructError c).
Proof.
  intros Hc Es Ho Hf. unfold set_rgb_light. rewrite Hc. cbn [negb].
  cbv zeta. rewrite !clamp_byte_max_min. unfold pack_BBBBBB. split.
  - intros Hm.
    rewrite (pack_B_ok mode Hm).
    change (pack_B 0) with (@Ok bytes [0]).
    rewrite !pack_B_ok by apply clamp_byte_is_byte.
    cbn [bind app eval].
    assert (Hp : make_packet CMD_RGB_LIGHT
                   [mode; 0; 0; clamp_byte r; clamp_byte g; clamp_byte b] =
                 Ok (HEADER1 :: HEADER2 :: 11 :: CMD_RGB_LIGHT ::
                     [mode; 0; 0; clamp_byte r; clamp_byte g; clamp_byte b]
                     ++ [checksum_of 11 CMD_RGB_LIGHT
                           [mode; 0; 0; clamp_byte r; clamp_byte g;
                            clamp_byte b]])).
    { rewrite make_packet_checksum;
        [reflexivity|unfold CMD_RGB_LIGHT; lia|cbn; lia]. }
    rewrite (send_packet_returns _ _ _ _ Hp), Es, Hc, Ho, Hf.
    cbn [andb negb]. eexists _, _. split; [reflexivity|]. split.
    + unfold written_packets. cbn. rewrite Es. reflexivity.
    + apply (proj2 (scan_make_packet _ _ _ Hp)).
  - intros Hm. unfold pack_B at 1.
    replace ((0 <=? mode) && (mode <=? 255)) with false; [reflexivity|].
    symmetry. apply andb_false_iff.
    destruct (Z.leb_spec 0 mode), (Z.leb_spec mode 255); auto; lia.
Qed.

(** ** Connecting and the life of a session *)

Lemma robot_type_packet_made (robot_type : RobotType) :
  pack_B (RobotType_value robot_type) = Ok [RobotType_value robot_type] /\
  make_packet CMD_ROBOT_TYPE [RobotType_value robot_type] =
  Ok (robot_type_packet robot_type).
Proof. destruct robot_type; split; reflexivity. Qed.



(** ** The caller beside the receive thread *)

Lemma receive_footprint (events : list Threaded.interference)
      (c : Controller) :
  same_session c (fst (Threaded.receive c events)) /\
  (is_connected (fst (Threaded.receive c events)) = is_connected c \/
   is_connected (fst (Threaded.receive c events)) = false).
Proof.
  revert c. induction events as [|i events IH]; intros c.
  - unfold same_session. cbn. auto.
  - destruct i as [o i b t|]; cbn [Threaded.receive].
    + destruct (IH (Threaded.interfere c (Threaded.Publishes o i b t)))
        as ((S1 & S2 & S3) & I).
      unfold same_session. repeat split; assumption.
    + unfold same_session. cbn. auto.
Qed.

Lemma receive_undisturbed (events : list Threaded.interference)
      (c : Controller) :
  forallb (fun i => match i with
                    | Threaded.Drops => false
                    | _ => true
                    end) events = true ->
  is_connected (fst (Threaded.receive c events)) = is_connected c.
Proof.
  revert c. induction events as [|i events IH]; intros c H; [reflexivity|].
  destruct i as [o i b t|]; [|discriminate H].
  cbn [Threaded.receive]. rewrite (IH _ H). reflexivity.
Qed.

Lemma receive_drops (events : list Threaded.interference) (c : Controller) :
  In Threaded.Drops events ->
  is_connected (fst (Threaded.receive c events)) = false.
Proof.
  revert c. induction events as [|i events IH]; intros c H; [destruct H|].
  destruct i as [o i b t|]; [|reflexivity].
  cbn [Threaded.receive]. apply IH.
  destruct H as [H|H]; [discriminate H|exact H].
Qed.

(** The thread leaves the caller's attributes alone; it may clear the
    connection flag. *)
Lemma yield_footprint (w : Threaded.world) :
  same_session (Threaded.self w) (Threaded.self (Threaded.yield w)) /\
  (is_connected (Threaded.self (Threaded.yield w)) =
     is_connected (Threaded.self w) \/
   is_connected (Threaded.self (Threaded.yield w)) = false).
Proof.
  unfold Threaded.yield.
  destruct (Threaded.schedule w) as [|events later];
    [unfold same_session; auto|].
  destruct (Threaded.receiving w && is_running (Threaded.self w));
    [|unfold same_session; cbn; auto].
  pose proof (receive_footprint events (Threaded.self w)) as H.
  destruct (Threaded.receive (Threaded.self w) events) as [c looping].
  exact H.
Qed.

Lemma yield_calm (w : Threaded.world) : calm w (Threaded.yield w).
Proof.
  unfold calm, Threaded.undisturbed, Threaded.yield. intros U.
  destruct (Threaded.schedule w) as [|events later] eqn:Es;
    [rewrite Es; auto|].
  cbn [forallb] in U. apply andb_prop in U. destruct U as [He Hl].
  destruct (Threaded.receiving w && is_running (Threaded.self w));
    [|cbn; auto].
  pose proof (receive_undisturbed events (Threaded.self w) He) as H.
  destruct (Threaded.receive (Threaded.self w) events) as [c looping].
  cbn in *. auto.
Qed.

Lemma same_session_step (c c' : Controller) :
  same_session c c' ->
  is_connected c' = is_connected c \/ is_connected c' = false ->
  session_step 0 c c'.
Proof.
  intros (S1 & S2 & S3) I.
  unfold session_step, port_status, written_packets. rewrite S1.
  split; [reflexivity|]. split; [exact S2|]. split; [exact I|].
  exists []. rewrite app_nil_r. split; [reflexivity|].
  split; [cbn; lia|constructor].
Qed.

Lemma set_current_velocity_step (c : Controller) (v : Velocity.t) :
  session_step 0 c (set_current_velocity c v).
Proof.
  split; [reflexivity|]. split; [reflexivity|]. split; [left; reflexivity|].
  exists []. unfold written_packets. cbn. rewrite app_nil_r.
  split; [reflexivity|]. split; [lia|constructor].
Qed.

Lemma yield_beside (w : Threaded.world) : beside 0 w (Threaded.yield w).
Proof.
  destruct (yield_footprint w) as [S I].
  split; [exact (same_session_step _ _ S I)|apply yield_calm].
Qed.

Lemma beside_refl (w : Threaded.world) : beside 0 w w.
Proof.
  split; [|intros U; auto].
  apply same_session_step; [unfold same_session|]; auto.
Qed.

Lemma beside_trans (j k : nat) (w1 w2 w3 : Threaded.world) :
  beside j w1 w2 -> beside k w2 w3 -> beside (j + k) w1 w3.
Proof.
  intros [(P1 & R1 & I1 & new1 & W1 & L1 & F1) C1]
         [(P2 & R2 & I2 & new2 & W2 & L2 & F2) C2].
  split.
  - split; [congruence|]. split; [congruence|]. split.
    + destruct I2 as [I2|I2]; [rewrite I2; exact I1|right; exact I2].
    + exists (new1 ++ new2). rewrite W2, W1, <- app_assoc.
      split; [reflexivity|]. split; [rewrite length_app; lia|].
      apply Forall_app. split; assumption.
  - intros U. destruct (C1 U) as [U2 E2]. destruct (C2 U2) as [U3 E3].
    split; [exact U3|congruence].
Qed.

Lemma beside_le (j k : nat) (w w' : Threaded.world) :
  (j <= k)%nat -> beside j w w' -> beside k w w'.
Proof.
  intros H [(P & R & I & new & W & L & F) C].
  split; [|exact C]. split; [exact P|]. split; [exact R|].
  split; [exact I|]. exists new. split; [exact W|]. split; [lia|exact F].
Qed.

(** [_send_packet], after what the thread did meanwhile. *)
Lemma at_once_send (w : Threaded.world) (cmd_id : Z) (data : bytes) :
  payload_width cmd_id = Some (length data) ->
  exists w',
    Threaded.at_once w (fun c => _send_packet c cmd_id data) =
      Threaded.Returned tt w' /\
    beside 1 w w' /\
    current_velocity (Threaded.self w') = current_velocity (Threaded.self w).
Proof.
  intros Hw. destruct (payload_width_bounds _ _ Hw) as [Hc Hl].
  pose proof (make_packet_checksum cmd_id data Hc Hl) as Hm.
  unfold Threaded.at_once. cbv zeta.
  pose proof (yield_beside w) as B1.
  destruct (yield_footprint w) as [(_ & _ & V1) _].
  set (w1 := Threaded.yield w) in *.
  destruct (send_packet_footprint (Threaded.self w1) _ _ _ Hm)
    as (c' & E & _ & (I & P) & R & V & W).
  rewrite E. eexists. split; [reflexivity|]. split.
  - apply (beside_trans 0 1 _ _ _ B1). split.
    + cbn. split; [exact P|]. split; [exact R|]. split; [left; exact I|].
      destruct W as [W|W]; rewrite W.
      * exists []. rewrite app_nil_r. split; [reflexivity|].
        split; [cbn; lia|constructor].
      * eexists [_]. split; [reflexivity|]. split; [cbn; lia|].
        constructor; [|constructor]. exists cmd_id, data.
        split; [exact Hw|exact Hm].
    + intros U. split; [exact U|exact I].
  - cbn. congruence.
Qed.

Ltac at_guard w w1 B1 :=
  cbv zeta; pose proof (yield_beside w) as B1;
  set (w1 := Threaded.yield w) in *;
  destruct (is_connected (Threaded.self w1)); cbn [negb];
  [|exact (beside_le 0 1 _ _ ltac:(lia) B1)].

Ltac raises_early B1 :=
  cbn [Threaded.evaluate Threaded.world_of];
  exact (beside_le 0 1 _ _ ltac:(lia) B1).

(** A call of a command method, with the thread beside it: at most one
    well-formed packet more on the port. *)
Lemma call_beside (w : Threaded.world) (cmd : command) :
  beside 1 w (Threaded.world_of (Threaded.call w cmd)).
Proof.
  destruct cmd as [vx vy vw|enable|r g b mode| |]; cbn [Threaded.call].
  - unfold Threaded.set_velocity. at_guard w w1 B1.
    destruct (int_of_float (vx * 1000)) as [a|e]; [|raises_early B1].
    destruct (int_of_float (vy * 1000)) as [b|e]; [|raises_early B1].
    destruct (int_of_float (vw * 1000)) as [d|e]; [|raises_early B1].
    cbn [Threaded.evaluate].
    destruct (pack_hhh a b d) as [data|e] eqn:Ep; [|raises_early B1].
    cbn [Threaded.evaluate].
    destruct (at_once_send w1 CMD_VELOCITY data
                (proj1 payload_width_sound _ _ _ _ Ep))
      as (w2 & E & B2 & _).
    rewrite E. cbn [Threaded.next Threaded.world_of].
    apply (beside_trans 0 1 _ _ _ B1).
    apply (beside_trans 1 0 _ _ _ B2).
    split; [apply set_current_velocity_step|intros U; auto].
  - unfold Threaded.set_beeper. at_guard w w1 B1.
    destruct (pack_B _) as [data|e] eqn:Ep; [|raises_early B1].
    cbn [Threaded.evaluate].
    destruct (at_once_send w1 CMD_BEEPER data
                (proj1 (proj2 (proj2 (proj2 (proj2 payload_width_sound)
                                        _ _ Ep)))))
      as (w2 & E & B2 & _).
    rewrite E. exact (beside_trans 0 1 _ _ _ B1 B2).
  - unfold Threaded.set_rgb_light. at_guard w w1 B1.
    destruct (pack_BBBBBB _ _ _ _ _ _) as [data|e] eqn:Ep; [|raises_early B1].
    cbn [Threaded.evaluate].
    destruct (at_once_send w1 CMD_RGB_LIGHT data
                (proj1 (proj2 payload_width_sound) _ _ _ _ _ Ep))
      as (w2 & E & B2 & _).
    rewrite E. exact (beside_trans 0 1 _ _ _ B1 B2).
  - unfold Threaded.save_light_setting. at_guard w w1 B1.
    change (pack_B 85) with (@Ok bytes [85]). cbn [Threaded.evaluate].
    destruct (at_once_send w1 CMD_LIGHT_SAVE [85] eq_refl)
      as (w2 & E & B2 & _).
    rewrite E. exact (beside_trans 0 1 _ _ _ B1 B2).
  - unfold Threaded.calibrate_imu. at_guard w w1 B1.
    change (pack_B 85) with (@Ok bytes [85]). cbn [Threaded.evaluate].
    destruct (at_once_send w1 CMD_IMU_CALIBRATE [85] eq_refl)
      as (w2 & E & B2 & _).
    rewrite E. exact (beside_trans 0 1 _ _ _ B1 B2).
Qed.

Lemma calls_beside (cmds : list command) (w : Threaded.world) :
  beside (length cmds) w (Threaded.calls w cmds).
Proof.
  revert w. induction cmds as [|cmd cmds IH]; intros w; [apply beside_refl|].
  change (Threaded.calls w (cmd :: cmds))
    with (Threaded.calls (Threaded.world_of (Threaded.call w cmd)) cmds).
  exact (beside_trans 1 (length cmds) _ _ _ (call_beside w cmd) (IH _)).
Qed.

(** Once the connection flag is down, no command reaches the port. *)
Lemma left_alone_trans (c1 c2 c3 : Controller) :
  left_alone c1 c2 -> left_alone c2 c3 -> left_alone c1 c3.
Proof.
  intros (I1 & S1 & V1) (I2 & S2 & V2). repeat split; congruence.
Qed.

Lemma yield_left_alone (w : Threaded.world) :
  is_connected (Threaded.self w) = false ->
  left_alone (Threaded.self w) (Threaded.self (Threaded.yield w)).
Proof.
  intros H. destruct (yield_footprint w) as [(S1 & _ & V1) I].
  split; [destruct I; congruence|]. split; assumption.
Qed.

Lemma call_left_alone (w : Threaded.world) (cmd : command) :
  is_connected (Threaded.self w) = false ->
  Threaded.call w cmd = Threaded.Returned tt (Threaded.yield w).
Proof.
  intros H. destruct (yield_left_alone w H) as (I & _).
  destruct cmd; cbn [Threaded.call];
    unfold Threaded.set_velocity, Threaded.set_beeper,
      Threaded.set_rgb_light, Threaded.save_light_setting,
      Threaded.calibrate_imu; cbv zeta; rewrite I; reflexivity.
Qed.

Lemma calls_left_alone (cmds : list command) (w : Threaded.world) :
  is_connected (Threaded.self w) = false ->
  left_alone (Threaded.self w) (Threaded.self (Threaded.calls w cmds)).
Proof.
  revert w. induction cmds as [|cmd cmds IH]; intros w H.
  - repeat split. exact H.
  - change (Threaded.calls w (cmd :: cmds))
      with (Threaded.calls (Threaded.world_of (Threaded.call w cmd)) cmds).
    rewrite (call_left_alone w cmd H). cbn [Threaded.world_of].
    pose proof (yield_left_alone w H) as L.
    exact (left_alone_trans _ _ _ L (IH _ (proj1 L))).
Qed.

(** [set_velocity(0.0, 0.0, 0.0)] with the thread beside it: it returns;
    the stop packet is written or nothing is; and when the session is still
    connected afterwards, the commanded velocity is zero and a port that
    takes writes has taken the stop packet. *)
Lemma set_velocity_stop (w : Threaded.world) :
  exists w' last,
    Threaded.set_velocity w 0 0 0 = Threaded.Returned tt w' /\
    beside 1 w w' /\
    written_packets (Threaded.self w') =
      written_packets (Threaded.self w) ++ last /\
    (last = [] \/
     last = [stop_packet] /\
     current_velocity (Threaded.self w') = Velocity.mk 0 0 0) /\
    (is_connected (Threaded.self w') = true ->
     current_velocity (Threaded.self w') = Velocity.mk 0 0 0 /\
     (port_status (Threaded.self w') = Some (true, false) ->
      last = [stop_packet])).
Proof.
  pose proof (call_beside w (SetVelocity 0 0 0)) as B.
  cbn [Threaded.call] in B. revert B.
  unfold Threaded.set_velocity. cbv zeta.
  destruct (yield_footprint w) as [(S1 & _ & _) _].
  set (w1 := Threaded.yield w) in *.
  destruct (is_connected (Threaded.self w1)) eqn:E1; cbn [negb].
  - change (int_of_float (0 * 1000)) with (@Ok Z 0%Z).
    cbn [Threaded.evaluate].
    change (pack_hhh 0 0 0) with (@Ok bytes [0; 0; 0; 0; 0; 0]%Z).
    cbn [Threaded.evaluate]. unfold Threaded.at_once. cbv beta zeta.
    destruct (yield_footprint w1) as [(S2 & _ & _) _].
    set (w2 := Threaded.yield w1) in *.
    rewrite (send_packet_returns _ _ _ _ zero_velocity_packet).
    cbn [Threaded.next Threaded.world_of].
    unfold written_packets, port_status in *. rewrite <- S1, <- S2.
    destruct (serial_conn (Threaded.self w2)) as [conn|] eqn:Es.
    + destruct (is_connected (Threaded.self w2)) eqn:E2; cbn [andb].
      * destruct (Serial.is_open conn && negb (Serial.failing conn)) eqn:Eo.
        -- intros B. eexists _, [stop_packet]. split; [reflexivity|].
           split; [exact B|]. cbn. rewrite ?Es. cbn.
           split; [reflexivity|]. split; [right; split; reflexivity|].
           intros _. split; reflexivity.
        -- intros B. eexists _, []. split; [reflexivity|].
           split; [exact B|]. cbn. rewrite ?Es. cbn. rewrite app_nil_r.
           split; [reflexivity|]. split; [left; reflexivity|].
           intros _. split; [reflexivity|].
           intros [= Ho Hf]. rewrite Ho, Hf in Eo. discriminate Eo.
      * intros B. eexists _, []. split; [reflexivity|].
        split; [exact B|]. cbn. rewrite ?Es. cbn. rewrite app_nil_r.
        split; [reflexivity|]. split; [left; reflexivity|].
        rewrite E2. discriminate.
    + intros B. eexists _, []. split; [reflexivity|].
      split; [exact B|]. cbn. rewrite ?Es. cbn.
      split; [reflexivity|]. split; [left; reflexivity|].
      intros _. split; [reflexivity|discriminate].
  - intros B. eexists _, []. split; [reflexivity|]. split; [exact B|].
    unfold written_packets. rewrite S1, app_nil_r.
    split; [reflexivity|]. split; [left; reflexivity|].
    cbn [Threaded.world_of] in *. rewrite E1. discriminate.
Qed.

(** What a pass of the receive loop does to the object is a stretch of a
    schedule: telemetry and a time stamp, and after them the handler when the
    pass stops the loop. *)
Lemma receive_pass_interferes (cos sin : float -> float)
      (time_time : nat -> float) (c : Controller) (n : nat)
      (buffer : bytes) (incoming : result bytes) :
  is_running c = true ->
  exists events,
    match receive_pass cos sin time_time c n buffer incoming with
    | Continue c' _ _ => Threaded.receive c events = (c', true)
    | Stop c' _ => Threaded.receive c events = (c', false)
    end.
Proof.
  intros Hr. unfold receive_pass. rewrite Hr. cbn [negb].
  destruct incoming as [received|e];
    [|exists [Threaded.Drops]; reflexivity].
  pose proof (drain_inner_loop cos sin time_time c n (buffer ++ received))
    as Hd.
  apply inner_loop_same_session in Hd.
  destruct (drain cos sin time_time c n (buffer ++ received))
    as [c' n' buffer'|e c' n'];
    destruct Hd as [(S1 & S2 & S3) I];
    [exists [Threaded.Publishes (odometry_data c') (imu_data c')
               (battery_voltage c') (last_update_time c')]
    |exists [Threaded.Publishes (odometry_data c') (imu_data c')
               (battery_voltage c') (last_update_time c');
             Threaded.Drops]];
    destruct c, c'; cbn in *; subst; reflexivity.
Qed.

(** [connect] on a port that is open and takes writes, with the thread
    beside it. *)
Lemma connect_beside (w : Threaded.world) (robot_type : RobotType)
      (conn : Serial.t) :
  Serial.is_open conn = true -> Serial.failing conn = false ->
  exists w' first,
    Threaded.connect w robot_type (Ok conn) = Threaded.Returned true w' /\
    port_status (Threaded.self w') = Some (true, false) /\
    is_running (Threaded.self w') = true /\
    written_packets (Threaded.self w') = Serial.written conn ++ first /\
    (first = [] /\ is_connected (Threaded.self w') = false \/
     first = [robot_type_packet robot_type]) /\
    (Threaded.undisturbed w = true ->
     Threaded.undisturbed w' = true /\
     is_connected (Threaded.self w') = true /\
     first = [robot_type_packet robot_type]).
Proof.
  intros Ho Hf. unfold Threaded.connect. rewrite Ho. cbv zeta.
  set (c0 := _start_receive_thread
               (set_is_connected
                  (set_serial_conn (Threaded.self w) (Some conn)) true)).
  set (w0 := Threaded.mkWorld c0 true (Threaded.schedule w)).
  destruct (yield_footprint w0) as [(S1 & R1 & _) _].
  pose proof (yield_calm w0) as C1.
  set (w1 := Threaded.yield w0) in *.
  unfold Threaded.at_once. cbv beta zeta.
  destruct (yield_footprint w1) as [(S2 & R2 & _) _].
  pose proof (yield_calm w1) as C2.
  set (w2 := Threaded.yield w1) in *.
  unfold _set_robot_type.
  destruct (robot_type_packet_made robot_type) as [Hp Hm].
  rewrite Hp. cbn [eval]. rewrite (send_packet_returns _ _ _ _ Hm).
  assert (Es : serial_conn (Threaded.self w2) = Some conn)
    by (rewrite S2, S1; reflexivity).
  assert (Er : is_running (Threaded.self w2) = true)
    by (rewrite R2, R1; reflexivity).
  assert (Hu : Threaded.undisturbed w = true ->
               Threaded.undisturbed w2 = true /\
               is_connected (Threaded.self w2) = true).
  { intros U. destruct (C1 U) as [U1 I1]. destruct (C2 U1) as [U2 I2].
    split; [exact U2|]. rewrite I2, I1. reflexivity. }
  rewrite Es, Ho, Hf. cbn [negb andb].
  unfold written_packets, port_status.
  destruct (is_connected (Threaded.self w2)) eqn:Ec.
  - eexists _, [robot_type_packet robot_type]. split; [reflexivity|].
    cbn. split; [reflexivity|]. split; [exact Er|].
    split; [reflexivity|]. split; [right; reflexivity|].
    intros U. destruct (Hu U) as [U2 _]. auto.
  - eexists _, []. split; [reflexivity|].
    cbn. rewrite Es. cbn. rewrite Ho, Hf, app_nil_r.
    split; [reflexivity|]. split; [exact Er|].
    split; [reflexivity|]. split; [left; split; [reflexivity|exact Ec]|].
    intros U. destruct (Hu U) as [_ I]. discriminate I.
Qed.

(** X11. A session on a port that takes writes, from [with] to the end of
    the block, with the receive thread beside it, whatever the thread does
    and whenever. The block is entered and left without an exception. The
    port is handed the robot-type packet or nothing, then at most one
    well-formed packet per command, then the stop packet or nothing. At the
    end the session is disconnected, and either [disconnect] went through,
    with the port closed and the loop flag cleared, or the thread had dropped
    the connection before, and then the port is still open, the loop flag
    still set and no stop packet was written. A stop packet written means the
    port closed and the commanded velocity zero. When the thread never
    reaches its exception handler, the whole sequence happens: robot-type
    packet first, stop packet last, port closed, loop flag cleared,
    commanded velocity zero. After the block every command is ignored. *)
Theorem session_lifecycle (w : Threaded.world) (robot_type : RobotType)
        (conn : Serial.t) (cmds : list command) :
  Serial.is_open conn = true -> Serial.failing conn = false ->
  exists w' first new last,
    Threaded.with_controller w robot_type (Ok conn)
      (fun w => Threaded.Returned tt (Threaded.calls w cmds)) =
      Threaded.Exited (Threaded.Returned tt w') /\
    written_packets (Threaded.self w') =
      Serial.written conn ++ first ++ new ++ last /\
    (first = [] \/ first = [robot_type_packet robot_type]) /\
    (length new <= length cmds)%nat /\
    Forall well_formed_packet new /\
    (last = [] \/ last = [stop_packet]) /\
    is_connected (Threaded.self w') = false /\
    (port_status (Threaded.self w') = Some (false, false) /\
     is_running (Threaded.self w') = false \/
     port_status (Threaded.self w') = Some (true, false) /\
     is_running (Threaded.self w') = true /\ last = []) /\
    (last = [stop_packet] ->
     port_status (Threaded.self w') = Some (false, false) /\
     get_current_velocity (Threaded.self w') = Velocity.mk 0 0 0) /\
    (Threaded.undisturbed w = true ->
     first = [robot_type_packet robot_type] /\ last = [stop_packet] /\
     port_status (Threaded.self w') = Some (false, false) /\
     is_running (Threaded.self w') = false /\
     get_current_velocity (Threaded.self w') = Velocity.mk 0 0 0) /\
    forall more,
      left_alone (Threaded.self w')
                 (Threaded.self (Threaded.calls w' more)).
Proof.
  intros Ho Hf.
  destruct (connect_beside w robot_type conn Ho Hf)
    as (w1 & first & E1 & P1 & R1 & W1 & D1 & U1).
  unfold Threaded.with_controller, Threaded.__enter__. rewrite E1.
  cbv beta iota.
  destruct (calls_beside cmds w1)
    as [(P2 & R2 & _ & new & W2 & L2 & F2) C2].
  set (w2 := Threaded.calls w1 cmds) in *.
  unfold Threaded.__exit__, Threaded.disconnect. cbv zeta.
  destruct (yield_footprint w2) as [(S3 & R3 & _) I3].
  pose proof (yield_calm w2) as C3.
  set (w3 := Threaded.yield w2) in *.
  assert (P3 : port_status (Threaded.self w3) = Some (true, false))
    by (unfold port_status in *; rewrite S3; congruence).
  assert (W3 : written_packets (Threaded.self w3) =
               Serial.written conn ++ first ++ new)
    by (unfold written_packets in *; rewrite S3, W2, W1, <- app_assoc;
        reflexivity).
  assert (D1' : first = [] \/ first = [robot_type_packet robot_type])
    by (destruct D1 as [[D _]|D]; auto).
  destruct (is_connected (Threaded.self w3)) eqn:E3.
  - destruct (set_velocity_stop w3)
      as (w4 & last & E4 & [(P4 & R4 & _) C4] & W4 & D4 & K4).
    rewrite E4. cbn [Threaded.next].
    destruct (yield_footprint w4) as [(S5 & R5 & V5) _].
    pose proof (yield_calm w4) as C5.
    set (w5 := Threaded.yield w4) in *.
    assert (P5 : port_status (Threaded.self w5) = Some (true, false))
      by (unfold port_status in *; rewrite S5; congruence).
    assert (W5 : written_packets (Threaded.self w5) =
                 Serial.written conn ++ first ++ new ++ last)
      by (unfold written_packets in *;
          rewrite S5, W4, W3, <- !app_assoc; reflexivity).
    unfold port_status, written_packets in P5, W5.
    destruct (serial_conn (Threaded.self w5)) as [conn5|] eqn:Es5;
      [|discriminate P5].
    cbn in P5. injection P5 as Ho5 Hf5.
    eexists _, first, new, last. split; [reflexivity|].
    unfold port_status, written_packets, get_current_velocity. cbn.
    rewrite Es5. cbn. rewrite Hf5.
    split; [exact W5|]. split; [exact D1'|]. split; [exact L2|].
    split; [exact F2|].
    split; [destruct D4 as [D|[D _]]; auto|].
    split; [reflexivity|]. split; [left; split; reflexivity|].
    split.
    + intros El. split; [reflexivity|].
      destruct D4 as [D|[_ D]]; [rewrite D in El; discriminate El|].
      rewrite V5. exact D.
    + split.
      * intros U. destruct (U1 U) as (Uw1 & I1 & F1).
        destruct (C2 Uw1) as [Uw2 I2]. destruct (C3 Uw2) as [Uw3 _].
        destruct (C4 Uw3) as [Uw4 I4].
        destruct (K4 ltac:(congruence)) as [V4 K].
        split; [exact F1|]. split; [apply K; congruence|].
        split; [reflexivity|]. split; [reflexivity|].
        rewrite V5. exact V4.
      * intros more. apply calls_left_alone. reflexivity.
  - eexists _, first, new, []. split; [reflexivity|].
    rewrite app_nil_r.
    split; [exact W3|]. split; [exact D1'|]. split; [exact L2|].
    split; [exact F2|]. split; [left; reflexivity|]. split; [exact E3|].
    split; [right; split; [exact P3|split; [congruence|reflexivity]]|].
    split; [discriminate|]. split.
    + intros U. destruct (U1 U) as (Uw1 & I1 & F1).
      destruct (C2 Uw1) as [Uw2 I2]. destruct (C3 Uw2) as [_ I3'].
      congruence.
    + intros more. apply calls_left_alone. exact E3.
Qed.

(** ** The test sequence of [examples/fwd_test.py] *)

Lemma try_finally_world (body : Threaded.ended unit)
      (final : Threaded.world -> Threaded.ended unit) :
  Threaded.world_of (Threaded.try_finally body final) =
  Threaded.world_of (final (Threaded.world_of body)).
Proof.
  destruct body as [[] w|e w]; cbn [Threaded.try_finally Threaded.world_of];
    [reflexivity|].
  destruct (final w); reflexivity.
Qed.

Lemma next_beside (j k : nat) (w : Threaded.world) (r : Threaded.ended unit)
      (kont : unit -> Threaded.world -> Threaded.ended unit) :
  beside j w (Threaded.world_of r) ->
  (forall a w1, beside k w1 (Threaded.world_of (kont a w1))) ->
  beside (j + k) w (Threaded.world_of (Threaded.next r kont)).
Proof.
  intros Hr Hk. destruct r as [a w1|e w1];
    cbn [Threaded.next Threaded.world_of] in *.
  - exact (beside_trans j k _ _ _ Hr (Hk a w1)).
  - exact (beside_le j (j + k) _ _ ltac:(lia) Hr).
Qed.

Lemma set_velocity_beside (w : Threaded.world) (vx vy vw : float) :
  beside 1 w (Threaded.world_of (Threaded.set_velocity w vx vy vw)).
Proof. exact (call_beside w (SetVelocity vx vy vw)). Qed.

Lemma sleep_beside (w : Threaded.world) :
  beside 0 w (Threaded.world_of (Threaded.sleep w)).
Proof. exact (yield_beside w). Qed.

Lemma next_left_alone (c : Controller) (r : Threaded.ended unit)
      (kont : unit -> Threaded.world -> Threaded.ended unit) :
  left_alone c (Threaded.self (Threaded.world_of r)) ->
  (forall a w1,
      is_connected (Threaded.self w1) = false ->
      left_alone (Threaded.self w1)
                 (Threaded.self (Threaded.world_of (kont a w1)))) ->
  left_alone c (Threaded.self (Threaded.world_of (Threaded.next r kont))).
Proof.
  intros Hr Hk. destruct r as [a w1|e w1];
    cbn [Threaded.next Threaded.world_of] in *; [|exact Hr].
  exact (left_alone_trans _ _ _ Hr (Hk a w1 (proj1 Hr))).
Qed.

Lemma set_velocity_left_alone (w : Threaded.world) (vx vy vw : float) :
  is_connected (Threaded.self w) = false ->
  left_alone (Threaded.self w)
    (Threaded.self (Threaded.world_of (Threaded.set_velocity w vx vy vw))).
Proof.
  intros H.
  pose proof (call_left_alone w (SetVelocity vx vy vw) H) as E.
  cbn [Threaded.call] in E. rewrite E. exact (yield_left_alone w H).
Qed.

Lemma sleep_left_alone (w : Threaded.world) :
  is_connected (Threaded.self w) = false ->
  left_alone (Threaded.self w)
    (Threaded.self (Threaded.world_of (Threaded.sleep w))).
Proof. exact (yield_left_alone w). Qed.

Ltac then_command k :=
  apply (next_beside 1 k); [apply set_velocity_beside|intros ? ?].

Ltac then_sleep k :=
  apply (next_beside 0 k); [apply sleep_beside|intros ? ?].

(** X12. The test sequence with the receive thread beside it, for any
    speed (out of range, or not a number, so that a command in the middle
    raises) and whatever the thread does during the commands and the pauses.
    The sequence leaves the port as open as it was and hands it at most nine
    packets, all well formed. If the session is still connected when the
    sequence is over, the commanded velocity is zero, and a port that takes
    writes has taken the stop packet last. If the thread never reaches its
    exception handler, the session is as connected afterwards as before. The
    stop is therefore certain as long as the thread does not drop the
    connection, and not otherwise. *)
Theorem run_test_sequence_stops (w : Threaded.world) (speed : float) :
  let w' := Threaded.world_of (Threaded.run_test_sequence w speed) in
  port_status (Threaded.self w') = port_status (Threaded.self w) /\
  (exists new,
      written_packets (Threaded.self w') =
        written_packets (Threaded.self w) ++ new /\
      (length new <= 9)%nat /\ Forall well_formed_packet new) /\
  (is_connected (Threaded.self w') = true ->
   get_current_velocity (Threaded.self w') = Velocity.mk 0 0 0 /\
   (port_status (Threaded.self w') = Some (true, false) ->
    exists before,
      written_packets (Threaded.self w') = before ++ [stop_packet])) /\
  (Threaded.undisturbed w = true ->
   is_connected (Threaded.self w') = is_connected (Threaded.self w)).
Proof.
  cbv zeta. unfold Threaded.run_test_sequence. rewrite try_finally_world.
  match goal with
  | |- context [Threaded.set_velocity (Threaded.world_of ?b) _ _ _] =>
      set (body := b)
  end.
  assert (Hb : beside 8 w (Threaded.world_of body)).
  { unfold body.
    then_command 7%nat. then_sleep 7%nat. then_command 6%nat.
    then_sleep 6%nat. then_command 5%nat. then_sleep 5%nat.
    then_command 4%nat. then_sleep 4%nat. then_command 3%nat.
    then_sleep 3%nat. then_command 2%nat. then_sleep 2%nat.
    then_command 1%nat. then_sleep 1%nat. apply set_velocity_beside. }
  destruct (set_velocity_stop (Threaded.world_of body))
    as (w4 & last & E4 & B4 & W4 & _ & K4).
  rewrite E4. cbn [Threaded.world_of].
  destruct (beside_trans 8 1 _ _ _ Hb B4)
    as [(P & _ & _ & new & W & L & F) C].
  split; [exact P|]. split; [exists new; auto|]. split.
  - intros Hc. destruct (K4 Hc) as [V K]. split; [exact V|].
    intros Hp. eexists. rewrite W4, (K Hp). reflexivity.
  - intros U. apply (C U).
Qed.

Lemma yield_idle (c : Controller)
      (later : list (list Threaded.interference)) :
  is_running c = true ->
  Threaded.yield (Threaded.mkWorld c true ([] :: later)) =
  Threaded.mkWorld c true later.
Proof. intros H. unfold Threaded.yield. cbn. rewrite H. reflexivity. Qed.

(** The first command of the sequence on a healthy session, while the
    thread does nothing. *)
Lemma set_velocity_sent (c : Controller) (conn : Serial.t)
      (later : list (list Threaded.interference))
      (vx : float) (a : Z) (packet : bytes) :
  is_connected c = true -> is_running c = true ->
  serial_conn c = Some conn ->
  Serial.is_open conn = true -> Serial.failing conn = false ->
  int_of_float (vx * 1000) = Ok a -> is_int16 a ->
  make_packet CMD_VELOCITY (le16 a ++ le16 0 ++ le16 0) = Ok packet ->
  Threaded.set_velocity (Threaded.mkWorld c true ([] :: [] :: later))
                        vx 0 0 =
  Threaded.Returned tt
    (Threaded.mkWorld
       (set_current_velocity
          (set_serial_conn c
             (Some (Serial.mk true false (Serial.written conn ++ [packet]))))
          (Velocity.mk vx 0 0))
       true later).
Proof.
  intros Hc Hr Es Ho Hf Ha Hi Hm.
  unfold Threaded.set_velocity. cbv zeta.
  rewrite (yield_idle c _ Hr). cbn [Threaded.self]. rewrite Hc, Ha.
  cbn [negb Threaded.evaluate].
  change (int_of_float (0 * 1000)) with (@Ok Z 0%Z).
  cbn [Threaded.evaluate].
  rewrite (pack_hhh_ok a 0 0) by (unfold is_int16 in *; lia).
  cbn [Threaded.evaluate]. unfold Threaded.at_once. cbv beta zeta.
  rewrite (yield_idle c _ Hr). cbn [Threaded.self].
  rewrite (send_packet_returns _ _ _ _ Hm).
  rewrite Es, Hc, Ho, Hf. reflexivity.
Qed.

Lemma yield_drops (w : Threaded.world)
      (events : list Threaded.interference)
      (later : list (list Threaded.interference)) :
  Threaded.schedule w = events :: later ->
  Threaded.receiving w = true -> is_running (Threaded.self w) = true ->
  In Threaded.Drops events ->
  is_connected (Threaded.self (Threaded.yield w)) = false.
Proof.
  intros Hs Hr Hl Hd. unfold Threaded.yield. rewrite Hs, Hr, Hl. cbn [andb].
  pose proof (receive_drops events (Threaded.self w) Hd) as H.
  destruct (Threaded.receive (Threaded.self w) events) as [c looping].
  exact H.
Qed.

(** X20. The same sequence when the thread drops the connection during the
    first pause. On a healthy session with the thread in its loop, for a
    speed in range: the first command goes out, the thread reaches its
    exception handler while the caller sleeps, and from there on every
    command of the sequence, the one in the [finally] clause included, is
    ignored. The sequence ends with the commanded velocity still at the
    speed, the velocity packet the only thing written, and the port open. *)
Theorem run_test_sequence_left_moving (w : Threaded.world) (speed : float)
        (a : Z) (conn : Serial.t) (events : list Threaded.interference)
        (later : list (list Threaded.interference)) :
  is_connected (Threaded.self w) = true ->
  Threaded.receiving w = true ->
  is_running (Threaded.self w) = true ->
  serial_conn (Threaded.self w) = Some conn ->
  Serial.is_open conn = true -> Serial.failing conn = false ->
  int_of_float (speed * 1000) = Ok a -> is_int16 a ->
  Threaded.schedule w = [] :: [] :: events :: later ->
  In Threaded.Drops events ->
  exists packet,
    make_packet CMD_VELOCITY (le16 a ++ le16 0 ++ le16 0) = Ok packet /\
    let w' := Threaded.world_of (Threaded.run_test_sequence w speed) in
    is_connected (Threaded.self w') = false /\
    get_current_velocity (Threaded.self w') = Velocity.mk speed 0 0 /\
    written_packets (Threaded.self w') = Serial.written conn ++ [packet] /\
    port_status (Threaded.self w') = Some (true, false).
Proof.
  destruct w as [c r sched]. cbn [Threaded.self Threaded.receiving
                                  Threaded.schedule].
  intros Hc -> Hr Es Ho Hf Ha Hi -> Hd.
  destruct (make_packet CMD_VELOCITY (le16 a ++ le16 0 ++ le16 0))
    as [packet|e] eqn:Hm.
  2:{ rewrite make_packet_checksum in Hm; [discriminate| |].
      - unfold CMD_VELOCITY. lia.
      - cbn. lia. }
  exists packet. split; [reflexivity|]. cbv zeta.
  unfold Threaded.run_test_sequence. rewrite try_finally_world.
  rewrite (set_velocity_sent c conn (events :: later) speed a packet)
    by assumption.
  cbn [Threaded.next].
  match goal with
  | |- context [Threaded.sleep ?x] =>
      match x with
      | Threaded.mkWorld _ _ _ =>
          set (w1 := x);
          change (Threaded.sleep w1)
            with (Threaded.Returned tt (Threaded.yield w1))
      end
  end.
  cbn [Threaded.next].
  assert (E2 : is_connected (Threaded.self (Threaded.yield w1)) = false)
    by (apply (yield_drops w1 events later); auto).
  destruct (yield_footprint w1) as [(S2 & _ & V2) _].
  set (w2 := Threaded.yield w1) in *.
  match goal with
  | |- context [Threaded.set_velocity (Threaded.world_of ?b) _ _ _] =>
      set (rest := b)
  end.
  assert (Hl : left_alone (Threaded.self w2)
                          (Threaded.self (Threaded.world_of rest))).
  { unfold rest.
    repeat (apply next_left_alone;
            [first [apply set_velocity_left_alone; assumption
                   |apply sleep_left_alone; assumption]
            |intros ? ? ?]).
    apply set_velocity_left_alone; assumption. }
  pose proof (set_velocity_left_alone (Threaded.world_of rest) 0 0 0
                (proj1 Hl)) as Hf'.
  destruct (left_alone_trans _ _ _ Hl Hf') as (I & S & V).
  unfold get_current_velocity, written_packets, port_status.
  rewrite I, S, V, S2, V2. cbn. repeat split.
Qed.

(** ** What can stop the receive loop *)

Lemma zero_length_marker_cons (b0 b1 b2 : Z) (tl : bytes) :
  zero_length_marker (b0 :: b1 :: b2 :: tl) =
  (b0 =? HEADER1) && (b1 =? HEADER2) && (b2 =? 0)
  || zero_length_marker (b1 :: b2 :: tl).
Proof. reflexivity. Qed.

Lemma zero_length_marker_tail (b0 : Z) (rest : bytes) :
  zero_length_marker (b0 :: rest) = false ->
  zero_length_marker rest = false.
Proof.
  destruct rest as [|b1 [|b2 tl]]; try reflexivity.
  rewrite zero_length_marker_cons. intros H.
  apply orb_false_iff in H. apply H.
Qed.

Lemma zero_length_marker_skipn (k : nat) (buffer : bytes) :
  zero_length_marker buffer = false ->
  zero_length_marker (skipn k buffer) = false.
Proof.
  revert buffer. induction k as [|k IH]; intros buffer H; [exact H|].
  destruct buffer as [|b0 rest]; [reflexivity|].
  cbn [skipn]. apply IH, (zero_length_marker_tail _ _ H).
Qed.

Lemma Forall_is_byte_skipn (k : nat) (buffer : bytes) :
  Forall is_byte buffer -> Forall is_byte (skipn k buffer).
Proof.
  revert buffer. induction k as [|k IH]; intros buffer H; [exact H|].
  destruct buffer as [|b0 rest]; [constructor|].
  cbn [skipn]. apply IH. inversion H; assumption.
Qed.

(** What an iteration leaves is a tail of what it was given. *)
Lemma scan_packet_tail (buffer : bytes) (r : scanned) :
  scan_packet buffer = Ok r ->
  match r with
  | NoHeader => True
  | NeedMore _ rest | BadChecksum _ _ rest | GoodPacket _ _ _ _ rest =>
      exists k, rest = skipn k buffer
  end.
Proof.
  unfold scan_packet.
  destruct (find_header buffer) as [h|]; [|intros [= <-]; exact I].
  destruct (length (skipn h buffer) <? 4)%nat;
    [intros [= <-]; exists h; reflexivity|].
  destruct (_ <? _); [intros [= <-]; exists h; reflexivity|].
  destruct (last_byte _); cbn [bind]; [|discriminate].
  destruct (_ =? _).
  - destruct (index _ _); cbn [bind]; [|discriminate].
    intros [= <-]. eexists. apply skipn_skipn.
  - intros [= <-]. eexists. apply skipn_skipn.
Qed.

(** An iteration raises only on a marker followed by a zero length byte. *)
Lemma scan_packet_raises_on_zero (buffer : bytes) (e : exn) :
  Forall is_byte buffer ->
  scan_packet buffer = Raise e ->
  zero_length_marker buffer = true.
Proof.
  intros Hb H.
  destruct (zero_length_marker buffer) eqn:Ez; [reflexivity|exfalso].
  revert H. unfold scan_packet.
  destruct (find_header buffer) as [h|] eqn:Ef; [|discriminate].
  destruct (find_header_Some _ _ Ef) as [tl Etl].
  pose proof (zero_length_marker_skipn h _ Ez) as Ez'.
  pose proof (Forall_is_byte_skipn h _ Hb) as Hb'.
  rewrite Etl in *.
  destruct tl as [|L [|x tl]]; try discriminate.
  change (length (HEADER1 :: HEADER2 :: L :: x :: tl) <? 4)%nat with false.
  change (nth 2 (HEADER1 :: HEADER2 :: L :: x :: tl) 0) with L.
  cbv iota.
  destruct (_ <? L); [discriminate|].
  assert (HL : is_byte L).
  { inversion Hb' as [|? ? _ H1]. inversion H1 as [|? ? _ H2].
    inversion H2. assumption. }
  unfold is_byte in HL.
  destruct (Z.to_nat L) as [|[|[|[|m]]]] eqn:EL.
  - assert (L = 0) as -> by lia. discriminate Ez'.
  - assert (L = 1) as -> by lia. cbn. discriminate.
  - assert (L = 2) as -> by lia. cbn. discriminate.
  - assert (L = 3) as -> by lia. cbn. discriminate.
  - cbn [firstn]. unfold last_byte, index. cbn [nth_error bind].
    destruct (_ =? _); discriminate.
Qed.

Lemma telemetry_header_cons (b0 b1 b2 b3 : Z) (tl : bytes) :
  telemetry_header (b0 :: b1 :: b2 :: b3 :: tl) =
  (b0 =? HEADER1) && (b1 =? HEADER2) && (b2 =? 25)
  && (b3 =? ID_INTEGRATED_DATA)
  || telemetry_header (b1 :: b2 :: b3 :: tl).
Proof. reflexivity. Qed.

Lemma telemetry_header_tail (b0 : Z) (rest : bytes) :
  telemetry_header (b0 :: rest) = false ->
  telemetry_header rest = false.
Proof.
  destruct rest as [|b1 [|b2 [|b3 tl]]]; try reflexivity.
  rewrite telemetry_header_cons. intros H.
  apply orb_false_iff in H. apply H.
Qed.

Lemma telemetry_header_skipn (k : nat) (buffer : bytes) :
  telemetry_header buffer = false ->
  telemetry_header (skipn k buffer) = false.
Proof.
  revert buffer. induction k as [|k IH]; intros buffer H; [exact H|].
  destruct buffer as [|b0 rest]; [reflexivity|].
  cbn [skipn]. apply IH, (telemetry_header_tail _ _ H).
Qed.

(** A packet the loop hands on as telemetry (the identifier [0x10], 20 bytes
    of payload) starts with a telemetry header in the buffer. *)
Lemma scan_packet_telemetry (buffer : bytes) (h : nat) (L cmd : Z)
      (data rest : bytes) :
  scan_packet buffer = Ok (GoodPacket h L cmd data rest) ->
  (cmd =? ID_INTEGRATED_DATA) && (length data =? 20)%nat = true ->
  telemetry_header buffer = true.
Proof.
  intros Hs Hc.
  destruct (telemetry_header buffer) eqn:Et; [reflexivity|exfalso].
  revert Hs. unfold scan_packet.
  destruct (find_header buffer) as [h'|] eqn:Ef; [|discriminate].
  destruct (find_header_Some _ _ Ef) as [tl Etl].
  pose proof (telemetry_header_skipn h' _ Et) as Et'.
  rewrite Etl in *.
  destruct tl as [|L' [|x tl]]; try discriminate.
  change (length (HEADER1 :: HEADER2 :: L' :: x :: tl) <? 4)%nat with false.
  change (nth 2 (HEADER1 :: HEADER2 :: L' :: x :: tl) 0) with L'.
  cbv iota.
  destruct (_ <? L') eqn:El; [discriminate|].
  apply Z.ltb_ge in El.
  set (whole := HEADER1 :: HEADER2 :: L' :: x :: tl) in *.
  destruct (last_byte _); cbn [bind]; [|discriminate].
  destruct (Z.land _ _ =? _); [|discriminate].
  destruct (index _ 3) as [cmd'|] eqn:Ei; cbn [bind]; [|discriminate].
  intros [= _ _ Ecmd Edata _].
  change (skipn 4 (removelast (firstn (Z.to_nat L') whole)) = data) in Edata.
  apply andb_prop in Hc. destruct Hc as [Hid Hlen].
  apply Nat.eqb_eq in Hlen.
  assert (HL : Z.to_nat L' = 25%nat).
  { rewrite <- Edata in Hlen.
    rewrite length_skipn, removelast_firstn_len, !length_firstn in Hlen.
    lia. }
  rewrite HL in Ei. subst cmd'.
  assert (L' = 25) as -> by lia.
  unfold whole in Ei, Et'. cbn in Ei. injection Ei as ->.
  rewrite telemetry_header_cons in Et'.
  rewrite Hid in Et'. discriminate Et'.
Qed.

Section Containment.

Variable cos sin : float -> float.
Variable time_time : nat -> float.

Lemma set_last_update_time_twice (c : Controller) (t t' : float) :
  set_last_update_time (set_last_update_time c t) t' =
  set_last_update_time c t'.
Proof. reflexivity. Qed.

Lemma set_last_update_time_same (c : Controller) :
  set_last_update_time c (last_update_time c) = c.
Proof. destruct c. reflexivity. Qed.

Lemma inner_loop_contained (fuel : nat) (c : Controller) (n : nat)
      (buffer : bytes) (r : loop_result) :
  Forall is_byte buffer ->
  zero_length_marker buffer = false ->
  telemetry_header buffer = false ->
  inner_loop cos sin time_time fuel c n buffer = Some r ->
  exists t n' buffer', r = LoopDone (set_last_update_time c t) n' buffer'.
Proof.
  revert c n buffer.
  induction fuel as [|fuel IH]; intros c n buffer Hb Hz Ht;
    destruct (length buffer <? 5)%nat eqn:E5;
    try (rewrite inner_loop_short by exact E5; intros [= <-];
         exists (last_update_time c); eexists _, _;
         rewrite set_last_update_time_same; reflexivity).
  - cbn [inner_loop]. rewrite E5. discriminate.
  - rewrite inner_loop_step by exact E5.
    destruct (scan_packet buffer) as [s|e] eqn:Es.
    + pose proof (scan_packet_tail _ _ Es) as Hk.
      destruct s as [|h rest|h L rest|h L cmd data rest];
        try (intros [= <-]; exists (last_update_time c); eexists _, _;
             rewrite set_last_update_time_same; reflexivity);
        destruct Hk as [k ->].
      * apply IH;
          [apply Forall_is_byte_skipn, Hb
          |apply zero_length_marker_skipn, Hz
          |apply telemetry_header_skipn, Ht].
      * destruct ((cmd =? ID_INTEGRATED_DATA) && (length data =? 20)%nat)
          eqn:Ec.
        { rewrite (scan_packet_telemetry _ _ _ _ _ _ Es Ec) in Ht.
          discriminate. }
        rewrite (process_other cos sin c cmd data (time_time n) Ec).
        intros H. apply IH in H;
          [|apply Forall_is_byte_skipn, Hb
           |apply zero_length_marker_skipn, Hz
           |apply telemetry_header_skipn, Ht].
        destruct H as (t & n' & buffer' & ->).
        rewrite set_last_update_time_twice. eexists _, _, _. reflexivity.
    + rewrite (scan_packet_raises_on_zero _ _ Hb Es) in Hz. discriminate.
Qed.

(** X13. Bytes that hold neither a marker followed by a zero length byte
    ([AA 55 00]) nor the header of a telemetry packet ([AA 55 19 10]) go
    through the receive loop without consequence: the pass ends normally and
    the loop goes on, whatever else the bytes are (noise, damaged packets,
    whole packets of other identifiers); the session stays as it was,
    connection flag and telemetry included, but for the time stamp, which a
    whole packet of another identifier moves. Telemetry headers are left out
    because a telemetry packet reaches [math.cos]. *)
Theorem receive_pass_contains_noise (c : Controller) (n : nat)
        (buffer received : bytes) :
  is_running c = true ->
  Forall is_byte (buffer ++ received) ->
  zero_length_marker (buffer ++ received) = false ->
  telemetry_header (buffer ++ received) = false ->
  exists t n' buffer',
    receive_pass cos sin time_time c n buffer (Ok received) =
      Continue (set_last_update_time c t) n' buffer'.
Proof.
  intros Hr Hb Hz Ht. unfold receive_pass. rewrite Hr. cbn [negb].
  pose proof (drain_inner_loop cos sin time_time c n (buffer ++ received))
    as Hd.
  destruct (inner_loop_contained _ _ _ _ _ Hb Hz Ht Hd)
    as (t & n' & b' & E).
  rewrite E. exists t, n', b'. reflexivity.
Qed.

(** X14. A telemetry packet on the line is published as physical values:
    when the loop reads the packet that carries the raw values of a sample,
    it is consumed whole and the read-back methods return the battery
    voltage [bat/100.0], the body velocity [raw/1000.0], the scaled inertial
    data, and the time stamp of the clock reading taken for it. *)
Theorem telemetry_published (c : Controller) (n : nat)
        (ax ay az gx gy gz vx vy vw bat : Z) :
  is_running c = true ->
  Forall is_int16 [ax; ay; az; gx; gy; gz; vx; vy; vw] ->
  is_uint16 bat ->
  exists packet c',
    make_packet ID_INTEGRATED_DATA
      (telemetry_payload [ax; ay; az; gx; gy; gz; vx; vy; vw; bat]) =
      Ok packet /\
    receive_pass cos sin time_time c n [] (Ok packet) =
      Continue c' (S n) [] /\
    get_battery_voltage c' = (float_of_int bat / 100.0)%float /\
    OdometryData.vx (get_odometry c') = (float_of_int vx / 1000.0)%float /\
    OdometryData.vy (get_odometry c') = (float_of_int vy / 1000.0)%float /\
    OdometryData.vw (get_odometry c') = (float_of_int vw / 1000.0)%float /\
    get_imu_data c' =
      IMUData.mk
        ((float_of_int ax / 32768.0) * 2.0 * 9.80665)%float
        ((float_of_int ay / 32768.0) * 2.0 * 9.80665)%float
        ((float_of_int az / 32768.0) * 2.0 * 9.80665)%float
        ((float_of_int gx / 32768.0) * 500.0 * (math_pi / 180.0))%float
        ((float_of_int gy / 32768.0) * 500.0 * (math_pi / 180.0))%float
        ((float_of_int gz / 32768.0) * 500.0 * (math_pi / 180.0))%float /\
    last_update_time c' = time_time n.
Proof.
  intros Hr Hs Hbat.
  repeat match goal with
         | H : Forall _ (_ :: _) |- _ =>
             apply Forall_cons_iff in H; destruct H as [? H]
         end.
  set (data := telemetry_payload [ax; ay; az; gx; gy; gz; vx; vy; vw; bat]).
  assert (Hlen : length data = 20%nat) by reflexivity.
  destruct (make_packet ID_INTEGRATED_DATA data) as [packet|e] eqn:Hm.
  2:{ rewrite make_packet_checksum in Hm;
        [discriminate|unfold ID_INTEGRATED_DATA; lia|lia]. }
  exists packet. eexists. split; [reflexivity|].
  unfold receive_pass. rewrite Hr. cbn [negb app].
  rewrite <- (app_nil_r packet), (drain_packet _ _ _ _ _ _ _ _ _ Hm).
  rewrite drain_short by reflexivity.
  split; [reflexivity|].
  rewrite (process_integrated cos sin c data (time_time n) Hlen).
  cbv zeta. destruct (if (_ <? _)%float then _ else _) as [[x y] theta].
  unfold get_battery_voltage, get_odometry, get_imu_data.
  cbn [battery_voltage odometry_data imu_data last_update_time
       set_last_update_time set_telemetry OdometryData.vx OdometryData.vy
       OdometryData.vw].
  unfold data, telemetry_payload, field_h, field_H, le16.
  cbn [flat_map app nth Nat.mul Nat.add].
  rewrite !unpack_h_le16, unpack_H_le16 by assumption.
  repeat split.
Qed.

End Containment.

(** ** The range of the published values *)

Lemma byte_values_complete (v : Z) : is_byte v -> In v byte_values.
Proof.
  unfold is_byte, byte_values. intros H. apply in_map_iff.
  exists (Z.to_nat v). split; [lia|]. apply in_seq. lia.
Qed.

Lemma for_all_pairs_spec (P : Z -> Z -> bool) (lo hi : Z) :
  for_all_pairs P = true -> is_byte lo -> is_byte hi -> P lo hi = true.
Proof.
  unfold for_all_pairs. intros H Hl Hh.
  rewrite forallb_forall in H.
  specialize (H lo (byte_values_complete _ Hl)).
  rewrite forallb_forall in H. apply H, byte_values_complete, Hh.
Qed.

(** Every pair of bytes, tried. *)
Lemma fields_in_range :
  for_all_pairs signed_field_in_range = true /\
  for_all_pairs unsigned_field_in_range = true.
Proof. split; vm_compute; reflexivity. Qed.

Lemma signed_field_ranges (lo hi : Z) :
  is_byte lo -> is_byte hi ->
  let raw := float_of_int (unpack_h lo hi) in
  within (- accel_range) accel_range
         ((raw / 32768.0) * 2.0 * GRAVITY)%float = true /\
  within (- gyro_range) gyro_range
         ((raw / 32768.0) * 500.0 * (math_pi / 180.0))%float = true /\
  within (-32.768) 32.767 (raw / 1000.0)%float = true.
Proof.
  intros Hl Hh.
  pose proof (for_all_pairs_spec _ lo hi (proj1 fields_in_range) Hl Hh) as H.
  unfold signed_field_in_range in H. cbv zeta in *.
  apply andb_prop in H. destruct H as [H H3].
  apply andb_prop in H. destruct H as [H1 H2]. auto.
Qed.

(** X15. Whatever 20 bytes a telemetry packet carries, what is published is
    a number inside the range of its sensor, never a NaN or an infinity:
    each acceleration within 2 g, each angular rate within 500 degrees per
    second, each body velocity from -32.768 to 32.767, and the battery
    voltage from 0 to 655.35. *)
Theorem telemetry_in_range (cos sin : float -> float) (c : Controller)
        (data : bytes) (t : float) :
  length data = 20%nat -> Forall is_byte data ->
  let c' := _process_received_data cos sin c ID_INTEGRATED_DATA data t in
  let imu := get_imu_data c' in
  let o := get_odometry c' in
  (within (- accel_range) accel_range (IMUData.accel_x imu) = true /\
   within (- accel_range) accel_range (IMUData.accel_y imu) = true /\
   within (- accel_range) accel_range (IMUData.accel_z imu) = true) /\
  (within (- gyro_range) gyro_range (IMUData.gyro_x imu) = true /\
   within (- gyro_range) gyro_range (IMUData.gyro_y imu) = true /\
   within (- gyro_range) gyro_range (IMUData.gyro_z imu) = true) /\
  (within (-32.768) 32.767 (OdometryData.vx o) = true /\
   within (-32.768) 32.767 (OdometryData.vy o) = true /\
   within (-32.768) 32.767 (OdometryData.vw o) = true) /\
  within 0 655.35 (get_battery_voltage c') = true.
Proof.
  intros Hlen Hb. cbv zeta.
  rewrite (process_integrated cos sin c data t Hlen). cbv zeta.
  destruct (if (_ <? _)%float then _ else _) as [[x y] theta].
  unfold get_imu_data, get_odometry, get_battery_voltage.
  cbn [battery_voltage odometry_data imu_data set_last_update_time
       set_telemetry OdometryData.vx OdometryData.vy OdometryData.vw
       IMUData.accel_x IMUData.accel_y IMUData.accel_z
       IMUData.gyro_x IMUData.gyro_y IMUData.gyro_z].
  destruct data as
    [|a0 [|a1 [|b0 [|b1 [|c0 [|c1 [|d0 [|d1 [|e0 [|e1
     [|f0 [|f1 [|g0 [|g1 [|h0 [|h1 [|i0 [|i1 [|j0 [|j1 [|? ?]
     ]]]]]]]]]]]]]]]]]]]]; try discriminate Hlen.
  repeat match goal with
         | H : Forall _ (_ :: _) |- _ =>
             apply Forall_cons_iff in H; destruct H as [? H]
         end.
  unfold field_h, field_H. cbn [nth Nat.mul Nat.add].
  pose proof (signed_field_ranges a0 a1) as Ha.
  pose proof (signed_field_ranges b0 b1) as Hb'.
  pose proof (signed_field_ranges c0 c1) as Hc.
  pose proof (signed_field_ranges d0 d1) as Hd.
  pose proof (signed_field_ranges e0 e1) as He.
  pose proof (signed_field_ranges f0 f1) as Hf.
  pose proof (signed_field_ranges g0 g1) as Hg.
  pose proof (signed_field_ranges h0 h1) as Hh.
  pose proof (signed_field_ranges i0 i1) as Hi.
  cbv zeta in *.
  repeat split;
    try (apply Ha; assumption); try (apply Hb'; assumption);
    try (apply Hc; assumption); try (apply Hd; assumption);
    try (apply He; assumption); try (apply Hf; assumption);
    try (apply Hg; assumption); try (apply Hh; assumption);
    try (apply Hi; assumption).
  apply (for_all_pairs_spec _ j0 j1 (proj2 fields_in_range)); assumption.
Qed.

(** ** Instances *)

Lemma receive_pass_in_order_witness :
  receive_pass cos_series sin_series clock_seconds moving_session 0 []
    (Ok (concat [[0xAA; 0x55; 0x06; 0x54; 0x01; 0x5A];
                 [0xAA; 0x55; 0x06; 0x53; 0x55; 0xAD]] ++ [0xAA; 0x55])) =
  Continue
    (process_frames cos_series sin_series clock_seconds moving_session 0
       [(CMD_BEEPER, [1]); (CMD_LIGHT_SAVE, [0x55])])
    (0 + length [(CMD_BEEPER, [1]); (CMD_LIGHT_SAVE, [0x55])])
    [0xAA; 0x55].
Proof.
  apply (receive_pass_in_order cos_series sin_series clock_seconds
           moving_session 0
           [(CMD_BEEPER, [1]); (CMD_LIGHT_SAVE, [0x55])]
           [[0xAA; 0x55; 0x06; 0x54; 0x01; 0x5A];
            [0xAA; 0x55; 0x06; 0x53; 0x55; 0xAD]]
           [0xAA; 0x55]).
  - reflexivity.
  - repeat constructor.
  - simpl. lia.
Defined.

Lemma receive_in_pieces_witness :
  _receive_data cos_series sin_series clock_seconds moving_session
    (map Ok [[0xAA]; []; [0x55; 0x06]; [0x54; 0x01; 0x5A]]) =
  Continue
    (_process_received_data cos_series sin_series moving_session
       CMD_BEEPER [1] (clock_seconds 0))
    1 [].
Proof.
  apply (receive_in_pieces cos_series sin_series clock_seconds
           moving_session CMD_BEEPER [1]
           [0xAA; 0x55; 0x06; 0x54; 0x01; 0x5A]
           [[0xAA]; []; [0x55; 0x06]; [0x54; 0x01; 0x5A]]);
    reflexivity.
Defined.

Lemma split_marker_loses_packet_witness :
  receive_run cos_series sin_series clock_seconds moving_session 0 []
    [Ok ([1; 2; 3; 4] ++ [HEADER1]);
     Ok (tl [0xAA; 0x55; 0x06; 0x54; 0x01; 0x5A])] =
    Continue moving_session 0 [] /\
  receive_run cos_series sin_series clock_seconds moving_session 0 []
    [Ok ([1; 2; 3; 4] ++ [0xAA; 0x55; 0x06; 0x54; 0x01; 0x5A])] =
    Continue
      (_process_received_data cos_series sin_series moving_session
         CMD_BEEPER [1] (clock_seconds 0))
      1 [].
Proof.
  apply (split_marker_loses_packet cos_series sin_series clock_seconds
           moving_session 0 [1; 2; 3; 4] CMD_BEEPER [1]
           [0xAA; 0x55; 0x06; 0x54; 0x01; 0x5A]);
    try reflexivity; simpl; lia.
Defined.

Lemma set_velocity_on_the_wire_witness :
  exists c' packet data,
    set_velocity moving_session 1.5 0 (-0.5) = Return c' /\
    written_packets c' = written_packets moving_session ++ [packet] /\
    scan_packet packet = Ok (GoodPacket 0 11 CMD_VELOCITY data []) /\
    field_h data 0 = 1500 /\ field_h data 1 = 0 /\ field_h data 2 = -500.
Proof.
  apply (set_velocity_on_the_wire moving_session (Serial.mk true false [])
           1.5 0 (-0.5) 1500 0 (-500));
    try reflexivity; unfold is_int16; lia.
Defined.

Lemma set_velocity_write_failure_witness :
  let c := set_serial_conn moving_session (Some (Serial.mk true true [])) in
  set_velocity c 0.25 0 0 =
    Return (set_current_velocity c (Velocity.mk 0.25 0 0)) /\
  get_current_velocity (state_of (set_velocity c 0.25 0 0)) =
    Velocity.mk 0.25 0 0 /\
  written_packets (state_of (set_velocity c 0.25 0 0)) = written_packets c.
Proof.
  cbv zeta.
  apply (set_velocity_write_failure
           (set_serial_conn moving_session (Some (Serial.mk true true [])))
           (Serial.mk true true []) 0.25 0 0 250 0 0);
    try reflexivity; unfold is_int16; lia.
Defined.

Lemma set_rgb_light_clamps_witness :
  (exists c' packet,
      set_rgb_light moving_session 300 (-5) 128 1 = Return c' /\
      written_packets c' = written_packets moving_session ++ [packet] /\
      scan_packet packet =
        Ok (GoodPacket 0 11 CMD_RGB_LIGHT
              [1; 0; 0; clamp_byte 300; clamp_byte (-5); clamp_byte 128]
              [])) /\
  set_rgb_light moving_session 300 (-5) 128 256 =
    Raised StructError moving_session.
Proof.
  split.
  - apply (proj1 (set_rgb_light_clamps moving_session
                    (Serial.mk true false []) 300 (-5) 128 1
                    eq_refl eq_refl eq_refl eq_refl)).
    lia.
  - apply (proj2 (set_rgb_light_clamps moving_session
                    (Serial.mk true false []) 300 (-5) 128 256
                    eq_refl eq_refl eq_refl eq_refl)).
    lia.
Defined.


Lemma session_lifecycle_witness :
  exists w' first new last,
    Threaded.with_controller
      (Threaded.mkWorld (__init__ 0) false
         [[]; [Threaded.Publishes OdometryData.default IMUData.default
                 12.0 1.0]; []])
      R20_FWD (Ok (Serial.mk true false []))
      (fun w =>
         Threaded.Returned tt
           (Threaded.calls w [SetBeeper true; SetVelocity 0.5 0 0])) =
      Threaded.Exited (Threaded.Returned tt w') /\
    written_packets (Threaded.self w') = [] ++ first ++ new ++ last /\
    (first = [] \/ first = [robot_type_packet R20_FWD]) /\
    (length new <= 2)%nat /\
    Forall well_formed_packet new /\
    (last = [] \/ last = [stop_packet]) /\
    is_connected (Threaded.self w') = false /\
    (port_status (Threaded.self w') = Some (false, false) /\
     is_running (Threaded.self w') = false \/
     port_status (Threaded.self w') = Some (true, false) /\
     is_running (Threaded.self w') = true /\ last = []) /\
    (last = [stop_packet] ->
     port_status (Threaded.self w') = Some (false, false) /\
     get_current_velocity (Threaded.self w') = Velocity.mk 0 0 0) /\
    (true = true ->
     first = [robot_type_packet R20_FWD] /\ last = [stop_packet] /\
     port_status (Threaded.self w') = Some (false, false) /\
     is_running (Threaded.self w') = false /\
     get_current_velocity (Threaded.self w') = Velocity.mk 0 0 0) /\
    forall more,
      left_alone (Threaded.self w')
                 (Threaded.self (Threaded.calls w' more)).
Proof.
  apply (session_lifecycle
           (Threaded.mkWorld (__init__ 0) false
              [[]; [Threaded.Publishes OdometryData.default IMUData.default
                      12.0 1.0]; []])
           R20_FWD (Serial.mk true false [])
           [SetBeeper true; SetVelocity 0.5 0 0]);
    reflexivity.
Defined.

Lemma run_test_sequence_stops_witness :
  let w := Threaded.mkWorld moving_session true
             [[]; [Threaded.Publishes OdometryData.default IMUData.default
                     12.0 1.0]] in
  let w' := Threaded.world_of (Threaded.run_test_sequence w 40.0) in
  port_status (Threaded.self w') = port_status (Threaded.self w) /\
  (exists new,
      written_packets (Threaded.self w') =
        written_packets (Threaded.self w) ++ new /\
      (length new <= 9)%nat /\ Forall well_formed_packet new) /\
  (is_connected (Threaded.self w') = true ->
   get_current_velocity (Threaded.self w') = Velocity.mk 0 0 0 /\
   (port_status (Threaded.self w') = Some (true, false) ->
    exists before,
      written_packets (Threaded.self w') = before ++ [stop_packet])) /\
  (Threaded.undisturbed w = true ->
   is_connected (Threaded.self w') = is_connected (Threaded.self w)).
Proof.
  intros w.
  exact (run_test_sequence_stops w 40.0).
Defined.

Lemma run_test_sequence_left_moving_witness :
  exists packet,
    make_packet CMD_VELOCITY (le16 250 ++ le16 0 ++ le16 0) = Ok packet /\
    let w' := Threaded.world_of
                (Threaded.run_test_sequence
                   (Threaded.mkWorld moving_session true
                      [[]; []; [Threaded.Drops]; []])
                   0.25) in
    is_connected (Threaded.self w') = false /\
    get_current_velocity (Threaded.self w') = Velocity.mk 0.25 0 0 /\
    written_packets (Threaded.self w') = [] ++ [packet] /\
    port_status (Threaded.self w') = Some (true, false).
Proof.
  apply (run_test_sequence_left_moving
           (Threaded.mkWorld moving_session true
              [[]; []; [Threaded.Drops]; []])
           0.25 250 (Serial.mk true false []) [Threaded.Drops] [[]]);
    try reflexivity.
  - unfold is_int16. lia.
  - left. reflexivity.
Defined.

Lemma receive_pass_contains_noise_witness :
  exists t n' buffer',
    receive_pass cos_series sin_series clock_seconds moving_session 0
      [0xAA; 0x55; 0x01]
      (Ok [0x00; 0xAA; 0x55; 0x06; 0x54; 0x01; 0x5A; 0xAA]) =
      Continue (set_last_update_time moving_session t) n' buffer'.
Proof.
  apply (receive_pass_contains_noise cos_series sin_series clock_seconds
           moving_session 0 [0xAA; 0x55; 0x01]
           [0x00; 0xAA; 0x55; 0x06; 0x54; 0x01; 0x5A; 0xAA]).
  - reflexivity.
  - repeat constructor; unfold is_byte; lia.
  - reflexivity.
  - reflexivity.
Defined.

Lemma telemetry_published_witness :
  exists packet c',
    make_packet ID_INTEGRATED_DATA
      (telemetry_payload [100; -200; 16384; 0; 0; 0; 300; 0; -150; 1190]) =
      Ok packet /\
    receive_pass cos_series sin_series clock_seconds moving_session 7 []
                 (Ok packet) =
      Continue c' 8 [] /\
    get_battery_voltage c' = (float_of_int 1190 / 100.0)%float /\
    OdometryData.vx (get_odometry c') = (float_of_int 300 / 1000.0)%float /\
    OdometryData.vy (get_odometry c') = (float_of_int 0 / 1000.0)%float /\
    OdometryData.vw (get_odometry c') =
      (float_of_int (-150) / 1000.0)%float /\
    get_imu_data c' =
      IMUData.mk
        ((float_of_int 100 / 32768.0) * 2.0 * 9.80665)%float
        ((float_of_int (-200) / 32768.0) * 2.0 * 9.80665)%float
        ((float_of_int 16384 / 32768.0) * 2.0 * 9.80665)%float
        ((float_of_int 0 / 32768.0) * 500.0 * (math_pi / 180.0))%float
        ((float_of_int 0 / 32768.0) * 500.0 * (math_pi / 180.0))%float
        ((float_of_int 0 / 32768.0) * 500.0 * (math_pi / 180.0))%float /\
    last_update_time c' = clock_seconds 7.
Proof.
  apply (telemetry_published cos_series sin_series clock_seconds
           moving_session 7 100 (-200) 16384 0 0 0 300 0 (-150) 1190).
  - reflexivity.
  - repeat constructor; unfold is_int16; lia.
  - unfold is_uint16. lia.
Defined.

Lemma telemetry_in_range_witness :
  let c' := _process_received_data cos_series sin_series moving_session
              ID_INTEGRATED_DATA (repeat 0xFF 20) 1 in
  let imu := get_imu_data c' in
  let o := get_odometry c' in
  (within (- accel_range) accel_range (IMUData.accel_x imu) = true /\
   within (- accel_range) accel_range (IMUData.accel_y imu) = true /\
   within (- accel_range) accel_range (IMUData.accel_z imu) = true) /\
  (within (- gyro_range) gyro_range (IMUData.gyro_x imu) = true /\
   within (- gyro_range) gyro_range (IMUData.gyro_y imu) = true /\
   within (- gyro_range) gyro_range (IMUData.gyro_z imu) = true) /\
  (within (-32.768) 32.767 (OdometryData.vx o) = true /\
   within (-32.768) 32.767 (OdometryData.vy o) = true /\
   within (-32.768) 32.767 (OdometryData.vw o) = true) /\
  within 0 655.35 (get_battery_voltage c') = true.
Proof.
  apply (telemetry_in_range cos_series sin_series moving_session
           (repeat 0xFF 20) 1).
  - reflexivity.
  - repeat constructor; unfold is_byte; lia.
Defined.

(** ** What can be framed, and what the checksum cannot see *)

(** X16. [_send_packet] can frame a payload of at most 250 bytes under an
    identifier that is a byte, and nothing else: within these bounds the
    packet is built, 5 bytes longer than the payload, starting with the
    marker and its own length; outside them [struct.pack] raises
    [struct.error] and no packet exists. *)
Theorem make_packet_domain (cmd_id : Z) (data : bytes) :
  (0 <= cmd_id <= 255 /\ (length data <= 250)%nat ->
   exists tl,
     make_packet cmd_id data =
       Ok (HEADER1 :: HEADER2 :: Z.of_nat (5 + length data) :: tl) /\
     length (HEADER1 :: HEADER2 :: Z.of_nat (5 + length data) :: tl) =
       (5 + length data)%nat) /\
  (~ (0 <= cmd_id <= 255 /\ (length data <= 250)%nat) ->
   make_packet cmd_id data = Raise StructError).
Proof.
  split.
  - intros [Hc Hl]. eexists. rewrite make_packet_checksum by assumption.
    split.
    + replace (Z.of_nat (5 + length data)) with (5 + Z.of_nat (length data))
        by lia.
      reflexivity.
    + cbn [length]. rewrite length_app. cbn [length]. lia.
  - intros H.
    destruct (make_packet cmd_id data) as [packet|e] eqn:E.
    + apply make_packet_inv in E. tauto.
    + f_equal. revert E. unfold make_packet, pack_BBBB, pack_B.
      repeat match goal with
             | |- context [if ?b then _ else _] =>
                 destruct b; cbn [bind]
             end; congruence.
Qed.

Lemma make_packet_domain_witness :
  (exists tl,
      make_packet CMD_BEEPER [1] =
        Ok (HEADER1 :: HEADER2 :: Z.of_nat (5 + length [1]) :: tl) /\
      length (HEADER1 :: HEADER2 :: Z.of_nat (5 + length [1]) :: tl) =
        (5 + length [1])%nat) /\
  make_packet CMD_BEEPER (repeat 0 251) = Raise StructError /\
  make_packet 256 [1] = Raise StructError.
Proof.
  split; [|split].
  - apply (proj1 (make_packet_domain CMD_BEEPER [1])).
    unfold CMD_BEEPER. cbn [length]. lia.
  - apply (proj2 (make_packet_domain CMD_BEEPER (repeat 0 251))).
    rewrite repeat_length. lia.
  - apply (proj2 (make_packet_domain 256 [1])). lia.
Defined.

Lemma sum_Permutation (a b : bytes) : Permutation a b -> sum a = sum b.
Proof.
  unfold sum. induction 1; cbn [fold_right]; lia.
Qed.

(** X17. The checksum does not see the order of the bytes: when the payload
    of a packet is replaced by any reordering of itself, with the header and
    the checksum byte left as they are, the scanner accepts the result as a
    packet with the reordered payload. *)
Theorem checksum_blind_to_order (cmd_id : Z) (data data' packet : bytes) :
  Permutation data data' ->
  make_packet cmd_id data = Ok packet ->
  exists header ck,
    length header = 4%nat /\
    packet = header ++ data ++ [ck] /\
    scan_packet (header ++ data' ++ [ck]) =
    Ok (GoodPacket 0 (5 + Z.of_nat (length data)) cmd_id data' []).
Proof.
  intros Hp H. apply make_packet_inv in H. destruct H as (_ & _ & ->).
  pose proof (Permutation_length Hp) as Hl.
  set (L := 5 + Z.of_nat (length data)).
  exists [HEADER1; HEADER2; L; cmd_id], (checksum_of L cmd_id data).
  split; [reflexivity|]. split; [reflexivity|].
  pose proof (scan_packet_shape [] L cmd_id data' (checksum_of L cmd_id data)
                [] eq_refl) as S.
  cbn [app length] in S |- *. rewrite S by (unfold L; lia).
  replace (checksum_of L cmd_id data' =? checksum_of L cmd_id data)
    with true; [reflexivity|].
  symmetry. apply Z.eqb_eq. unfold checksum_of.
  rewrite (sum_Permutation _ _ Hp). reflexivity.
Qed.

Lemma checksum_blind_to_order_witness :
  exists header ck,
    length header = 4%nat /\
    [0xAA; 0x55; 0x0B; 0x50; 0x2C; 0x01; 0; 0; 0x0C; 0xFE; 0x91] =
      header ++ [0x2C; 0x01; 0; 0; 0x0C; 0xFE] ++ [ck] /\
    scan_packet (header ++ [0; 0; 0x2C; 0x01; 0x0C; 0xFE] ++ [ck]) =
    Ok (GoodPacket 0 (5 + Z.of_nat (length [0x2C; 0x01; 0; 0; 0x0C; 0xFE]))
                   CMD_VELOCITY [0; 0; 0x2C; 0x01; 0x0C; 0xFE] []).
Proof.
  apply (checksum_blind_to_order CMD_VELOCITY
           [0x2C; 0x01; 0; 0; 0x0C; 0xFE] [0; 0; 0x2C; 0x01; 0x0C; 0xFE]
           [0xAA; 0x55; 0x0B; 0x50; 0x2C; 0x01; 0; 0; 0x0C; 0xFE; 0x91]).
  - change [0x2C; 0x01; 0; 0; 0x0C; 0xFE]
      with ([0x2C; 0x01] ++ [0; 0] ++ [0x0C; 0xFE]).
    change [0; 0; 0x2C; 0x01; 0x0C; 0xFE]
      with ([0; 0] ++ [0x2C; 0x01] ++ [0x0C; 0xFE]).
    rewrite !app_assoc. apply Permutation_app_tail, Permutation_app_comm.
  - reflexivity.
Defined.

(** ** A damaged packet in front of a good one *)

(** A packet with one bit flipped behind its length byte is dropped whole,
    whatever follows it. *)
Lemma scan_packet_flipped (cmd_id : Z) (payload packet rest : bytes)
      (i : nat) (k : Z) :
  make_packet cmd_id payload = Ok packet ->
  (3 <= i < length packet)%nat ->
  0 <= k < 8 ->
  scan_packet (flip_bit i k packet ++ rest) =
  Ok (BadChecksum 0 (5 + Z.of_nat (length payload)) rest).
Proof.
  intros H Hi Hk. apply make_packet_inv in H. destruct H as (_ & _ & ->).
  set (L := 5 + Z.of_nat (length payload)) in *.
  cbn [length] in Hi. rewrite length_app in Hi. cbn [length] in Hi.
  destruct i as [|[|[|j]]]; try lia. cbn [flip_bit].
  change (cmd_id :: payload ++ [checksum_of L cmd_id payload])
    with ((cmd_id :: payload) ++ [checksum_of L cmd_id payload]).
  destruct (Nat.lt_ge_cases j (length (cmd_id :: payload))) as [Hj|Hj].
  - rewrite flip_bit_app_l by exact Hj.
    destruct (flip_bit_sum j k (cmd_id :: payload) Hk Hj) as (d & Es & Hd).
    pose proof (flip_bit_length j k (cmd_id :: payload)) as El.
    destruct (flip_bit j k (cmd_id :: payload)) as [|c' data'];
      [discriminate El|].
    cbn [length] in El. injection El as El.
    pose proof (scan_packet_shape [] L c' data'
                  (checksum_of L cmd_id payload) rest eq_refl) as S.
    cbn [app length] in S |- *. rewrite <- app_assoc. cbn [app].
    rewrite S by (unfold L; lia).
    replace (checksum_of L c' data' =? checksum_of L cmd_id payload)
      with false; [reflexivity|].
    symmetry. apply Z.eqb_neq. unfold checksum_of.
    cbn [sum fold_right] in Es. fold (sum data') (sum payload) in Es.
    replace (HEADER1 + HEADER2 + L + c' + sum data')
      with (HEADER1 + HEADER2 + L + cmd_id + sum payload + d) by lia.
    apply land_255_shift, Hd.
  - assert (j = length (cmd_id :: payload) + 0)%nat as ->
        by (cbn [length] in *; lia).
    rewrite flip_bit_app_r. cbn [flip_bit].
    destruct (flip_delta (checksum_of L cmd_id payload) k Hk) as (d & -> & Hd).
    pose proof (scan_packet_shape [] L cmd_id payload
                  (checksum_of L cmd_id payload + d) rest eq_refl eq_refl)
      as S.
    cbn [app length] in S |- *. rewrite <- app_assoc. cbn [app].
    rewrite S.
    replace (checksum_of L cmd_id payload =? checksum_of L cmd_id payload + d)
      with false; [reflexivity|].
    symmetry. apply Z.eqb_neq. intros E.
    assert (d = 0) as -> by lia. apply Hd. reflexivity.
Qed.

Section Recovery.

Variable cos sin : float -> float.
Variable time_time : nat -> float.

(** X18. A damaged packet costs only itself. When a packet with one bit
    flipped in its identifier, payload or checksum byte arrives right in
    front of an intact packet, the pass drops the damaged one without
    processing it and processes the intact one, in the same pass. *)
Theorem damaged_packet_costs_itself (c : Controller) (n : nat)
        (cmd1 : Z) (data1 packet1 : bytes) (i : nat) (k : Z)
        (cmd2 : Z) (data2 packet2 : bytes) :
  is_running c = true ->
  make_packet cmd1 data1 = Ok packet1 ->
  (3 <= i < length packet1)%nat -> 0 <= k < 8 ->
  make_packet cmd2 data2 = Ok packet2 ->
  receive_pass cos sin time_time c n []
               (Ok (flip_bit i k packet1 ++ packet2)) =
  Continue (_process_received_data cos sin c cmd2 data2 (time_time n))
           (S n) [].
Proof.
  intros Hr H1 Hi Hk H2. unfold receive_pass. rewrite Hr. cbn [negb app].
  rewrite drain_step.
  - rewrite (scan_packet_flipped _ _ _ _ _ _ H1 Hi Hk).
    rewrite <- (app_nil_r packet2), (drain_packet _ _ _ _ _ _ _ _ _ H2).
    rewrite drain_short by reflexivity. reflexivity.
  - apply Nat.ltb_ge. rewrite length_app, flip_bit_length.
    rewrite (make_packet_length _ _ _ H1). lia.
Qed.

(** X19. The inner loop ends on every buffer, within as many iterations as
    the buffer has bytes: that much fuel gives a result, and with more fuel
    the result is the same. *)
Theorem inner_loop_terminates (fuel : nat) (c : Controller) (n : nat)
        (buffer : bytes) :
  (length buffer <= fuel)%nat ->
  inner_loop cos sin time_time fuel c n buffer =
  Some (drain cos sin time_time c n buffer).
Proof.
  intros H.
  rewrite (inner_loop_fuel cos sin time_time fuel (length buffer))
    by (exact H || exact (le_n _)).
  apply drain_inner_loop.
Qed.

End Recovery.

Lemma damaged_packet_costs_itself_witness :
  receive_pass cos_series sin_series clock_seconds moving_session 3 []
    (Ok (flip_bit 4 2 [0xAA; 0x55; 0x06; 0x54; 0x01; 0x5A] ++
         [0xAA; 0x55; 0x06; 0x53; 0x55; 0xAD])) =
  Continue
    (_process_received_data cos_series sin_series moving_session
       CMD_LIGHT_SAVE [0x55] (clock_seconds 3))
    4 [].
Proof.
  apply (damaged_packet_costs_itself cos_series sin_series clock_seconds
           moving_session 3 CMD_BEEPER [1]
           [0xAA; 0x55; 0x06; 0x54; 0x01; 0x5A] 4 2
           CMD_LIGHT_SAVE [0x55] [0xAA; 0x55; 0x06; 0x53; 0x55; 0xAD]);
    try reflexivity; simpl; lia.
Defined.

Lemma inner_loop_terminates_witness :
  inner_loop cos_series sin_series clock_seconds 40 moving_session 0
    [0x01; 0xAA; 0x55; 0x06; 0x54; 0x01; 0x5A; 0xAA; 0x55; 0x09] =
  Some (drain cos_series sin_series clock_seconds moving_session 0
          [0x01; 0xAA; 0x55; 0x06; 0x54; 0x01; 0x5A; 0xAA; 0x55; 0x09]).
Proof.
  apply (inner_loop_terminates cos_series sin_series clock_seconds 40
           moving_session 0
           [0x01; 0xAA; 0x55; 0x06; 0x54; 0x01; 0x5A; 0xAA; 0x55; 0x09]).
  simpl. lia.
Defined.
